(** * remote-mcp-server-with-auth: the Cloudflare deployment tools

    A shallow embedding of the deployment side of the MCP server:
    the code validator ([deployment/validation]), the Cloudflare REST
    client ([deployment/cloudflare-api]) and the tool handlers that are
    registered on the server ([tools/*]).

    Asynchronous handlers are functions in a small monad that threads
    the log of outbound HTTP requests, the audit trail and the clock,
    and that can throw.  Everything outside the repository (the network,
    the clock, [JSON.stringify], the Supabase client, the SQL checker)
    is a field of the [World] a handler runs in. *)

From Stdlib Require Import String Ascii List Bool Arith NArith ZArith Lia.
From Stdlib Require Import DecimalString.
Import ListNotations.

Local Open Scope list_scope.
Local Open Scope string_scope.

Set Implicit Arguments.
Set Warnings "-register-all".

(* ================================================================== *)
(** ** JavaScript values used by the handlers *)
(* ================================================================== *)

Module Js.

(** A JavaScript string is a sequence of UTF-16 code units.  Worker
    code is kept in this form because the validator looks at single
    code units; names and messages, which are only copied around,
    are plain [string]s. *)
Definition jsstring := list N.

Definition unit_of_ascii (c : ascii) : N := N_of_ascii c.

Fixpoint js (s : string) : jsstring :=
  match s with
  | EmptyString => []
  | String c s' => unit_of_ascii c :: js s'
  end.

Definition LF : string := String (ascii_of_nat 10) EmptyString.
Definition DQ : string := String (ascii_of_nat 34) EmptyString.

(** Template-literal rendering of numbers. *)
Definition showNat (n : nat) : string := NilZero.string_of_uint (Nat.to_uint n).
Definition showZ (z : Z) : string := NilZero.string_of_int (Z.to_int z).

(** [!s] for a value of type [string | undefined]: the empty string
    and [undefined] are falsy. *)
Definition truthy (s : option string) : bool :=
  match s with
  | Some s => negb (String.eqb s "")
  | None => false
  end.

(** [s || d] where [d] is a string. *)
Definition orElse (s : option string) (d : string) : string :=
  match s with
  | Some v => if String.eqb v "" then d else v
  | None => d
  end.

(** [s || d] where [d] may itself be undefined. *)
Definition orElseOpt (s d : option string) : option string :=
  if truthy s then s else d.

(** The data handed to [JSON.stringify]. A field whose value is
    [undefined] is left out of the object, see [field]. *)
Inductive json : Type :=
| JNull
| JBool (b : bool)
| JNum (n : Z)
| JStr (s : string)
| JArr (items : list json)
| JObj (fields : list (string * json)).

Definition field (k : string) (v : option json) : list (string * json) :=
  match v with
  | Some j => [(k, j)]
  | None => []
  end.

Definition optStr (s : option string) : option json := option_map JStr s.

(** What a [catch] clause receives: an [Error] instance, or any other
    thrown value. *)
Inductive JsError : Type :=
| ErrorObject (message : string) (stack : option string)
| ThrownValue (v : json).

(** [error instanceof Error ? error.message : d] *)
Definition messageOr (e : JsError) (d : string) : string :=
  match e with
  | ErrorObject m _ => m
  | ThrownValue _ => d
  end.

(** [error instanceof Error ? error.stack : undefined] *)
Definition stackOf (e : JsError) : option string :=
  match e with
  | ErrorObject _ s => s
  | ThrownValue _ => None
  end.

(** Reading the property [prop] of [null] or of [undefined]; [what]
    names which of the two it was.  The message is the engine's; the
    stack trace it attaches is not modelled. *)
Definition TypeError (what prop : string) : JsError :=
  ErrorObject ("Cannot read properties of " ++ what ++ " (reading '" ++ prop ++ "')") None.

(** [v ? ... : ...] for a parsed value. *)
Definition truthyJson (j : json) : bool :=
  match j with
  | JNull => false
  | JBool b => b
  | JNum n => negb (n =? 0)%Z
  | JStr s => negb (String.eqb s "")
  | JArr _ | JObj _ => true
  end.

Fixpoint lookup (k : string) (fields : list (string * json)) : option json :=
  match fields with
  | [] => None
  | (k', v) :: rest => if String.eqb k k' then Some v else lookup k rest
  end.

(** [v.k] for a value [v] that is neither [null] nor [undefined] and
    a key [k] that only an object of the data can carry (the code
    reads [id]): anything but an object gives [undefined]. *)
Definition getProp (k : string) (v : json) : option json :=
  match v with
  | JObj fields => lookup k fields
  | _ => None
  end.

(** [v.k] for any [v], [None] being [undefined]: it throws on [null]
    and on [undefined]. *)
Definition readProp (k : string) (v : option json) : JsError + option json :=
  match v with
  | None => inl (TypeError "undefined" k)
  | Some JNull => inl (TypeError "null" k)
  | Some j => inr (getProp k j)
  end.

(** [haystack.includes(needle)] on plain strings. *)
Fixpoint includes (needle haystack : string) : bool :=
  String.prefix needle haystack ||
  match haystack with
  | EmptyString => false
  | String _ rest => includes needle rest
  end.

End Js.
Import Js.

(* ================================================================== *)
(** ** Regular expressions of the validator *)
(* ================================================================== *)

(** Every pattern of [dangerousPatterns] is a sequence of single
    characters, character classes, starred classes and [\b]; the
    matcher below covers exactly this fragment.  [test] is the
    unanchored search of [RegExp.prototype.test] (no [g] flag, so no
    [lastIndex] state). *)
Module Regex.

Inductive atom : Type :=
| One (p : N -> bool)     (* one code unit in the class *)
| Many (p : N -> bool)    (* class*  *)
| Boundary.               (* \b *)

Definition pattern := list atom.

Definition inRange (lo hi c : N) : bool := (lo <=? c)%N && (c <=? hi)%N.

Definition isUpper (c : N) : bool := inRange 65 90 c.
Definition isLower (c : N) : bool := inRange 97 122 c.
Definition isDigit (c : N) : bool := inRange 48 57 c.

(** [\w] *)
Definition isWord (c : N) : bool :=
  isUpper c || isLower c || isDigit c || (c =? 95)%N.

(** [\s]: WhiteSpace and LineTerminator code points. *)
Definition isSpace (c : N) : bool :=
  inRange 9 13 c || (c =? 32)%N || (c =? 160)%N || (c =? 5760)%N ||
  inRange 8192 8202 c || (c =? 8232)%N || (c =? 8233)%N || (c =? 8239)%N ||
  (c =? 8287)%N || (c =? 12288)%N || (c =? 65279)%N.

Definition isLineTerminator (c : N) : bool :=
  (c =? 10)%N || (c =? 13)%N || (c =? 8232)%N || (c =? 8233)%N.

(** [.] without the [s] flag *)
Definition isDot (c : N) : bool := negb (isLineTerminator c).

(** A pattern character under the [i] flag: an ASCII letter matches
    both of its cases, any other character only itself. *)
Definition sameLetter (c x : N) : bool :=
  (x =? c)%N ||
  (isUpper c && (x =? c + 32)%N) ||
  (isLower c && (x =? c - 32)%N).

Definition exactly (c x : N) : bool := (x =? c)%N.

Definition lit (s : string) : pattern := map (fun c => One (exactly c)) (js s).
Definition liti (s : string) : pattern := map (fun c => One (sameLetter c)) (js s).

Definition spaces0 : pattern := [Many isSpace].            (* \s* *)
Definition spaces1 : pattern := [One isSpace; Many isSpace]. (* \s+ *)
Definition anything : pattern := [Many isDot].             (* .* *)

(** the class of the three quote characters: single, double, backtick *)
Definition isQuote (c : N) : bool := (c =? 39)%N || (c =? 34)%N || (c =? 96)%N.
Definition quote : pattern := [One isQuote].

Definition wordBefore (prev : option N) : bool :=
  match prev with Some c => isWord c | None => false end.

Definition wordAfter (s : jsstring) : bool :=
  match s with c :: _ => isWord c | [] => false end.

(** [Many p] followed by the continuation [k]. *)
Fixpoint many (p : N -> bool) (k : option N -> jsstring -> bool)
         (prev : option N) (s : jsstring) : bool :=
  k prev s ||
  match s with
  | c :: s' => p c && many p k (Some c) s'
  | [] => false
  end.

(** Does the pattern match at the start of [s], [prev] being the code
    unit just before it. *)
Fixpoint matchHere (pat : pattern) (prev : option N) (s : jsstring) : bool :=
  match pat with
  | [] => true
  | One p :: rest =>
      match s with
      | c :: s' => p c && matchHere rest (Some c) s'
      | [] => false
      end
  | Many p :: rest => many p (matchHere rest) prev s
  | Boundary :: rest =>
      xorb (wordBefore prev) (wordAfter s) && matchHere rest prev s
  end.

Fixpoint search (pat : pattern) (prev : option N) (s : jsstring) : bool :=
  matchHere pat prev s ||
  match s with
  | c :: s' => search pat (Some c) s'
  | [] => false
  end.

Definition test (pat : pattern) (s : jsstring) : bool := search pat None s.

End Regex.

(* ================================================================== *)
(** ** deployment/validation *)
(* ================================================================== *)

Module Validation.
Import Regex.
Local Open Scope list_scope.

Record WorkerCodeValidationResult : Type := {
  isValid : bool;
  error : option string
}.

Fixpoint trimStart (s : jsstring) : jsstring :=
  match s with
  | c :: s' => if isSpace c then trimStart s' else s
  | [] => []
  end.

(** [String.prototype.trim] *)
Definition trim (s : jsstring) : jsstring :=
  rev (trimStart (rev (trimStart s))).

Definition requireOf (module : string) : pattern :=
  liti "require" ++ spaces0 ++ liti "(" ++ spaces0 ++ quote ++
  liti module ++ quote ++ spaces0 ++ liti ")".

Definition importFrom (module : string) : pattern :=
  liti "import" ++ spaces1 ++ anything ++ spaces1 ++ liti "from" ++
  spaces1 ++ quote ++ liti module ++ quote.

Definition dangerousPatterns : list pattern :=
  [ Boundary :: liti "eval" ++ spaces0 ++ liti "(";
    Boundary :: liti "Function" ++ spaces0 ++ liti "(";
    liti "process.exit";
    liti "process.kill";
    liti "child_process";
    requireOf "fs";
    requireOf "path";
    requireOf "os";
    requireOf "crypto";
    importFrom "fs";
    importFrom "path";
    importFrom "os";
    liti ".exec" ++ spaces0 ++ liti "(";
    liti ".spawn" ++ spaces0 ++ liti "(";
    liti "new" ++ spaces1 ++ liti "Function" ++ spaces0 ++ liti "(";
    liti "document.write";
    liti "document.writeln";
    liti "innerHTML" ++ spaces0 ++ liti "=";
    liti "outerHTML" ++ spaces0 ++ liti "=";
    lit "${" ++ anything ++ lit "}";
    liti "javascript:";
    liti "vbscript:";
    liti "data:" ++ spaces0 ++ liti "text/html" ].

Definition maxCodeLength : N := 1024 * 1024.

Definition validateWorkerCode (code : jsstring) : WorkerCodeValidationResult :=
  let trimmedCode := trim code in
  match trimmedCode with
  | [] => {| isValid := false; error := Some "Worker code cannot be empty" |}
  | _ :: _ =>
      if existsb (fun pattern => test pattern code) dangerousPatterns then
        {| isValid := false;
           error := Some "Code contains potentially dangerous patterns" |}
      else if (maxCodeLength <? N.of_nat (length code))%N then
        {| isValid := false;
           error := Some "Code is too large (maximum 1MB allowed)" |}
      else {| isValid := true; error := None |}
  end.

End Validation.

(* ================================================================== *)
(** ** The world outside and the handler monad *)
(* ================================================================== *)

Module Runtime.

(** *** HTTP requests as [fetch] sees them *)

Inductive PartContent : Type :=
| ScriptPart (code : jsstring)
| TextPart (text : string).

(** One [formData.append(name, new Blob([content], { type }))]. *)
Record FormPart : Type := {
  part_name : string;
  part_type : string;
  part_content : PartContent
}.

Inductive RequestBody : Type :=
| NoBody
| TextBody (text : string)
| FormBody (parts : list FormPart).

Record HttpRequest : Type := {
  req_url : string;
  req_method : string;
  req_headers : list (string * string);
  req_body : RequestBody
}.

(** *** Response bodies, read at their declared TypeScript types *)

(** An element of [errors: any[]], of which the code reads [message]
    and [code]. *)
Record ApiError : Type := {
  err_code : option Z;
  err_message : option string
}.

(** [interface CloudflareWorker]; a field the wire data lacks reads
    as [undefined]. *)
Record CloudflareWorker : Type := {
  worker_id : option string;
  worker_name : option string;
  created_on : option string;
  modified_on : option string;
  compatibility_date : option string;
  usage_model : option string;
  environment : option string
}.

(** The [result] of [CloudflareKVNamespaceResponse]. *)
Record KVNamespace : Type := {
  kv_id : option string;
  kv_title : option string
}.

(** The [result] of a parsed body.  The first three constructors are
    the objects the interfaces describe, [OtherData] is any other
    value; [OtherData JNull] is [null]. *)
Inductive ResultData : Type :=
| WorkerData (w : CloudflareWorker)
| WorkerList (ws : list CloudflareWorker)
| NamespaceData (ns : KVNamespace)
| OtherData (j : json).

(** [interface CloudflareApiResponse<T>], before the cast to a
    particular [T]; [None] is a body without [result]. *)
Record ApiBody : Type := {
  body_success : bool;
  body_errors : list ApiError;
  body_messages : list string;
  body_result : option ResultData
}.

(** [result] is the property read at its declared type [T]; a cast
    does nothing at run time, so [raw] keeps the value as it is, for
    the code that hands the result on without looking into it. *)
Record CloudflareApiResponse (T : Type) : Type := {
  success : bool;
  errors : list ApiError;
  messages : list string;
  result : option T;
  raw : option ResultData
}.

(** The casts [as CloudflareApiResponse<T>]: a result of another
    shape is read as absent. *)
Definition castBody (T : Type) (view : ResultData -> option T) (b : ApiBody)
  : CloudflareApiResponse T :=
  {| success := body_success b;
     errors := body_errors b;
     messages := body_messages b;
     result := match body_result b with
               | Some d => view d
               | None => None
               end;
     raw := body_result b |}.

Definition asWorker (d : ResultData) : option CloudflareWorker :=
  match d with WorkerData w => Some w | _ => None end.
Definition asWorkers (d : ResultData) : option (list CloudflareWorker) :=
  match d with WorkerList ws => Some ws | _ => None end.
Definition asNamespace (d : ResultData) : option KVNamespace :=
  match d with NamespaceData ns => Some ns | _ => None end.
Definition asAny (d : ResultData) : option ResultData := Some d.

(** [errors?.[0]?.message || fallback] *)
Definition firstMessage (errs : list ApiError) (fallback : string) : string :=
  match errs with
  | e :: _ => orElse (err_message e) fallback
  | [] => fallback
  end.

(** [errors?.[0]?.message] *)
Definition firstMessageOpt (errs : list ApiError) : option string :=
  match errs with
  | e :: _ => err_message e
  | [] => None
  end.

(** [errors?.[0]?.code] *)
Definition firstCode (errs : list ApiError) : option Z :=
  match errs with
  | e :: _ => err_code e
  | [] => None
  end.

Definition errorJson (e : ApiError) : json :=
  JObj (field "code" (option_map JNum (err_code e)) ++
        field "message" (optStr (err_message e))).

Definition errorsJson (errs : list ApiError) : json := JArr (map errorJson errs).

Definition workerJson (w : CloudflareWorker) : json :=
  JObj (field "id" (optStr (worker_id w)) ++
        field "name" (optStr (worker_name w)) ++
        field "created_on" (optStr (created_on w)) ++
        field "modified_on" (optStr (modified_on w)) ++
        field "compatibility_date" (optStr (compatibility_date w)) ++
        field "usage_model" (optStr (usage_model w)) ++
        field "environment" (optStr (environment w))).

Definition namespaceJson (ns : KVNamespace) : json :=
  JObj (field "id" (optStr (kv_id ns)) ++ field "title" (optStr (kv_title ns))).

Definition resultJson (d : ResultData) : json :=
  match d with
  | WorkerData w => workerJson w
  | WorkerList ws => JArr (map workerJson ws)
  | NamespaceData ns => namespaceJson ns
  | OtherData j => j
  end.

(** A result handed on as it came, [None] being [undefined]. *)
Definition anyResult (d : option ResultData) : option json := option_map resultJson d.

(** Which of [null] and [undefined] an absent result is. *)
Definition nullish (d : option ResultData) : string :=
  match d with
  | Some (OtherData JNull) => "null"
  | _ => "undefined"
  end.

(** *** What the network answers *)

(** [fetch] rejects, or resolves to a response with a status whose
    [json()] either rejects or yields the parsed body. *)
Inductive FetchOutcome : Type :=
| NetworkFailure (e : JsError)
| Responds (status : nat) (parsed : JsError + ApiBody).

Record Response : Type := {
  status : nat;
  parsed : JsError + ApiBody
}.

(** *** Supabase *)

(** A call made through the Supabase client, which turns it into an
    HTTP request to the project at [supabaseUrl], signed with
    [supabaseKey]. *)
Inductive DbCall : Type :=
| Rpc (supabaseUrl supabaseKey fn : string) (query : option string)
| Insert (supabaseUrl supabaseKey table : string) (row : json).

(** [createClient] or the call throws, or the call resolves to
    [{ data, error }]. *)
Inductive RpcOutcome (D : Type) : Type :=
| RpcThrows (e : JsError)
| RpcReturns (data : D) (error : option JsError).
Arguments RpcThrows {D} e.
Arguments RpcReturns {D} data error.

(** A row of [get_table_columns]. *)
Record ColumnInfo : Type := {
  table_name : string;
  column_name : string;
  data_type : string;
  is_nullable : string;
  column_default : option string
}.

(** [interface WorkerCodeValidationResult]'s twin in
    [database/security]. *)
Record SqlValidationResult : Type := {
  sqlIsValid : bool;
  sqlError : option string
}.

(** *** The world *)

Record World : Type := {
  (** the answer to a request, given the requests sent before it *)
  respond : list HttpRequest -> HttpRequest -> FetchOutcome;
  (** [Date.now()] at the n-th reading of the clock *)
  clock : nat -> Z;
  (** [new Date(ms).toISOString()] *)
  toISOString : Z -> string;
  (** [new Date(s).getTime()], [None] for [NaN] *)
  parseDate : option string -> option Z;
  (** [JSON.stringify(v, null, 2)] and [JSON.stringify(v)] *)
  stringifyPretty : json -> string;
  stringifyCompact : json -> string;
  (** [rpc('get_table_columns')]; [None] data is anything but an array *)
  getTableColumns : list DbCall -> RpcOutcome (option (list ColumnInfo));
  (** [rpc('execute_sql', { query })] *)
  executeSql : list DbCall -> string -> RpcOutcome json;
  (** [import('@supabase/supabase-js')], [createClient] and
      [from(table).insert(row)]: the error thrown, if any *)
  auditInsert : list DbCall -> json -> option JsError;
  (** [database/security], which is not part of the sources at hand *)
  validateSqlQuery : string -> SqlValidationResult;
  isWriteOperation : string -> bool;
  (** [String.prototype.toUpperCase] and [toLowerCase] *)
  toUpperCase : string -> string;
  toLowerCase : string -> string
}.

(** [logDeploymentOperation]'s [logEntry] *)
Record AuditEntry : Type := {
  timestamp : string;
  operation : string;
  workerName : string;
  userName : string;
  audit_success : bool;
  details : json
}.

Record State : Type := {
  calls : list HttpRequest;
  dbCalls : list DbCall;
  audit : list AuditEntry;
  ticks : nat
}.

Definition initial : State :=
  {| calls := []; dbCalls := []; audit := []; ticks := 0 |}.

(** *** The monad *)

Inductive Outcome (A : Type) : Type :=
| Return (a : A)
| Throw (e : JsError).
Arguments Return {A} a.
Arguments Throw {A} e.

Definition M (A : Type) : Type := World -> State -> Outcome A * State.

Definition ret {A} (a : A) : M A := fun _ st => (Return a, st).

Definition throw {A} (e : JsError) : M A := fun _ st => (Throw e, st).

Definition bind {A B} (c : M A) (k : A -> M B) : M B :=
  fun w st =>
    match c w st with
    | (Return a, st') => k a w st'
    | (Throw e, st') => (Throw e, st')
    end.

(** [try { body } catch (error) { handler }] *)
Definition tryCatch {A} (body : M A) (handler : JsError -> M A) : M A :=
  fun w st =>
    match body w st with
    | (Return a, st') => (Return a, st')
    | (Throw e, st') => handler e w st'
    end.

Definition asks {A} (f : World -> A) : M A := fun w st => (Return (f w), st).

Declare Scope js_scope.
Delimit Scope js_scope with js.
Notation "x <- c ;; k" := (bind c (fun x => k))
  (at level 61, c at next level, right associativity) : js_scope.
Notation "c ;; k" := (bind c (fun _ => k))
  (at level 61, right associativity) : js_scope.

Local Open Scope js_scope.

(** [await fetch(url, init)] *)
Definition fetch (req : HttpRequest) : M Response :=
  fun w st =>
    let st' := {| calls := calls st ++ [req]; dbCalls := dbCalls st;
                  audit := audit st; ticks := ticks st |} in
    match respond w (calls st) req with
    | NetworkFailure e => (Throw e, st')
    | Responds s p => (Return {| status := s; parsed := p |}, st')
    end.

(** [await response.json()] *)
Definition responseJson (r : Response) : M ApiBody :=
  match parsed r with
  | inl e => throw e
  | inr b => ret b
  end.

(** [Date.now()] *)
Definition dateNow : M Z :=
  fun w st =>
    (Return (clock w (ticks st)),
     {| calls := calls st; dbCalls := dbCalls st;
        audit := audit st; ticks := S (ticks st) |}).

(** [new Date().toISOString()] *)
Definition nowISO : M string :=
  t <- dateNow ;; asks (fun w => toISOString w t).

Definition recordDb (c : DbCall) : M (list DbCall) :=
  fun _ st =>
    (Return (dbCalls st),
     {| calls := calls st; dbCalls := dbCalls st ++ [c];
        audit := audit st; ticks := ticks st |}).

Definition appendAudit (e : AuditEntry) : M unit :=
  fun _ st =>
    (Return tt,
     {| calls := calls st; dbCalls := dbCalls st;
        audit := audit st ++ [e]; ticks := ticks st |}).

(** [deployment/validation]'s [logDeploymentOperation]; the console
    line it prints is the entry appended here. *)
Definition logDeploymentOperation (operation workerName userName : string)
           (success : bool) (details : json) : M unit :=
  timestamp <- nowISO ;;
  appendAudit {| timestamp := timestamp; operation := operation;
                 workerName := workerName; userName := userName;
                 audit_success := success; details := details |}.

End Runtime.

(* ================================================================== *)
(** ** deployment/cloudflare-api *)
(* ================================================================== *)

Module CloudflareAPI.
Import Runtime.
Local Open Scope js_scope.

(** The two private fields set by the constructor. *)
Record t : Type := {
  accountId : string;
  apiToken : string
}.

Definition baseUrl : string := "https://api.cloudflare.com/client/v4".

Definition jsonHeaders (api : t) : list (string * string) :=
  [ ("Authorization", "Bearer " ++ apiToken api);
    ("Content-Type", "application/json") ].

Definition scriptsUrl (api : t) (endpoint : string) : string :=
  baseUrl ++ "/accounts/" ++ accountId api ++ "/workers/scripts" ++ endpoint.

(** The request [makeRequest] builds: the body is attached only when
    there is one and the method is not GET. *)
Definition requestInit (stringify : json -> string) (api : t)
           (endpoint method : string) (body : option json) : HttpRequest :=
  {| req_url := scriptsUrl api endpoint;
     req_method := method;
     req_headers := jsonHeaders api;
     req_body := match body with
                 | Some b =>
                     if negb (String.eqb method "GET")
                     then TextBody (stringify b)
                     else NoBody
                 | None => NoBody
                 end |}.

Definition makeRequest (T : Type) (view : ResultData -> option T) (api : t)
           (endpoint method : string) (body : option json)
  : M (CloudflareApiResponse T) :=
  init <- asks (fun w => requestInit (stringifyCompact w) api endpoint method body) ;;
  response <- fetch init ;;
  data <- responseJson response ;;
  ret (castBody view data).

Definition listWorkers (api : t) : M (CloudflareApiResponse (list CloudflareWorker)) :=
  makeRequest asWorkers api "" "GET" None.

Definition metadataJson (bindings : option (list json)) : json :=
  JObj ([ ("main_module", JStr "worker.js");
          ("compatibility_date", JStr "2025-03-10");
          ("compatibility_flags", JArr [JStr "nodejs_compat"]) ] ++
        match bindings with
        | Some (b :: bs) => [("bindings", JArr (b :: bs))]
        | _ => []
        end).

Definition deployRequest (api : t) (name : string) (script : jsstring)
           (metadata : string) : HttpRequest :=
  {| req_url := baseUrl ++ "/accounts/" ++ accountId api ++ "/workers/scripts/" ++ name;
     req_method := "PUT";
     req_headers := [("Authorization", "Bearer " ++ apiToken api)];
     req_body := FormBody
       [ {| part_name := "worker.js";
            part_type := "application/javascript+module";
            part_content := ScriptPart script |};
         {| part_name := "metadata";
            part_type := "application/json";
            part_content := TextPart metadata |} ] |}.

Definition deployWorker (api : t) (name : string) (script : jsstring)
           (bindings : option (list json))
  : M (CloudflareApiResponse CloudflareWorker) :=
  metadata <- asks (fun w => stringifyCompact w (metadataJson bindings)) ;;
  response <- fetch (deployRequest api name script metadata) ;;
  data <- responseJson response ;;
  ret (castBody asWorker data).

Definition settingsRequest (api : t) (name : string) : HttpRequest :=
  {| req_url := baseUrl ++ "/accounts/" ++ accountId api ++
                "/workers/scripts/" ++ name ++ "/settings";
     req_method := "GET";
     req_headers := jsonHeaders api;
     req_body := NoBody |}.

Definition domainsRequest (api : t) : HttpRequest :=
  {| req_url := baseUrl ++ "/accounts/" ++ accountId api ++ "/workers/domains";
     req_method := "GET";
     req_headers := jsonHeaders api;
     req_body := NoBody |}.

(** [v || new Date().toISOString()]: the clock is read only when [v]
    is falsy. *)
Definition orNow (v : option string) : M string :=
  if truthy v then ret (orElse v "") else nowISO.

(** An envelope [getWorker] makes itself:
    [{ success: true, errors: [], messages, result }]. *)
Definition made (worker : CloudflareWorker) (messages : list string)
  : CloudflareApiResponse CloudflareWorker :=
  {| success := true; errors := []; messages := messages;
     result := Some worker; raw := Some (WorkerData worker) |}.

Definition noWorker : CloudflareWorker :=
  {| worker_id := None; worker_name := None; created_on := None;
     modified_on := None; compatibility_date := None;
     usage_model := None; environment := None |}.

(** The response built when the settings endpoint answers 404. *)
Definition syntheticWorker (name created modified : string)
  : CloudflareApiResponse CloudflareWorker :=
  made {| worker_id := Some name; worker_name := Some name;
          created_on := Some created; modified_on := Some modified;
          compatibility_date := None;
          usage_model := Some "bundled";
          environment := Some "production" |} [].

(** The response built in the [catch] clause. *)
Definition limitedWorker (name created modified : string)
  : CloudflareApiResponse CloudflareWorker :=
  made {| worker_id := Some name; worker_name := Some name;
          created_on := Some created; modified_on := Some modified;
          compatibility_date := None;
          usage_model := None;
          environment := Some "production" |}
       ["Worker status retrieved with limited information"].

Definition getWorker (api : t) (name : string)
  : M (CloudflareApiResponse CloudflareWorker) :=
  tryCatch
    (response <- fetch (settingsRequest api name) ;;
     if Nat.eqb (status response) 404 then
       subdomainResponse <- fetch (domainsRequest api) ;;
       _ <- responseJson subdomainResponse ;;
       created <- nowISO ;;
       modified <- nowISO ;;
       ret (syntheticWorker name created modified)
     else
       data <- responseJson response ;;
       match body_success data, body_result data with
       | true, Some d =>
           (* [data.success && data.result] *)
           if truthyJson (resultJson d) then
             let settings := match asWorker d with
                             | Some w => w
                             | None => noWorker
                             end in
             created <- orNow (created_on settings) ;;
             modified <- orNow (modified_on settings) ;;
             ret (made {| worker_id := Some name; worker_name := Some name;
                          created_on := Some created;
                          modified_on := Some modified;
                          compatibility_date := compatibility_date settings;
                          usage_model := Some (orElse (usage_model settings) "bundled");
                          environment := Some "production" |} [])
           else ret (castBody asWorker data)
       | _, _ => ret (castBody asWorker data)
       end)
    (fun error =>
       created <- nowISO ;;
       modified <- nowISO ;;
       ret (limitedWorker name created modified)).

Definition deleteWorker (api : t) (name : string) : M (CloudflareApiResponse unit) :=
  makeRequest (fun _ => None) api ("/" ++ name) "DELETE" None.

Definition getWorkerLogs (api : t) (name : string)
  : M (CloudflareApiResponse ResultData) :=
  makeRequest asAny api ("/" ++ name) "GET" None.

Definition secretData (secretName secretValue : string) : json :=
  JObj [ ("name", JStr secretName);
         ("text", JStr secretValue);
         ("type", JStr "secret_text") ].

Definition setWorkerSecret (api : t) (workerName secretName secretValue : string)
  : M (CloudflareApiResponse ResultData) :=
  makeRequest asAny api ("/" ++ workerName ++ "/secrets") "PUT"
              (Some (secretData secretName secretValue)).

Definition namespacesUrl (accountId : string) : string :=
  baseUrl ++ "/accounts/" ++ accountId ++ "/storage/kv/namespaces".

Definition namespaceRequest (stringify : json -> string) (api : t) (title : string)
  : HttpRequest :=
  {| req_url := namespacesUrl (accountId api);
     req_method := "POST";
     req_headers := jsonHeaders api;
     req_body := TextBody (stringify (JObj [("title", JStr title)])) |}.

Definition createKVNamespace (api : t) (title : string)
  : M (CloudflareApiResponse ResultData) :=
  init <- asks (fun w => namespaceRequest (stringifyCompact w) api title) ;;
  response <- fetch init ;;
  data <- responseJson response ;;
  ret (castBody asAny data).

End CloudflareAPI.

(* ================================================================== *)
(** ** tools: what every handler shares *)
(* ================================================================== *)

Module Tools.
Import Validation Runtime.
Local Open Scope js_scope.

(** The bindings of the hosting environment the handlers read. *)
Record Env : Type := {
  CLOUDFLARE_ACCOUNT_ID : option string;
  CLOUDFLARE_API_TOKEN : option string;
  SUPABASE_URL : option string;
  SUPABASE_ANON_KEY : option string
}.

(** The caller identity handed over by the OAuth layer. *)
Record Props : Type := {
  login : string;
  name : string;
  email : string;
  accessToken : string
}.

Record ContentItem : Type := {
  type : string;
  text : string
}.

Record ToolResponse : Type := {
  content : list ContentItem
}.

(** [{ content: [{ type: "text", text }] }] *)
Definition textResponse (s : string) : ToolResponse :=
  {| content := [ {| type := "text"; text := s |} ] |}.

(** The text of the response (of its first content item). *)
Definition responseText (r : ToolResponse) : string :=
  match content r with
  | item :: _ => text item
  | [] => ""
  end.

Definition NL : string := LF.
Definition NL2 : string := LF ++ LF.

(** [```json\n ... \n```] around a serialized value *)
Definition fenced (lang body : string) : string :=
  "```" ++ lang ++ NL ++ body ++ NL ++ "```".

Definition pretty (j : json) : M string := asks (fun w => stringifyPretty w j).

(** [${v}] for a value that may be undefined *)
Definition showOpt (v : option string) : string :=
  match v with Some s => s | None => "undefined" end.

(** [const accountId = env...; const apiToken = env...;
     if (!accountId || !apiToken)]: the pair, when both are set. *)
Definition credentials (env : Env) : option (string * string) :=
  if negb (truthy (CLOUDFLARE_ACCOUNT_ID env)) || negb (truthy (CLOUDFLARE_API_TOKEN env))
  then None
  else Some (orElse (CLOUDFLARE_ACCOUNT_ID env) "", orElse (CLOUDFLARE_API_TOKEN env) "").

Definition client (c : string * string) : CloudflareAPI.t :=
  {| CloudflareAPI.accountId := fst c; CloudflareAPI.apiToken := snd c |}.

(** The message of the deployWorker, listWorkers, getWorkerStatus and
    deleteWorker handlers. *)
Definition credentialsNotConfigured : string :=
  "**Error**" ++ NL2 ++
  "Cloudflare credentials not configured. Please set CLOUDFLARE_ACCOUNT_ID and CLOUDFLARE_API_TOKEN environment variables.".

(** The message of the infrastructure handlers. *)
Definition credentialsNotConfiguredDetails : M string :=
  d <- pretty (JObj [("missing",
         JStr "CLOUDFLARE_ACCOUNT_ID and CLOUDFLARE_API_TOKEN environment variables")]) ;;
  ret ("**Error**" ++ NL2 ++ "Cloudflare credentials not configured" ++ NL2 ++
       "**Details:**" ++ NL ++ fenced "json" d).

(** [{ error: error.message or 'Unknown error', details: error.stack }] *)
Definition unexpectedDetails (error : JsError) : json :=
  JObj ([("error", JStr (messageOr error "Unknown error"))] ++
        field "details" (optStr (stackOf error))).

Definition unexpected (what : string) (error : JsError) : M ToolResponse :=
  d <- pretty (unexpectedDetails error) ;;
  ret (textResponse ("**Error**" ++ NL2 ++ what ++ NL2 ++
                     "**Details:**" ++ NL ++ fenced "json" d)).

Definition errorOnly (error : JsError) : json :=
  JObj [("error", JStr (messageOr error "Unknown error"))].

(** [Math.round(code.length / 1024)] *)
Definition roundKB (len : nat) : N := ((N.of_nat len + 512) / 1024)%N.

Definition showN (n : N) : string := showNat (N.to_nat n).

Definition deployedBy (props : Props) : string :=
  login props ++ " (" ++ name props ++ ")".

(* ---------------------------------------------------------------- *)
(** *** tools/whoami *)

Definition whoami (env : Env) (props : Props) : M ToolResponse :=
  ret (textResponse
    ("**Current User Information**" ++ NL2 ++
     "**Login:** " ++ login props ++ NL ++
     "**Name:** " ++ name props ++ NL ++
     "**Email:** " ++ email props ++ NL2 ++
     "**OAuth Access Token:** " ++
     (if String.eqb (accessToken props) "" then "Missing" else "Present") ++ NL2 ++
     "**Debug Info:** This shows the user context passed through OAuth authentication.")).

(* ---------------------------------------------------------------- *)
(** *** tools/deploy-worker *)

Definition deployWorker (env : Env) (props : Props)
           (name : string) (code : jsstring) (description : option string)
  : M ToolResponse :=
  tryCatch
    (let validation := validateWorkerCode code in
     if negb (isValid validation) then
       logDeploymentOperation "deploy" name (login props) false
         (JObj (field "error" (optStr (error validation)))) ;;
       ret (textResponse ("**Error**" ++ NL2 ++ "Code validation failed: " ++
                          showOpt (error validation)))
     else
       match credentials env with
       | None =>
           logDeploymentOperation "deploy" name (login props) false
             (JObj [("error", JStr "Missing Cloudflare credentials")]) ;;
           ret (textResponse credentialsNotConfigured)
       | Some c =>
           let cfApi := client c in
           result <- CloudflareAPI.deployWorker cfApi name code None ;;
           if negb (success result) then
             let error := firstMessage (errors result) "Unknown deployment error" in
             logDeploymentOperation "deploy" name (login props) false
               (JObj [("error", JStr error); ("cfErrors", errorsJson (errors result))]) ;;
             ret (textResponse ("**Error**" ++ NL2 ++ "Deployment failed: " ++ error))
           else
             let workerId := match Runtime.result result with
                             | Some w => worker_id w
                             | None => None
                             end in
             logDeploymentOperation "deploy" name (login props) true
               (JObj (field "description" (optStr description) ++
                      [("codeLength", JNum (Z.of_nat (length code)))] ++
                      field "workerId" (optStr workerId))) ;;
             let deployResult :=
               JObj ([("workerName", JStr name)] ++
                     field "workerId" (optStr workerId) ++
                     field "createdOn"
                       (optStr (match Runtime.result result with
                                | Some w => created_on w | None => None end)) ++
                     field "modifiedOn"
                       (optStr (match Runtime.result result with
                                | Some w => modified_on w | None => None end)) ++
                     field "description" (optStr description) ++
                     [("deployedBy", JStr (deployedBy props));
                      ("codeSize", JStr (showN (roundKB (length code)) ++ "KB"))]) in
             d <- pretty deployResult ;;
             ret (textResponse ("**Success**" ++ NL2 ++ "Worker '" ++ name ++
                                "' deployed successfully" ++ NL2 ++
                                "**Result:**" ++ NL ++ fenced "json" d))
       end)
    (fun error =>
       logDeploymentOperation "deploy" name (login props) false (errorOnly error) ;;
       ret (textResponse ("**Error**" ++ NL2 ++ "Deployment error: " ++
                          messageOr error "Unknown error"))).

(* ---------------------------------------------------------------- *)
(** *** tools/list-workers *)

Definition workerInfo (worker : CloudflareWorker) : json :=
  JObj (field "name" (optStr (worker_name worker)) ++
        field "id" (optStr (worker_id worker)) ++
        field "created" (optStr (created_on worker)) ++
        field "modified" (optStr (modified_on worker)) ++
        [("environment", JStr (orElse (environment worker) "production"));
         ("usageModel", JStr (orElse (usage_model worker) "bundled"))]).

Definition listWorkers (env : Env) (props : Props) : M ToolResponse :=
  tryCatch
    (match credentials env with
     | None =>
         logDeploymentOperation "list" "all" (login props) false
           (JObj [("error", JStr "Missing Cloudflare credentials")]) ;;
         ret (textResponse credentialsNotConfigured)
     | Some c =>
         let cfApi := client c in
         result <- CloudflareAPI.listWorkers cfApi ;;
         if negb (success result) then
           let error := firstMessage (errors result) "Unknown error listing workers" in
           logDeploymentOperation "list" "all" (login props) false
             (JObj [("error", JStr error); ("cfErrors", errorsJson (errors result))]) ;;
           ret (textResponse ("**Error**" ++ NL2 ++ "Failed to list workers: " ++ error))
         else
           let workers := match Runtime.result result with Some ws => ws | None => [] end in
           logDeploymentOperation "list" "all" (login props) true
             (JObj [("workerCount", JNum (Z.of_nat (length workers)))]) ;;
           match workers with
           | [] =>
               ret (textResponse
                 ("**No Workers Found**" ++ NL2 ++
                  "No Cloudflare Workers are currently deployed in your account." ++ NL2 ++
                  "Use the `deployWorker` tool to deploy your first worker."))
           | _ :: _ =>
               let workersInfo := JArr (map workerInfo workers) in
               d <- pretty workersInfo ;;
               ret (textResponse
                 ("**Deployed Workers (" ++ showNat (length workers) ++ ")**" ++ NL2 ++
                  d ++ NL2 ++
                  "**Total workers:** " ++ showNat (length workers) ++ NL2 ++
                  "**Note:** Use `getWorkerStatus` to check individual worker health, or `deleteWorker` to remove a worker."))
           end
     end)
    (fun error =>
       logDeploymentOperation "list" "all" (login props) false (errorOnly error) ;;
       ret (textResponse ("**Error**" ++ NL2 ++ "Error listing workers: " ++
                          messageOr error "Unknown error"))).

(* ---------------------------------------------------------------- *)
(** *** tools/get-worker-status *)

Definition msPerDay : Z := 1000 * 60 * 60 * 24.

(** [Math.floor((now.getTime() - date.getTime()) / msPerDay)];
    [None] is [NaN]. *)
Definition daysBetween (now : Z) (date : option Z) : option Z :=
  option_map (fun d => ((now - d) / msPerDay)%Z) date.

(** [NaN] is [null] to [JSON.stringify] and ["NaN"] in a template. *)
Definition numJson (n : option Z) : json :=
  match n with Some z => JNum z | None => JNull end.
Definition numText (n : option Z) : string :=
  match n with Some z => showZ z | None => "NaN" end.

Definition workerNotFound (name : string) : string :=
  "**Error**" ++ NL2 ++ "Worker '" ++ name ++
  "' not found. Use 'listWorkers' to see available workers.".

Definition getWorkerStatus (env : Env) (props : Props) (name : string)
  : M ToolResponse :=
  tryCatch
    (match credentials env with
     | None =>
         logDeploymentOperation "status" name (login props) false
           (JObj [("error", JStr "Missing Cloudflare credentials")]) ;;
         ret (textResponse credentialsNotConfigured)
     | Some c =>
         let cfApi := client c in
         let accountId := fst c in
         result <- CloudflareAPI.getWorker cfApi name ;;
         if negb (success result) then
           let error := firstMessage (errors result) "Worker not found" in
           logDeploymentOperation "status" name (login props) false
             (JObj [("error", JStr error); ("cfErrors", errorsJson (errors result))]) ;;
           match firstCode (errors result) with
           | Some 10007%Z => ret (textResponse (workerNotFound name))
           | _ => ret (textResponse ("**Error**" ++ NL2 ++
                                     "Failed to get worker status: " ++ error))
           end
         else
           logDeploymentOperation "status" name (login props) true
             (JObj (field "workerId"
                      (optStr (match Runtime.result result with
                               | Some w => worker_id w | None => None end)))) ;;
           match Runtime.result result with
           | None => throw (TypeError (nullish (raw result)) "created_on")
           | Some worker =>
               createdDate <- asks (fun w => parseDate w (created_on worker)) ;;
               modifiedDate <- asks (fun w => parseDate w (modified_on worker)) ;;
               now <- dateNow ;;
               let uptimeDays := daysBetween now createdDate in
               let daysSinceUpdate := daysBetween now modifiedDate in
               let healthStatus := "Running" in
               let statusInfo :=
                 JObj (field "name" (optStr (worker_name worker)) ++
                       field "id" (optStr (worker_id worker)) ++
                       [("status", JStr healthStatus);
                        ("environment", JStr (orElse (environment worker) "production"));
                        ("usageModel", JStr (orElse (usage_model worker) "bundled"))] ++
                       field "compatibilityDate" (optStr (compatibility_date worker)) ++
                       field "created" (optStr (created_on worker)) ++
                       field "lastModified" (optStr (modified_on worker)) ++
                       [("uptimeDays", numJson uptimeDays);
                        ("daysSinceLastUpdate", numJson daysSinceUpdate);
                        ("url", JStr ("https://" ++ showOpt (worker_name worker) ++ "." ++
                                      String.substring 0 8 accountId ++ ".workers.dev"))]) in
               d <- pretty statusInfo ;;
               ret (textResponse
                 ("**Worker Status: " ++ name ++ "**" ++ NL2 ++ d ++ NL2 ++
                  "**Health:** " ++ healthStatus ++ NL ++
                  "**Uptime:** " ++ numText uptimeDays ++ " days" ++ NL ++
                  "**Last Updated:** " ++ numText daysSinceUpdate ++ " days ago" ++ NL2 ++
                  "**Note:** Worker appears to be deployed and accessible. Use the worker URL to test functionality."))
           end
     end)
    (fun error =>
       logDeploymentOperation "status" name (login props) false (errorOnly error) ;;
       ret (textResponse ("**Error**" ++ NL2 ++ "Error checking worker status: " ++
                          messageOr error "Unknown error"))).

(* ---------------------------------------------------------------- *)
(** *** tools/delete-worker *)

Definition deleteWorker (env : Env) (props : Props) (name : string) (confirm : bool)
  : M ToolResponse :=
  tryCatch
    (if negb confirm then
       ret (textResponse
         ("**Error**" ++ NL2 ++
          "Deletion requires explicit confirmation. Set 'confirm: true' to delete worker '" ++
          name ++ "'. **WARNING: This action cannot be undone.**"))
     else
       match credentials env with
       | None =>
           logDeploymentOperation "delete" name (login props) false
             (JObj [("error", JStr "Missing Cloudflare credentials")]) ;;
           ret (textResponse credentialsNotConfigured)
       | Some c =>
           let cfApi := client c in
           checkResult <- CloudflareAPI.getWorker cfApi name ;;
           if negb (success checkResult) then
             logDeploymentOperation "delete" name (login props) false
               (JObj [("error", JStr "Worker not found")]) ;;
             ret (textResponse (workerNotFound name))
           else
             let worker := result checkResult in
             deleteResult <- CloudflareAPI.deleteWorker cfApi name ;;
             if negb (success deleteResult) then
               let error := firstMessage (errors deleteResult) "Unknown deletion error" in
               logDeploymentOperation "delete" name (login props) false
                 (JObj [("error", JStr error);
                        ("cfErrors", errorsJson (errors deleteResult))]) ;;
               ret (textResponse ("**Error**" ++ NL2 ++
                                  "Failed to delete worker: " ++ error))
             else
               match worker with
               | None => throw (TypeError (nullish (raw checkResult)) "id")
               | Some worker =>
                   logDeploymentOperation "delete" name (login props) true
                     (JObj (field "workerId" (optStr (worker_id worker)) ++
                            field "workerCreated" (optStr (created_on worker)) ++
                            field "workerModified" (optStr (modified_on worker)))) ;;
                   deletedAt <- nowISO ;;
                   let result :=
                     JObj [("deletedWorker",
                            JObj (field "name" (optStr (worker_name worker)) ++
                                  field "id" (optStr (worker_id worker)) ++
                                  field "wasCreated" (optStr (created_on worker)) ++
                                  field "lastModified" (optStr (modified_on worker))));
                           ("deletedBy", JStr (deployedBy props));
                           ("deletedAt", JStr deletedAt);
                           ("warning", JStr "This action cannot be undone")] in
                   d <- pretty result ;;
                   ret (textResponse
                     ("**Success**" ++ NL2 ++ "Worker '" ++ name ++
                      "' has been permanently deleted" ++ NL2 ++
                      "**Result:**" ++ NL ++ fenced "json" d))
               end
       end)
    (fun error =>
       logDeploymentOperation "delete" name (login props) false (errorOnly error) ;;
       ret (textResponse ("**Error**" ++ NL2 ++ "Error deleting worker: " ++
                          messageOr error "Unknown error"))).

(* ---------------------------------------------------------------- *)
(** *** The Supabase audit table of the infrastructure tools *)

Inductive Environment : Type := production | staging | development.

Definition showEnvironment (e : Environment) : string :=
  match e with
  | production => "production"
  | staging => "staging"
  | development => "development"
  end.

(** [environment || 'production'] *)
Definition environmentOrProduction (e : option Environment) : string :=
  match e with Some e => showEnvironment e | None => "production" end.

(** [await supabase.from(table).insert(row)], client creation
    included. *)
Definition supabaseInsert (url key table : string) (row : json) : M unit :=
  history <- recordDb (Insert url key table row) ;;
  failure <- asks (fun w => auditInsert w history row) ;;
  match failure with
  | Some e => throw e
  | None => ret tt
  end.

(** The non-fatal audit block: it runs only when both Supabase
    settings are present and swallows whatever it throws. *)
Definition auditToDatabase (env : Env) (row : json) : M unit :=
  tryCatch
    (if truthy (SUPABASE_URL env) && truthy (SUPABASE_ANON_KEY env) then
       supabaseInsert (orElse (SUPABASE_URL env) "") (orElse (SUPABASE_ANON_KEY env) "")
                      "infrastructure_audit" row
     else ret tt)
    (fun auditError => ret tt).

Definition strOrNull (s : option string) : json :=
  match s with
  | Some v => if String.eqb v "" then JNull else JStr v
  | None => JNull
  end.

(* ---------------------------------------------------------------- *)
(** *** tools/create-kv-namespace *)

Definition createKVNamespace (env : Env) (props : Props)
           (name title : string) (workerName : option string)
  : M ToolResponse :=
  tryCatch
    (match credentials env with
     | None =>
         logDeploymentOperation "create_kv_namespace" name (login props) false
           (JObj [("error", JStr "Missing Cloudflare credentials")]) ;;
         t <- credentialsNotConfiguredDetails ;;
         ret (textResponse t)
     | Some c =>
         let accountId := fst c in
         let apiToken := snd c in
         init <- asks (fun w =>
                   {| req_url := CloudflareAPI.namespacesUrl accountId;
                      req_method := "POST";
                      req_headers := [("Authorization", "Bearer " ++ apiToken);
                                      ("Content-Type", "application/json")];
                      req_body := TextBody (stringifyCompact w
                                              (JObj [("title", JStr title)])) |}) ;;
         response <- fetch init ;;
         body <- responseJson response ;;
         let data := castBody asNamespace body in
         if negb (success data) then
           let error := firstMessage (errors data) "Unknown error creating KV namespace" in
           logDeploymentOperation "create_kv_namespace" name (login props) false
             (JObj [("error", JStr error); ("cfErrors", errorsJson (errors data))]) ;;
           d <- pretty (errorsJson (errors data)) ;;
           ret (textResponse ("**Error**" ++ NL2 ++ "Failed to create KV namespace: " ++
                              error ++ NL2 ++ "**Details:**" ++ NL ++ fenced "json" d))
         else
           match Runtime.result data with
           | None => throw (TypeError (nullish (raw data)) "id")
           | Some created =>
               logDeploymentOperation "create_kv_namespace" name (login props) true
                 (JObj (field "namespaceId" (optStr (kv_id created)) ++
                        field "title" (optStr (kv_title created)) ++
                        field "workerName" (optStr workerName))) ;;
               auditToDatabase env
                 (JObj [("user_id", JStr (login props));
                        ("operation", JStr "CREATE_KV_NAMESPACE");
                        ("resource_type", JStr "KV_NAMESPACE");
                        ("resource_name", JStr name);
                        ("status", JStr "SUCCESS");
                        ("details",
                         JObj (field "namespace_id" (optStr (kv_id created)) ++
                               field "title" (optStr (kv_title created)) ++
                               [("worker_name", strOrNull workerName)]))]) ;;
               let result :=
                 JObj (field "id" (optStr (kv_id created)) ++
                       [("name", JStr name)] ++
                       field "title" (optStr (kv_title created)) ++
                       [("created", JBool true);
                        ("bindingConfig",
                         JObj ([("binding", JStr name)] ++
                               field "id" (optStr (kv_id created)) ++
                               [("comment",
                                 JStr "Add this to your wrangler.jsonc kv_namespaces array")]));
                        ("wranglerConfig",
                         JObj [("kv_namespaces",
                                JArr [JObj ([("binding", JStr name)] ++
                                            field "id" (optStr (kv_id created)))])]);
                        ("instructions",
                         JStr (if truthy workerName
                               then "KV namespace created successfully. To bind it to worker '" ++
                                    orElse workerName "" ++
                                    "', add the binding config to wrangler.jsonc"
                               else "KV namespace created successfully. Add the binding config to your wrangler.jsonc file."))]) in
               d <- pretty result ;;
               ret (textResponse ("**Success**" ++ NL2 ++ "KV namespace '" ++ name ++
                                  "' created successfully" ++ NL2 ++
                                  "**Result:**" ++ NL ++ fenced "json" d))
           end
     end)
    (fun error =>
       logDeploymentOperation "create_kv_namespace" name (login props) false
         (errorOnly error) ;;
       unexpected "Unexpected error creating KV namespace" error).

(* ---------------------------------------------------------------- *)
(** *** tools/manage-durable-objects *)

Record Migrations : Type := {
  tag : string;
  new_classes : option (list string);
  renamed_classes : option (list (string * string));
  deleted_classes : option (list string)
}.

Definition stringsJson (l : list string) : json := JArr (map JStr l).

Definition migrationsJson (m : Migrations) : json :=
  JObj ([("tag", JStr (tag m))] ++
        field "new_classes" (option_map stringsJson (new_classes m)) ++
        field "renamed_classes"
          (option_map (fun l => JArr (map (fun p => JObj [("from", JStr (fst p));
                                                          ("to", JStr (snd p))]) l))
                      (renamed_classes m)) ++
        field "deleted_classes" (option_map stringsJson (deleted_classes m))).

(** [migrations || null] *)
Definition migrationsOrNull (m : option Migrations) : json :=
  match m with Some m => migrationsJson m | None => JNull end.

Fixpoint joinWith (sep : string) (l : list string) : string :=
  match l with
  | [] => ""
  | [x] => x
  | x :: rest => x ++ sep ++ joinWith sep rest
  end.

Definition manageDurableObjects (env : Env) (props : Props)
           (workerName className : string) (scriptName : option string)
           (environment : option Environment) (migrations : option Migrations)
  : M ToolResponse :=
  tryCatch
    (match credentials env with
     | None =>
         logDeploymentOperation "manage_durable_objects" workerName (login props) false
           (JObj [("error", JStr "Missing Cloudflare credentials")]) ;;
         t <- credentialsNotConfiguredDetails ;;
         ret (textResponse t)
     | Some _ =>
         upper <- asks (fun w => toUpperCase w className) ;;
         let bindingName := upper ++ "_OBJECT" in
         let scriptNameToUse := orElse scriptName workerName in
         let environmentToUse := environmentOrProduction environment in
         lower <- asks (fun w => toLowerCase w className) ;;
         stamp <- dateNow ;;
         let namespaceId := "do_" ++ lower ++ "_" ++ showZ stamp in
         let migration :=
           match migrations with
           | Some m =>
               JObj [("tag", JStr (tag m));
                     ("status", JStr "configuration_needed");
                     ("note", JStr "Add migration config to wrangler.toml and deploy with wrangler deploy")]
           | None => JNull
           end in
         logDeploymentOperation "manage_durable_objects" workerName (login props) true
           (JObj [("className", JStr className);
                  ("bindingName", JStr bindingName);
                  ("namespaceId", JStr namespaceId);
                  ("scriptName", JStr scriptNameToUse);
                  ("environment", JStr environmentToUse);
                  ("migrations", migrationsOrNull migrations)]) ;;
         auditToDatabase env
           (JObj [("user_id", JStr (login props));
                  ("operation", JStr "MANAGE_DURABLE_OBJECTS");
                  ("resource_type", JStr "DURABLE_OBJECT");
                  ("resource_name", JStr className);
                  ("status", JStr "SUCCESS");
                  ("details",
                   JObj [("worker_name", JStr workerName);
                         ("binding_name", JStr bindingName);
                         ("namespace_id", JStr namespaceId);
                         ("script_name", JStr scriptNameToUse);
                         ("environment", JStr environmentToUse);
                         ("migrations", migrationsOrNull migrations);
                         ("migration_result", migration)])]) ;;
         let wranglerConfig :=
           JObj [("durable_objects",
                  JObj [("bindings",
                         JArr [JObj ([("name", JStr bindingName);
                                      ("class_name", JStr className)] ++
                                     (if truthy scriptName
                                      then [("script_name", JStr scriptNameToUse)]
                                      else []))])])] in
         let steps : list string :=
           [ "1. Add the Durable Object class '" ++ className ++ "' to your worker code";
             "2. Export the class from your worker: export { " ++ className ++ " }";
             "3. Add the binding configuration to your wrangler.jsonc file";
             "4. Deploy with: wrangler publish" ++
             match migrations with
             | Some m => match new_classes m with
                         | Some _ => " --new-class " ++ className
                         | None => ""
                         end
             | None => ""
             end ] in
         let migrationStep : list string :=
           match migrations with
           | Some m => ["5. Migration '" ++ tag m ++ "' has been applied"]
           | None => []
           end in
         let instructions := joinWith NL (steps ++ migrationStep) in
         let finalResult :=
           JObj [("configured", JBool true);
                 ("className", JStr className);
                 ("bindingName", JStr bindingName);
                 ("namespace_id", JStr namespaceId);
                 ("script_name", JStr scriptNameToUse);
                 ("environment", JStr environmentToUse);
                 ("migration", migration);
                 ("wranglerConfig", wranglerConfig);
                 ("instructions", JStr instructions)] in
         d <- pretty finalResult ;;
         ret (textResponse ("**Success**" ++ NL2 ++ "Durable Object '" ++ className ++
                            "' configured for worker '" ++ workerName ++ "'" ++ NL2 ++
                            "**Result:**" ++ NL ++ fenced "json" d))
     end)
    (fun error =>
       logDeploymentOperation "manage_durable_objects" workerName (login props) false
         (errorOnly error) ;;
       unexpected "Unexpected error configuring Durable Objects" error).

(* ---------------------------------------------------------------- *)
(** *** tools/set-worker-secrets *)

(** An element of the [secrets] parameter, [{ name, value }]. *)
Record Secret : Type := {
  secret_name : string;
  secret_value : string
}.

(** The entries of the [results] array. *)
Inductive SettledResult : Type :=
| Fulfilled (value : string)
| Rejected (reason : JsError) (secretName : string)
| Pending (secretName : string) (note : string).

Inductive BatchStatus : Type := SUCCESS | FAILURE | PARTIAL.

Definition showBatchStatus (s : BatchStatus) : string :=
  match s with
  | SUCCESS => "SUCCESS"
  | FAILURE => "FAILURE"
  | PARTIAL => "PARTIAL"
  end.

(** [new Error(message)]; the stack of an error made by a handler is
    never read. *)
Definition newError (message : string) : JsError := ErrorObject message None.

(** The inner [try]/[catch] around the one call that is made. *)
Definition setFirstSecret (cfApi : CloudflareAPI.t) (workerName : string)
           (firstSecret : Secret) : M SettledResult :=
  tryCatch
    (result <- CloudflareAPI.setWorkerSecret cfApi workerName
                 (secret_name firstSecret) (secret_value firstSecret) ;;
     if negb (success result) then
       let errorMessage :=
         firstMessage (errors result)
                      ("Failed to set secret " ++ secret_name firstSecret) in
       throw (newError errorMessage)
     else ret (Fulfilled (secret_name firstSecret)))
    (fun error => ret (Rejected error (secret_name firstSecret))).

(** [for (let i = 1; i < secrets.length; i++) results.push(...)] *)
Definition pendingResults (rest : list Secret) : list SettledResult :=
  map (fun s => Pending (secret_name s) "Call setWorkerSecrets again for this secret")
      rest.

Record Collected : Type := {
  successfulSecrets : list string;
  failedSecrets : list (string * string);
  pendingSecrets : list string
}.

(** [secrets[index].name] *)
Definition nameAt (secrets : list Secret) (index : nat) : string :=
  match nth_error secrets index with
  | Some s => secret_name s
  | None => ""
  end.

(** [result.reason?.message || 'Unknown error'] *)
Definition reasonMessage (reason : JsError) : string :=
  match reason with
  | ErrorObject m _ => orElse (Some m) "Unknown error"
  | ThrownValue _ => "Unknown error"
  end.

(** The body of [results.forEach((result, index) => ...)]. *)
Definition collectOne (secrets : list Secret) (acc : Collected)
           (entry : nat * SettledResult) : Collected :=
  let index := fst entry in
  match snd entry with
  | Fulfilled value =>
      if String.eqb value "" then acc
      else {| successfulSecrets := successfulSecrets acc ++ [value];
              failedSecrets := failedSecrets acc;
              pendingSecrets := pendingSecrets acc |}
  | Rejected reason secretName =>
      {| successfulSecrets := successfulSecrets acc;
         failedSecrets := failedSecrets acc ++
           [(orElse (Some secretName) (nameAt secrets index), reasonMessage reason)];
         pendingSecrets := pendingSecrets acc |}
  | Pending secretName _ =>
      {| successfulSecrets := successfulSecrets acc;
         failedSecrets := failedSecrets acc;
         pendingSecrets := pendingSecrets acc ++
           [orElse (Some secretName) (nameAt secrets index)] |}
  end.

Fixpoint indexedFrom {A} (i : nat) (l : list A) : list (nat * A) :=
  match l with
  | [] => []
  | x :: rest => (i, x) :: indexedFrom (S i) rest
  end.

Definition collect (secrets : list Secret) (results : list SettledResult) : Collected :=
  fold_left (collectOne secrets) (indexedFrom 0 results)
            {| successfulSecrets := []; failedSecrets := []; pendingSecrets := [] |}.

(** [errors.length === 0 ? 'SUCCESS' :
     successfulSecrets.length === 0 ? 'FAILURE' : 'PARTIAL'] *)
Definition overallStatus (c : Collected) : BatchStatus :=
  match failedSecrets c with
  | [] => SUCCESS
  | _ :: _ => match successfulSecrets c with
              | [] => FAILURE
              | _ :: _ => PARTIAL
              end
  end.

(** The [result] object of the handler. *)
Record BatchResult : Type := {
  br_workerName : string;
  br_environment : string;
  totalSecrets : nat;
  br_successfulSecrets : list string;
  br_failedSecrets : option (list (string * string));
  br_pendingSecrets : option (list string);
  br_status : BatchStatus;
  wranglerEquivalent : list string;
  instructions : string
}.

Definition nonEmpty {A} (l : list A) : option (list A) :=
  match l with [] => None | _ :: _ => Some l end.

Definition batchResult (workerName : string) (environment : option Environment)
           (secrets : list Secret) (c : Collected) : BatchResult :=
  let status := overallStatus c in
  {| br_workerName := workerName;
     br_environment := environmentOrProduction environment;
     totalSecrets := length secrets;
     br_successfulSecrets := successfulSecrets c;
     br_failedSecrets := nonEmpty (failedSecrets c);
     br_pendingSecrets := nonEmpty (pendingSecrets c);
     br_status := match pendingSecrets c with
                  | _ :: _ => PARTIAL
                  | [] => status
                  end;
     wranglerEquivalent :=
       map (fun name => "wrangler secret put " ++ name ++ " --name " ++ workerName)
           (successfulSecrets c);
     instructions :=
       match pendingSecrets c with
       | _ :: _ =>
           "Processed 1 of " ++ showNat (length secrets) ++
           " secrets. Call setWorkerSecrets again for remaining " ++
           showNat (length (pendingSecrets c)) ++ " secrets."
       | [] =>
           match status with
           | SUCCESS => "All " ++ showNat (length secrets) ++
                        " secrets successfully configured for '" ++ workerName ++ "'"
           | PARTIAL => showNat (length (successfulSecrets c)) ++ " of " ++
                        showNat (length secrets) ++ " secrets configured. " ++
                        showNat (length (failedSecrets c)) ++ " failed."
           | FAILURE => "Failed to set secrets for '" ++ workerName ++ "'"
           end
       end |}.

Definition failedJson (l : list (string * string)) : json :=
  JArr (map (fun e => JObj [("secret", JStr (fst e)); ("error", JStr (snd e))]) l).

Definition batchResultJson (r : BatchResult) : json :=
  JObj ([("workerName", JStr (br_workerName r));
         ("environment", JStr (br_environment r));
         ("totalSecrets", JNum (Z.of_nat (totalSecrets r)));
         ("successfulSecrets", stringsJson (br_successfulSecrets r))] ++
        field "failedSecrets" (option_map failedJson (br_failedSecrets r)) ++
        field "pendingSecrets" (option_map stringsJson (br_pendingSecrets r)) ++
        [("status", JStr (showBatchStatus (br_status r)));
         ("wranglerEquivalent", stringsJson (wranglerEquivalent r));
         ("instructions", JStr (instructions r))]).

(** The two [return]s at the end of the handler. *)
Definition batchResponse (workerName : string) (status : BatchStatus)
           (r : BatchResult) : M ToolResponse :=
  d <- pretty (batchResultJson r) ;;
  match status with
  | FAILURE =>
      ret (textResponse ("**Error**" ++ NL2 ++ "Failed to set secrets for '" ++
                         workerName ++ "'" ++ NL2 ++
                         "**Details:**" ++ NL ++ fenced "json" d))
  | _ =>
      ret (textResponse ("**" ++
                         match status with
                         | SUCCESS => "Success"
                         | _ => "Partial Success"
                         end ++ "**" ++ NL2 ++ instructions r ++ NL2 ++
                         "**Result:**" ++ NL ++ fenced "json" d))
  end.

Definition setWorkerSecrets (env : Env) (props : Props)
           (workerName : string) (secrets : list Secret)
           (environment : option Environment)
  : M ToolResponse :=
  tryCatch
    (match credentials env with
     | None =>
         logDeploymentOperation "set_worker_secrets" workerName (login props) false
           (JObj [("error", JStr "Missing Cloudflare credentials")]) ;;
         t <- credentialsNotConfiguredDetails ;;
         ret (textResponse t)
     | Some c =>
         let cfApi := client c in
         match secrets with
         | [] =>
             (* [secrets[0]] is undefined: reading [firstSecret.name]
                throws in the inner try and again in its catch *)
             throw (TypeError "undefined" "name")
         | firstSecret :: rest =>
             firstResult <- setFirstSecret cfApi workerName firstSecret ;;
             let results := firstResult :: pendingResults rest in
             let collected := collect secrets results in
             let status := overallStatus collected in
             logDeploymentOperation "set_worker_secrets" workerName (login props)
               (match status with SUCCESS => true | _ => false end)
               (JObj ([("successfulSecrets", stringsJson (successfulSecrets collected))] ++
                      field "errors" (option_map failedJson
                                        (nonEmpty (failedSecrets collected))) ++
                      field "environment"
                        (option_map (fun e => JStr (showEnvironment e)) environment))) ;;
             batchResponse workerName status
                           (batchResult workerName environment secrets collected)
         end
     end)
    (fun error =>
       logDeploymentOperation "set_worker_secrets" workerName (login props) false
         (errorOnly error) ;;
       unexpected "Unexpected error setting worker secrets" error).

(* ---------------------------------------------------------------- *)
(** *** tools/deploy-mcp-server *)

Record DeployMCPServerArgs : Type := {
  arg_name : string;
  arg_code : jsstring;
  githubClientId : string;
  githubClientSecret : string;
  databaseUrl : option string;
  supabaseUrl : option string;
  supabaseAnonKey : option string
}.

Inductive StepStatus : Type :=
| StepPending | StepSuccess | StepFailed | StepPartial.

Definition showStepStatus (s : StepStatus) : string :=
  match s with
  | StepPending => "pending"
  | StepSuccess => "success"
  | StepFailed => "failed"
  | StepPartial => "partial"
  end.

(** One entry of [deploymentSteps], [{ status, result }]; a result
    of [None] is [undefined], which [JSON.stringify] leaves out. *)
Record Step : Type := {
  step_status : StepStatus;
  step_result : option json
}.

Record DeploymentSteps : Type := {
  kvNamespace : Step;
  durableObjects : Step;
  workerDeployment : Step;
  secrets : Step
}.

(** [{ status: 'pending', result: null as any }] *)
Definition pendingStep : Step :=
  {| step_status := StepPending; step_result := Some JNull |}.

Definition stepJson (s : Step) : json :=
  JObj (("status", JStr (showStepStatus (step_status s))) ::
        field "result" (step_result s)).

Definition stepsJson (d : DeploymentSteps) : json :=
  JObj [("kvNamespace", stepJson (kvNamespace d));
        ("durableObjects", stepJson (durableObjects d));
        ("workerDeployment", stepJson (workerDeployment d));
        ("secrets", stepJson (secrets d))].

(** Step 1, which yields [deploymentSteps.kvNamespace] as it stands
    afterwards.  Any failure, thrown or reported, is swallowed by the
    [catch] clause, which sets the status to failed and leaves the
    result as it is: [null] as initialised when the failure came before
    the assignments.  After the assignments the [try] block reads
    [kvData.result.id] for its log line; if the result is [null] or
    [undefined] this throws into the same [catch] clause, with the
    result already stored. *)
Definition createNamespaceStep (cfApi : CloudflareAPI.t) (name : string)
  : M Step :=
  tryCatch
    (let kvTitle := name ++ "-oauth-kv" in
     kvData <- CloudflareAPI.createKVNamespace cfApi kvTitle ;;
     if negb (success kvData) then
       throw (newError (firstMessage (errors kvData) "Failed to create KV namespace"))
     else
       let stored := anyResult (Runtime.result kvData) in
       match readProp "id" stored with
       | inr _ => ret {| step_status := StepSuccess; step_result := stored |}
       | inl _ => ret {| step_status := StepFailed; step_result := stored |}
       end)
    (fun kvError => ret {| step_status := StepFailed; step_result := Some JNull |}).

(** Step 2.  The error the [catch] clause received, or the [result]
    of the deployment as it came. *)
Definition deployStep (cfApi : CloudflareAPI.t) (name : string) (code : jsstring)
  : M (JsError + option json) :=
  tryCatch
    (deployResult <- CloudflareAPI.deployWorker cfApi name code None ;;
     if negb (success deployResult) then
       throw (newError (firstMessage (errors deployResult) "Worker deployment failed"))
     else ret (inr (anyResult (raw deployResult))))
    (fun deployError => ret (inl deployError)).

(** Step 3 makes no call. *)
Definition durableObjectsStep : Step :=
  {| step_status := StepSuccess;
     step_result :=
       Some (JObj [("name", JStr "MCP_OBJECT");
                   ("className", JStr "MyMCP");
                   ("note", JStr "Configure in wrangler.toml for full functionality")]) |}.

Definition secretsToSet (args : DeployMCPServerArgs) : list Secret :=
  ([ {| secret_name := "GITHUB_CLIENT_ID"; secret_value := githubClientId args |};
     {| secret_name := "GITHUB_CLIENT_SECRET"; secret_value := githubClientSecret args |} ] ++
   (if truthy (databaseUrl args)
    then [ {| secret_name := "DATABASE_URL"; secret_value := orElse (databaseUrl args) "" |} ]
    else []) ++
   (if truthy (supabaseUrl args)
    then [ {| secret_name := "SUPABASE_URL"; secret_value := orElse (supabaseUrl args) "" |} ]
    else []) ++
   (if truthy (supabaseAnonKey args)
    then [ {| secret_name := "SUPABASE_ANON_KEY";
              secret_value := orElse (supabaseAnonKey args) "" |} ]
    else []))%list.

(** An entry of [secretResults]. *)
Record SecretResult : Type := {
  sr_name : string;
  sr_success : bool;
  sr_error : option string
}.

(** The body of the [for (const secret of secretsToSet)] loop. *)
Definition setOneSecret (cfApi : CloudflareAPI.t) (name : string) (secret : Secret)
  : M SecretResult :=
  tryCatch
    (secretResult <- CloudflareAPI.setWorkerSecret cfApi name
                       (secret_name secret) (secret_value secret) ;;
     if success secretResult then
       ret {| sr_name := secret_name secret; sr_success := true; sr_error := None |}
     else
       ret {| sr_name := secret_name secret; sr_success := false;
              sr_error := firstMessageOpt (errors secretResult) |})
    (fun secretError =>
       ret {| sr_name := secret_name secret; sr_success := false;
              sr_error := Some (messageOr secretError "Unknown error") |}).

Fixpoint setSecrets (cfApi : CloudflareAPI.t) (name : string) (todo : list Secret)
  : M (list SecretResult) :=
  match todo with
  | [] => ret []
  | secret :: rest =>
      r <- setOneSecret cfApi name secret ;;
      rs <- setSecrets cfApi name rest ;;
      ret (r :: rs)
  end.

Definition secretResultJson (r : SecretResult) : json :=
  JObj ([("name", JStr (sr_name r));
         ("status", JStr (if sr_success r then "success" else "failed"))] ++
        field "error" (optStr (sr_error r))).

(** [every(success) ? 'success' : some(success) ? 'partial' : 'failed'] *)
Definition secretsStatus (rs : list SecretResult) : StepStatus :=
  if forallb sr_success rs then StepSuccess
  else if existsb sr_success rs then StepPartial
  else StepFailed.

Definition secretsStep (rs : list SecretResult) : Step :=
  {| step_status := secretsStatus rs;
     step_result := Some (JArr (map secretResultJson rs)) |}.

Definition workerStep (deployed : option json) : Step :=
  {| step_status := StepSuccess; step_result := deployed |}.

(** [result ? [{ binding: "OAUTH_KV", id: result.id }] : []] *)
Definition kvBindings (kvResult : option json) : json :=
  match kvResult with
  | Some r =>
      if truthyJson r
      then JArr [JObj (("binding", JStr "OAUTH_KV") :: field "id" (getProp "id" r))]
      else JArr []
  | None => JArr []
  end.

Definition wranglerConfigJson (name accountId : string) (kvResult : option json) : json :=
  JObj [("name", JStr name);
        ("main", JStr "src/index.ts");
        ("compatibility_date", JStr "2023-10-30");
        ("node_compat", JBool true);
        ("kv_namespaces", kvBindings kvResult);
        ("durable_objects",
         JObj [("bindings", JArr [JObj [("name", JStr "MCP_OBJECT");
                                        ("class_name", JStr "MyMCP")]])]);
        ("migrations", JArr [JObj [("tag", JStr "v1");
                                   ("new_classes", JArr [JStr "MyMCP"])]]);
        ("vars", JObj [("CLOUDFLARE_ACCOUNT_ID", JStr accountId)])].

Definition workerUrl (name : string) (props : Props) : string :=
  "https://" ++ name ++ "." ++ login props ++ ".workers.dev".

Definition deploymentResultJson (name : string) (props : Props)
           (steps : DeploymentSteps) (secretResults : list SecretResult)
           (wranglerConfig : json) (deployedAt : string) : json :=
  JObj (("name", JStr name) ::
        ("status", JStr "deployed") ::
        ("endpoints",
         JObj [("worker", JStr (workerUrl name props));
               ("oauth", JStr (workerUrl name props ++ "/oauth/authorize"));
               ("mcp", JStr (workerUrl name props ++ "/mcp"))]) ::
        field "kvNamespace" (step_result (kvNamespace steps)) ++
        [("secrets",
          JObj [("configured",
                 stringsJson (map sr_name (filter sr_success secretResults)));
                ("failed",
                 JArr (map secretResultJson
                           (filter (fun s => negb (sr_success s)) secretResults)))]);
         ("wranglerConfig", wranglerConfig);
         ("deploymentSteps", stepsJson steps);
         ("deployedBy", JStr (deployedBy props));
         ("deployedAt", JStr deployedAt)])%list.

(** The steps as they stand when the worker deployment has failed. *)
Definition stepsAtFailure (kv : Step) : DeploymentSteps :=
  {| kvNamespace := kv;
     durableObjects := pendingStep;
     workerDeployment := pendingStep;
     secrets := pendingStep |}.

Definition deploymentFailed (deployError : JsError) (steps : DeploymentSteps)
  : M ToolResponse :=
  d <- pretty (JObj [("error", JStr (messageOr deployError "Unknown error"));
                     ("completedSteps", stepsJson steps)]) ;;
  ret (textResponse ("**Error**" ++ NL2 ++ "Worker deployment failed" ++ NL2 ++
                     "**Details:**" ++ NL ++ fenced "json" d)).

Definition deploymentSucceeded (name : string) (props : Props)
           (deploymentResult wranglerConfig : json) : M ToolResponse :=
  d <- pretty deploymentResult ;;
  c <- pretty wranglerConfig ;;
  ret (textResponse
    ("**Success**" ++ NL2 ++ "MCP Server '" ++ name ++ "' deployed successfully!" ++ NL2 ++
     "**Endpoints:**" ++ NL ++
     "- Worker: " ++ workerUrl name props ++ NL ++
     "- OAuth: " ++ workerUrl name props ++ "/oauth/authorize" ++ NL ++
     "- MCP: " ++ workerUrl name props ++ "/mcp" ++ NL2 ++
     "**Configuration:**" ++ NL ++ fenced "json" d ++ NL2 ++
     "**Wrangler Config:**" ++ NL ++ fenced "jsonc" c)).

Definition deployMCPServer (env : Env) (props : Props) (args : DeployMCPServerArgs)
  : M ToolResponse :=
  let name := arg_name args in
  tryCatch
    ((* the opening log line carries [new Date().toISOString()] *)
     nowISO ;;
     match credentials env with
     | None =>
         logDeploymentOperation "deploy_mcp_server" name (login props) false
           (JObj [("error", JStr "Missing Cloudflare credentials")]) ;;
         t <- credentialsNotConfiguredDetails ;;
         ret (textResponse t)
     | Some c =>
         let accountId := fst c in
         let cfApi := client c in
         (* Step 1: create the KV namespace *)
         kv <- createNamespaceStep cfApi name ;;
         (* Step 2: deploy the worker code *)
         deployed <- deployStep cfApi name (arg_code args) ;;
         match deployed with
         | inl deployError =>
             let deploymentSteps := stepsAtFailure kv in
             logDeploymentOperation "deploy_mcp_server" name (login props) false
               (JObj [("error", JStr (messageOr deployError "Worker deployment failed"));
                      ("steps", stepsJson deploymentSteps)]) ;;
             deploymentFailed deployError deploymentSteps
         | inr worker =>
             (* Step 3: Durable Objects; Step 4: the secrets, one by one *)
             secretResults <- setSecrets cfApi name (secretsToSet args) ;;
             let deploymentSteps :=
               {| kvNamespace := kv;
                  durableObjects := durableObjectsStep;
                  workerDeployment := workerStep worker;
                  secrets := secretsStep secretResults |} in
             let wranglerConfig :=
               wranglerConfigJson name accountId (step_result kv) in
             deployedAt <- nowISO ;;
             let deploymentResult :=
               deploymentResultJson name props deploymentSteps secretResults
                                    wranglerConfig deployedAt in
             logDeploymentOperation "deploy_mcp_server" name (login props) true
               deploymentResult ;;
             deploymentSucceeded name props deploymentResult wranglerConfig
         end
     end)
    (fun error =>
       logDeploymentOperation "deploy_mcp_server" name (login props) false
         (errorOnly error) ;;
       unexpected "Unexpected error deploying MCP server" error).

(* ---------------------------------------------------------------- *)
(** *** tools/list-tables, query-database, execute-database *)

(** [const missing = []; if (!url) missing.push(...); ...] *)
Definition missingSupabase (env : Env) : list string :=
  ((if truthy (SUPABASE_URL env) then [] else ["SUPABASE_URL"]) ++
   (if truthy (SUPABASE_ANON_KEY env) then [] else ["SUPABASE_ANON_KEY"]))%list.

Definition supabaseMissing (env : Env) : ToolResponse :=
  textResponse ("**Error**" ++ NL2 ++
                "Supabase configuration missing. Please set the following environment variables: " ++
                joinWith ", " (missingSupabase env)).

Definition supabaseSettings (env : Env) : option (string * string) :=
  if negb (truthy (SUPABASE_URL env)) || negb (truthy (SUPABASE_ANON_KEY env))
  then None
  else Some (orElse (SUPABASE_URL env) "", orElse (SUPABASE_ANON_KEY env) "").

(** [error instanceof Error ? error.message : JSON.stringify(error)] *)
Definition describeError (error : JsError) : M string :=
  match error with
  | ErrorObject m _ => ret m
  | ThrownValue v => asks (fun w => stringifyCompact w v)
  end.

Definition columnJson (col : ColumnInfo) : json :=
  JObj [("name", JStr (column_name col));
        ("type", JStr (data_type col));
        ("nullable", JBool (String.eqb (is_nullable col) "YES"));
        ("default", match column_default col with
                    | Some v => JStr v
                    | None => JNull
                    end)].

(** One round of the loop that fills [tableMap], a [Map] kept in
    insertion order. *)
Fixpoint addColumn (tableMap : list (string * list json)) (col : ColumnInfo)
  : list (string * list json) :=
  match tableMap with
  | [] => [(table_name col, [columnJson col])]
  | (t, cols) :: rest =>
      if String.eqb t (table_name col)
      then (t, (cols ++ [columnJson col])%list) :: rest
      else (t, cols) :: addColumn rest col
  end.

Definition tableJson (entry : string * list json) : json :=
  JObj [("name", JStr (fst entry));
        ("schema", JStr "public");
        ("columns", JArr (snd entry))].

Definition listTables (env : Env) (props : Props) : M ToolResponse :=
  tryCatch
    (match supabaseSettings env with
     | None => ret (supabaseMissing env)
     | Some (supabaseUrl, supabaseKey) =>
         history <- recordDb (Rpc supabaseUrl supabaseKey "get_table_columns" None) ;;
         answer <- asks (fun w => getTableColumns w history) ;;
         match answer with
         | RpcThrows e => throw e
         | RpcReturns _ (Some error) => throw error
         | RpcReturns None None =>
             ret (textResponse ("**Error**" ++ NL2 ++
                  "No table information available or unexpected response format."))
         | RpcReturns (Some columns) None =>
             let tableInfo := fold_left addColumn columns [] in
             d <- pretty (JArr (map tableJson tableInfo)) ;;
             ret (textResponse
               ("**Database Tables and Schema**" ++ NL2 ++ d ++ NL2 ++
                "**Total tables found:** " ++ showNat (length tableInfo) ++ NL2 ++
                "**Note:** Use the `queryDatabase` tool to run SELECT queries, or `executeDatabase` tool for write operations (if you have write access)."))
         end
     end)
    (fun error =>
       errorMessage <- describeError error ;;
       ret (textResponse ("**Error**" ++ NL2 ++
                          "Error retrieving database schema: " ++ errorMessage))).

(** [await supabase.rpc('execute_sql', { query: sql })] followed by
    [if (error) throw error]. *)
Definition runSql (supabaseUrl supabaseKey sql : string) : M json :=
  history <- recordDb (Rpc supabaseUrl supabaseKey "execute_sql" (Some sql)) ;;
  answer <- asks (fun w => executeSql w history sql) ;;
  match answer with
  | RpcThrows e => throw e
  | RpcReturns _ (Some error) => throw error
  | RpcReturns results None => ret results
  end.

(** [Array.isArray(results) ? results.length : 1] *)
Definition rowCount (results : json) : nat :=
  match results with
  | JArr rows => length rows
  | _ => 1
  end.

Definition queryDatabase (env : Env) (props : Props) (sql : string) : M ToolResponse :=
  tryCatch
    (validation <- asks (fun w => validateSqlQuery w sql) ;;
     if negb (sqlIsValid validation) then
       ret (textResponse ("**Error**" ++ NL2 ++ "Invalid SQL query: " ++
                          showOpt (sqlError validation)))
     else
       isWrite <- asks (fun w => isWriteOperation w sql) ;;
       if (isWrite : bool) then
         ret (textResponse ("**Error**" ++ NL2 ++
              "Write operations are not allowed with this tool. Use the `executeDatabase` tool if you have write permissions (requires special GitHub username access)."))
       else
         match supabaseSettings env with
         | None => ret (supabaseMissing env)
         | Some (supabaseUrl, supabaseKey) =>
             results <- runSql supabaseUrl supabaseKey sql ;;
             d <- pretty results ;;
             ret (textResponse
               ("**Query Results**" ++ NL ++ fenced "sql" sql ++ NL2 ++
                "**Results:**" ++ NL ++ fenced "json" d ++ NL2 ++
                "**Rows returned:** " ++ showNat (rowCount results)))
         end)
    (fun error =>
       errorMessage <- describeError error ;;
       ret (textResponse ("**Error**" ++ NL2 ++ "Database query error: " ++ errorMessage))).

Definition executeDatabase (env : Env) (props : Props) (sql : string) : M ToolResponse :=
  tryCatch
    (validation <- asks (fun w => validateSqlQuery w sql) ;;
     if negb (sqlIsValid validation) then
       ret (textResponse ("**Error**" ++ NL2 ++ "Invalid SQL statement: " ++
                          showOpt (sqlError validation)))
     else
       match supabaseSettings env with
       | None => ret (supabaseMissing env)
       | Some (supabaseUrl, supabaseKey) =>
           results <- runSql supabaseUrl supabaseKey sql ;;
           isWrite <- asks (fun w => isWriteOperation w sql) ;;
           let operationType :=
             if (isWrite : bool) then "Write Operation" else "Read Operation" in
           d <- pretty results ;;
           ret (textResponse
             ("**" ++ operationType ++ " Executed Successfully**" ++ NL ++
              fenced "sql" sql ++ NL2 ++
              "**Results:**" ++ NL ++ fenced "json" d ++ NL2 ++
              (if (isWrite : bool)
               then "**⚠️ Database was modified**"
               else "**Rows returned:** " ++ showNat (rowCount results)) ++ NL2 ++
              "**Executed by:** " ++ deployedBy props))
       end)
    (fun error =>
       errorMessage <- describeError error ;;
       ret (textResponse ("**Error**" ++ NL2 ++ "Database execution error: " ++
                          errorMessage))).

(* ---------------------------------------------------------------- *)
(** *** tools/register-tools *)

Inductive ToolName : Type :=
| WhoamiTool | ListTablesTool | QueryDatabaseTool | ExecuteDatabaseTool
| DeployWorkerTool | ListWorkersTool | GetWorkerStatusTool | DeleteWorkerTool
| CreateKVNamespaceTool | ManageDurableObjectsTool | SetWorkerSecretsTool
| DeployMCPServerTool.

Definition DATABASE_WRITE_USERS : list string := ["aboundTechOlogy"].
Definition DEPLOYMENT_USERS : list string := ["aboundTechOlogy"].
Definition INFRASTRUCTURE_ADMINS : list string := ["aboundTechOlogy"].

(** [set.has(x)] *)
Definition has (set : list string) (x : string) : bool :=
  existsb (String.eqb x) set.

Definition registerIf (allowed : bool) (tool : ToolName) : list ToolName :=
  if allowed then [tool] else [].

(** The tools [registerAllTools] puts on the server, in its order. *)
Definition registerAllTools (props : Props) : list ToolName :=
  ([WhoamiTool; ListTablesTool; QueryDatabaseTool] ++
   registerIf (has DATABASE_WRITE_USERS (login props)) ExecuteDatabaseTool ++
   registerIf (has DEPLOYMENT_USERS (login props)) DeployWorkerTool ++
   registerIf (has DEPLOYMENT_USERS (login props)) ListWorkersTool ++
   registerIf (has DEPLOYMENT_USERS (login props)) GetWorkerStatusTool ++
   registerIf (has DEPLOYMENT_USERS (login props)) DeleteWorkerTool ++
   registerIf (has INFRASTRUCTURE_ADMINS (login props)) CreateKVNamespaceTool ++
   registerIf (has INFRASTRUCTURE_ADMINS (login props)) ManageDurableObjectsTool ++
   registerIf (has INFRASTRUCTURE_ADMINS (login props)) SetWorkerSecretsTool ++
   registerIf (has INFRASTRUCTURE_ADMINS (login props)) DeployMCPServerTool)%list.

(** A tool invocation: the tool and its schema-checked parameters. *)
Inductive ToolCall : Type :=
| CallWhoami
| CallListTables
| CallQueryDatabase (sql : string)
| CallExecuteDatabase (sql : string)
| CallDeployWorker (name : string) (code : jsstring) (description : option string)
| CallListWorkers
| CallGetWorkerStatus (name : string)
| CallDeleteWorker (name : string) (confirm : bool)
| CallCreateKVNamespace (name title : string) (workerName : option string)
| CallManageDurableObjects (workerName className : string) (scriptName : option string)
                           (environment : option Environment)
                           (migrations : option Migrations)
| CallSetWorkerSecrets (workerName : string) (secrets : list Secret)
                       (environment : option Environment)
| CallDeployMCPServer (args : DeployMCPServerArgs).

Definition toolOf (c : ToolCall) : ToolName :=
  match c with
  | CallWhoami => WhoamiTool
  | CallListTables => ListTablesTool
  | CallQueryDatabase _ => QueryDatabaseTool
  | CallExecuteDatabase _ => ExecuteDatabaseTool
  | CallDeployWorker _ _ _ => DeployWorkerTool
  | CallListWorkers => ListWorkersTool
  | CallGetWorkerStatus _ => GetWorkerStatusTool
  | CallDeleteWorker _ _ => DeleteWorkerTool
  | CallCreateKVNamespace _ _ _ => CreateKVNamespaceTool
  | CallManageDurableObjects _ _ _ _ _ => ManageDurableObjectsTool
  | CallSetWorkerSecrets _ _ _ => SetWorkerSecretsTool
  | CallDeployMCPServer _ => DeployMCPServerTool
  end.

(** The handler the server runs for a call. *)
Definition handler (env : Env) (props : Props) (c : ToolCall) : M ToolResponse :=
  match c with
  | CallWhoami => whoami env props
  | CallListTables => listTables env props
  | CallQueryDatabase sql => queryDatabase env props sql
  | CallExecuteDatabase sql => executeDatabase env props sql
  | CallDeployWorker name code description => deployWorker env props name code description
  | CallListWorkers => listWorkers env props
  | CallGetWorkerStatus name => getWorkerStatus env props name
  | CallDeleteWorker name confirm => deleteWorker env props name confirm
  | CallCreateKVNamespace name title workerName =>
      createKVNamespace env props name title workerName
  | CallManageDurableObjects workerName className scriptName environment migrations =>
      manageDurableObjects env props workerName className scriptName environment migrations
  | CallSetWorkerSecrets workerName secrets environment =>
      setWorkerSecrets env props workerName secrets environment
  | CallDeployMCPServer args => deployMCPServer env props args
  end.

End Tools.

(* ================================================================== *)
(** ** Sample worlds *)
(* ================================================================== *)

(** Concrete worlds on which the handlers can be run.  The serializer
    is a plain one-line rendering (strings are printed as they are). *)
Module Samples.
Import Runtime Tools.

Fixpoint render (j : json) : string :=
  match j with
  | JNull => "null"
  | JBool true => "true"
  | JBool false => "false"
  | JNum n => showZ n
  | JStr s => DQ ++ s ++ DQ
  | JArr items =>
      "[" ++ (fix renderItems (l : list json) : string :=
                match l with
                | [] => ""
                | [x] => render x
                | x :: rest => render x ++ "," ++ renderItems rest
                end) items ++ "]"
  | JObj fields =>
      "{" ++ (fix renderFields (l : list (string * json)) : string :=
                match l with
                | [] => ""
                | [(k, v)] => DQ ++ k ++ DQ ++ ":" ++ render v
                | (k, v) :: rest =>
                    DQ ++ k ++ DQ ++ ":" ++ render v ++ "," ++ renderFields rest
                end) fields ++ "}"
  end.

Definition okBody (r : option ResultData) : ApiBody :=
  {| body_success := true; body_errors := []; body_messages := []; body_result := r |}.

Definition failedBody (code : Z) (message : string) : ApiBody :=
  {| body_success := false;
     body_errors := [ {| err_code := Some code; err_message := Some message |} ];
     body_messages := [];
     body_result := None |}.

Definition sampleNamespace : ResultData :=
  NamespaceData {| kv_id := Some "kv-123"; kv_title := Some "demo-oauth-kv" |}.

Definition sampleWorker : ResultData :=
  WorkerData {| worker_id := Some "demo"; worker_name := Some "demo";
                created_on := Some "2025-01-01T00:00:00.000Z";
                modified_on := Some "2025-01-02T00:00:00.000Z";
                compatibility_date := None; usage_model := None;
                environment := None |}.

Definition isNamespaceRequest (r : HttpRequest) : bool :=
  String.eqb (req_method r) "POST".

Definition isSecretRequest (r : HttpRequest) : bool :=
  String.eqb (req_method r) "PUT" && includes "/secrets" (req_url r).

Definition isSettingsRequest (r : HttpRequest) : bool :=
  String.eqb (req_method r) "GET" && includes "/settings" (req_url r).

(** A world is made from its network. *)
Definition worldOf (network : list HttpRequest -> HttpRequest -> FetchOutcome) : World :=
  {| respond := network;
     clock := fun n => (1750000000000 + Z.of_nat n)%Z;
     toISOString := fun ms => "T" ++ showZ ms;
     parseDate := fun _ => None;
     stringifyPretty := render;
     stringifyCompact := render;
     getTableColumns := fun _ => RpcReturns None None;
     executeSql := fun _ _ => RpcReturns (JArr []) None;
     auditInsert := fun _ _ => None;
     validateSqlQuery := fun _ => {| sqlIsValid := true; sqlError := None |};
     isWriteOperation := fun _ => false;
     toUpperCase := fun s => s;
     toLowerCase := fun s => s |}.

(** Every request is answered with [success: true]. *)
Definition healthy : World :=
  worldOf (fun _ r =>
    Responds 200 (inr (okBody (if isNamespaceRequest r then Some sampleNamespace
                               else if isSecretRequest r then None
                               else Some sampleWorker)))).

(** Namespace creation is refused, everything else succeeds. *)
Definition namespaceRefused : World :=
  worldOf (fun _ r =>
    if isNamespaceRequest r
    then Responds 403 (inr (failedBody 10000 "Authentication error"))
    else Responds 200 (inr (okBody (if isSecretRequest r then None
                                    else Some sampleWorker)))).

(** Secrets are refused, everything else succeeds. *)
Definition secretsRefused : World :=
  worldOf (fun _ r =>
    if isSecretRequest r
    then Responds 400 (inr (failedBody 10053 "Secret rejected"))
    else Responds 200 (inr (okBody (if isNamespaceRequest r then Some sampleNamespace
                                    else Some sampleWorker)))).

(** The network is down. *)
Definition offline : World :=
  worldOf (fun _ _ => NetworkFailure (ErrorObject "fetch failed" None)).

(** The settings endpoint answers 404, everything else succeeds. *)
Definition settingsMissing : World :=
  worldOf (fun _ r =>
    if isSettingsRequest r
    then Responds 404 (inr (failedBody 10007 "workers.api.error.script_not_found"))
    else Responds 200 (inr (okBody None))).

Definition configured : Env :=
  {| CLOUDFLARE_ACCOUNT_ID := Some "acct"; CLOUDFLARE_API_TOKEN := Some "token";
     SUPABASE_URL := None; SUPABASE_ANON_KEY := None |}.

Definition unconfigured : Env :=
  {| CLOUDFLARE_ACCOUNT_ID := None; CLOUDFLARE_API_TOKEN := None;
     SUPABASE_URL := None; SUPABASE_ANON_KEY := None |}.

Definition admin : Props :=
  {| login := "aboundTechOlogy"; name := "Admin"; email := "admin@example.com";
     accessToken := "gho_token" |}.

Definition demoArgs : DeployMCPServerArgs :=
  {| arg_name := "demo";
     arg_code := js "export default {}";
     githubClientId := "client-id";
     githubClientSecret := "client-secret";
     databaseUrl := None; supabaseUrl := None; supabaseAnonKey := None |}.

Definition secretA : Secret := {| secret_name := "ALPHA"; secret_value := "one" |}.
Definition secretB : Secret := {| secret_name := "BETA"; secret_value := "two" |}.

(** The result object sent back when ALPHA is refused and BETA pends. *)
Definition refusedBatch : BatchResult :=
  {| br_workerName := "w";
     br_environment := "production";
     totalSecrets := 2;
     br_successfulSecrets := [];
     br_failedSecrets := Some [("ALPHA", "Secret rejected")];
     br_pendingSecrets := Some ["BETA"];
     br_status := PARTIAL;
     wranglerEquivalent := [];
     instructions :=
       "Processed 1 of 2 secrets. Call setWorkerSecrets again for remaining 1 secrets." |}.

End Samples.

(* ================================================================== *)
(** ** What is observed of a run *)
(* ================================================================== *)

Module Observations.
Import Regex Validation Runtime Tools.

(** The network's answer to a request sent from state [st]. *)
Definition answer (w : World) (st : State) (req : HttpRequest) : FetchOutcome :=
  respond w (calls st) req.

(** The remote call went through: a body arrived, it could be parsed
    and it says [success: true].  Otherwise the call failed, by a
    thrown error or by [success: false]. *)
Definition accepted (o : FetchOutcome) : bool :=
  match o with
  | Responds _ (inr b) => body_success b
  | _ => false
  end.

(** As [accepted], and the body carries a namespace as its result. *)
Definition namespaceCreated (o : FetchOutcome) : option KVNamespace :=
  match o with
  | Responds _ (inr b) =>
      if body_success b
      then match body_result b with
           | Some (NamespaceData ns) => Some ns
           | _ => None
           end
      else None
  | _ => None
  end.

(** The response is an error response. *)
Definition isError (r : ToolResponse) : bool :=
  String.prefix "**Error**" (responseText r).

(** The overall status a response announces in its headline. *)
Definition reportedStatus (r : ToolResponse) : option BatchStatus :=
  if String.prefix "**Error**" (responseText r) then Some FAILURE
  else if String.prefix "**Partial Success**" (responseText r) then Some PARTIAL
  else if String.prefix "**Success**" (responseText r) then Some SUCCESS
  else None.

(** The overall status in the words of the specification: SUCCESS iff
    every phase succeeded, FAILURE iff the fatal phase (the code
    deployment) failed, PARTIAL otherwise. *)
Definition specifiedStatus (namespaceOk codeDeployOk bindingOk secretsOk : bool)
  : BatchStatus :=
  if negb codeDeployOk then FAILURE
  else if namespaceOk && bindingOk && secretsOk then SUCCESS
  else PARTIAL.

(** The verdict of the last audit entry, if any. *)
Definition lastVerdict (entries : list AuditEntry) : option bool :=
  match rev entries with
  | e :: _ => Some (audit_success e)
  | [] => None
  end.

(** The requests as they go over the wire, written out in full. *)

Definition accountUrl (accountId : string) : string :=
  "https://api.cloudflare.com/client/v4/accounts/" ++ accountId.

Definition bearer (apiToken : string) : string * string :=
  ("Authorization", "Bearer " ++ apiToken).

(** A request with the JSON headers to [path] under the account. *)
Definition apiRequest (api : CloudflareAPI.t) (method path : string) (body : RequestBody)
  : HttpRequest :=
  {| req_url := accountUrl (CloudflareAPI.accountId api) ++ path;
     req_method := method;
     req_headers := [ bearer (CloudflareAPI.apiToken api);
                      ("Content-Type", "application/json") ];
     req_body := body |}.

(** The requests of the orchestrator and of the secret tool. *)
Definition secretRequest (w : World) (c : string * string) (workerName : string)
           (s : Secret) : HttpRequest :=
  apiRequest (client c) "PUT" ("/workers/scripts/" ++ workerName ++ "/secrets")
    (TextBody (stringifyCompact w
       (JObj [ ("name", JStr (secret_name s));
               ("text", JStr (secret_value s));
               ("type", JStr "secret_text") ]))).

Definition oauthNamespaceRequest (w : World) (c : string * string) (name : string)
  : HttpRequest :=
  apiRequest (client c) "POST" "/storage/kv/namespaces"
    (TextBody (stringifyCompact w (JObj [("title", JStr (name ++ "-oauth-kv"))]))).

(** The multipart upload: the script as an ES module and the metadata
    that goes with it; no [Content-Type] header. *)
Definition uploadRequest (w : World) (api : CloudflareAPI.t) (name : string)
           (code : jsstring) (bindings : list (string * json)) : HttpRequest :=
  {| req_url := accountUrl (CloudflareAPI.accountId api) ++ "/workers/scripts/" ++ name;
     req_method := "PUT";
     req_headers := [ bearer (CloudflareAPI.apiToken api) ];
     req_body := FormBody
       [ {| part_name := "worker.js";
            part_type := "application/javascript+module";
            part_content := ScriptPart code |};
         {| part_name := "metadata";
            part_type := "application/json";
            part_content :=
              TextPart (stringifyCompact w
                (JObj ([ ("main_module", JStr "worker.js");
                         ("compatibility_date", JStr "2025-03-10");
                         ("compatibility_flags", JArr [JStr "nodejs_compat"]) ]
                       ++ bindings)%list)) |} ] |}.

Definition codeDeployRequest (w : World) (c : string * string) (name : string)
           (code : jsstring) : HttpRequest :=
  uploadRequest w (client c) name code [].

Definition deleteRequest (w : World) (c : string * string) (name : string)
  : HttpRequest :=
  apiRequest (client c) "DELETE" ("/workers/scripts/" ++ name) NoBody.



(** The pattern of template-literal interpolations. *)
Definition templatePattern : pattern := (lit "${" ++ anything ++ lit "}")%list.

(** A computation that sends the request [req] and no other,
    whatever happens. *)
Definition sends {A : Type} (c : M A) (req : World -> HttpRequest) : Prop :=
  forall (w : World) (st : State),
    calls (snd (c w st)) = (calls st ++ [req w])%list.

(** The error the [catch] clause around a remote call receives when the
    call is answered by [o]: what [fetch] or [json()] threw, or the
    [Error] made from a body that says [success: false], whose message
    is the first error message of the body or else [fallback].  [None]
    when the call went through. *)
Definition refusal (o : FetchOutcome) (fallback : string) : option JsError :=
  match o with
  | NetworkFailure e => Some e
  | Responds _ (inl e) => Some e
  | Responds _ (inr b) =>
      if body_success b then None
      else Some (ErrorObject
                   (match body_errors b with
                    | e :: _ => orElse (err_message e) fallback
                    | [] => fallback
                    end) None)
  end.

(** [deploymentSteps.kvNamespace.result] once step 1 of the
    orchestrator is over, [None] being [undefined]: the result of the
    body when the body says [success: true], whatever it is, and
    [null], the initial value, in every other case. *)
Definition namespaceResult (o : FetchOutcome) : option json :=
  match o with
  | Responds _ (inr b) =>
      if body_success b then option_map resultJson (body_result b) else Some JNull
  | _ => Some JNull
  end.

(** Step 1 succeeded: the body says [success: true] and holds a result
    that is neither [null] nor missing. *)
Definition namespaceStored (o : FetchOutcome) : bool :=
  match o with
  | Responds _ (inr b) =>
      body_success b &&
      match option_map resultJson (body_result b) with
      | None | Some JNull => false
      | Some _ => true
      end
  | _ => false
  end.

(** [deploymentSteps.kvNamespace] once step 1 is over. *)
Definition namespaceStepAfter (o : FetchOutcome) : Step :=
  {| step_status := if namespaceStored o then StepSuccess else StepFailed;
     step_result := namespaceResult o |}.

(** The [result] of the body of an answer, [None] being [undefined]. *)
Definition resultOf (o : FetchOutcome) : option json :=
  match o with
  | Responds _ (inr b) => option_map resultJson (body_result b)
  | _ => None
  end.

(** An entry of [deploymentSteps] as [JSON.stringify] is given it. *)
Definition shownStep (status : string) (result : option json) : json :=
  JObj (("status", JStr status) ::
        match result with
        | Some r => [("result", r)]
        | None => []
        end).

Definition namespaceShown (o : FetchOutcome) : json :=
  shownStep (if namespaceStored o then "success" else "failed") (namespaceResult o).

(** An entry that was never touched. *)
Definition pendingShown : json := shownStep "pending" (Some JNull).

(** The verdicts on requests sent one after the other, the first of
    them after [history]. *)
Fixpoint verdicts (w : World) (history reqs : list HttpRequest) : list bool :=
  match reqs with
  | [] => []
  | r :: rest => accepted (respond w history r) :: verdicts w (history ++ [r])%list rest
  end.

(** The status of the secrets step, by the verdicts on its requests. *)
Definition secretsShown (vs : list bool) : string :=
  if forallb (fun v => v) vs then "success"
  else if existsb (fun v => v) vs then "partial"
  else "failed".

(** [j.k1.k2...], [None] when a key is missing on the way. *)
Fixpoint path (keys : list string) (j : json) : option json :=
  match keys with
  | [] => Some j
  | k :: rest =>
      match getProp k j with
      | Some v => path rest v
      | None => None
      end
  end.

Local Open Scope js_scope.




End Observations.

(* ================================================================== *)
(** ** Further vocabulary *)
(* ================================================================== *)

Module Coverage.
Import Regex Validation Runtime Tools Observations.

(** The patterns of the validator that are plain words, matched in any
    letter case. *)
Definition forbiddenWords : list string :=
  [ "process.exit"; "process.kill"; "child_process";
    "document.write"; "javascript:"; "vbscript:" ].

(** The words the validator refuses when they are called. *)
Definition forbiddenCalls : list string := [ "eval"; "Function" ].

(** [text] spells [word], letter case aside. *)
Definition spelledAs (word : string) (text : jsstring) : Prop :=
  Forall2 (fun c x => sameLetter c x = true) (js word) text.

(** The last code unit of a string, if it has one. *)
Definition lastUnit (s : jsstring) : option N :=
  match rev s with
  | c :: _ => Some c
  | [] => None
  end.

(** The world [w] with another Supabase audit table. *)
Definition withAuditInsert (f : list DbCall -> json -> option JsError) (w : World)
  : World :=
  {| respond := respond w;
     clock := clock w;
     toISOString := toISOString w;
     parseDate := parseDate w;
     stringifyPretty := stringifyPretty w;
     stringifyCompact := stringifyCompact w;
     getTableColumns := getTableColumns w;
     executeSql := executeSql w;
     auditInsert := f;
     validateSqlQuery := validateSqlQuery w;
     isWriteOperation := isWriteOperation w;
     toUpperCase := toUpperCase w;
     toLowerCase := toLowerCase w |}.

(** A request that carries the bearer token of the environment and
    goes to its account. *)
Definition wellAddressed (env : Env) (r : HttpRequest) : Prop :=
  exists c path,
    credentials env = Some c /\
    In ("Authorization", "Bearer " ++ snd c) (req_headers r) /\
    req_url r = CloudflareAPI.baseUrl ++ "/accounts/" ++ fst c ++ path.

(** The only call that may delete: a confirmed deleteWorker. *)
Definition mayDelete (call : ToolCall) : bool :=
  match call with
  | CallDeleteWorker _ confirm => confirm
  | _ => false
  end.

(** The tools that have no business with Cloudflare. *)
Definition staysLocal (t : ToolName) : bool :=
  match t with
  | WhoamiTool | ListTablesTool | QueryDatabaseTool | ExecuteDatabaseTool
  | ManageDurableObjectsTool => true
  | _ => false
  end.

(** The columns of table [t] among [columns], as listTables prints them. *)
Definition columnsOf (t : string) (columns : list ColumnInfo) : list json :=
  map columnJson (filter (fun col => String.eqb t (table_name col)) columns).





(** The twelve tools, in registration order. *)
Definition allTools : list ToolName :=
  [ WhoamiTool; ListTablesTool; QueryDatabaseTool; ExecuteDatabaseTool;
    DeployWorkerTool; ListWorkersTool; GetWorkerStatusTool; DeleteWorkerTool;
    CreateKVNamespaceTool; ManageDurableObjectsTool; SetWorkerSecretsTool;
    DeployMCPServerTool ].

(** The settings endpoint refuses with the code Cloudflare uses for an
    unknown script; everything else succeeds. *)
Definition settingsRefused : World :=
  Samples.worldOf (fun _ r =>
    if Samples.isSettingsRequest r
    then Responds 400 (inr (Samples.failedBody 10007 "workers.api.error.script_not_found"))
    else Responds 200 (inr (Samples.okBody None))).

(** The RPC that carries [sql], when Supabase is configured. *)
Definition sqlCall (env : Env) (sql : string) : list DbCall :=
  match supabaseSettings env with
  | Some (url, key) => [Rpc url key "execute_sql" (Some sql)]
  | None => []
  end.

(** The row createKVNamespace writes to the audit table. *)
Definition namespaceAuditRow (props : Props) (name : string) (workerName : option string)
           (created : KVNamespace) : json :=
  JObj [("user_id", JStr (login props));
        ("operation", JStr "CREATE_KV_NAMESPACE");
        ("resource_type", JStr "KV_NAMESPACE");
        ("resource_name", JStr name);
        ("status", JStr "SUCCESS");
        ("details",
         JObj (field "namespace_id" (optStr (kv_id created)) ++
               field "title" (optStr (kv_title created)) ++
               [("worker_name", strOrNull workerName)])%list)].

(** The insert into the audit table, when Supabase is configured. *)
Definition auditCall (env : Env) (row : json) : list DbCall :=
  if truthy (SUPABASE_URL env) && truthy (SUPABASE_ANON_KEY env)
  then [Insert (orElse (SUPABASE_URL env) "") (orElse (SUPABASE_ANON_KEY env) "")
               "infrastructure_audit" row]
  else [].

(** What a request sent on behalf of [call] must look like. *)
Definition permitted (env : Env) (call : ToolCall) (r : HttpRequest) : Prop :=
  wellAddressed env r /\ (req_method r = "DELETE" -> mayDelete call = true).

(** Every request a computation adds to the log satisfies [P]. *)
Definition traced (P : HttpRequest -> Prop) (h : M ToolResponse) : Prop :=
  forall (w : World) (st : State),
  exists sent, calls (snd (h w st)) = (calls st ++ sent)%list /\ Forall P sent.

(** The verdict of the validator on code it finds dangerous. *)
Definition refused : WorkerCodeValidationResult :=
  {| isValid := false; error := Some "Code contains potentially dangerous patterns" |}.

End Coverage.

(* ================================================================== *)
(** * Verification *)
(* ================================================================== *)

Import Regex Validation Runtime Tools Samples Observations Coverage.
Unset Implicit Arguments.

(* ================================================================== *)
(** ** The validator *)
(* ================================================================== *)

Section ValidatorFacts.

(** A starred class swallows any run of characters of the class. *)
Lemma many_run (p : N -> bool) (k : option N -> jsstring -> bool) :
  forall (run rest : jsstring) (prev : option N),
    forallb p run = true ->
    (forall before, k before rest = true) ->
    many p k prev (run ++ rest)%list = true.
Proof.
  induction run as [| c run IH]; intros rest prev Hrun Hk.
  - simpl. destruct rest; simpl; rewrite Hk; reflexivity.
  - simpl in Hrun. apply andb_true_iff in Hrun as [Hc Hrun].
    simpl. rewrite Hc, (IH rest (Some c) Hrun Hk).
    apply orb_true_r.
Qed.

(** A match anywhere in the string is found by the search. *)
Lemma search_skips (pat : pattern) :
  forall (pre s : jsstring) (prev : option N),
    (forall before, matchHere pat before s = true) ->
    search pat prev (pre ++ s)%list = true.
Proof.
  induction pre as [| c pre IH]; intros s prev Hs.
  - simpl. destruct s; simpl; rewrite Hs; reflexivity.
  - simpl. rewrite (IH s (Some c) Hs). apply orb_true_r.
Qed.

Lemma template_matches_here (mid post : jsstring) (before : option N) :
  forallb isDot mid = true ->
  matchHere templatePattern before (js "${" ++ mid ++ js "}" ++ post)%list = true.
Proof.
  intros Hmid. cbn -[many].
  apply many_run; [exact Hmid |].
  intros b. reflexivity.
Qed.

Lemma template_in_patterns : In templatePattern dangerousPatterns.
Proof.
  unfold dangerousPatterns.
  do 19 right. left. reflexivity.
Qed.

Lemma trimStart_keeps (c : N) :
  forall s, isSpace c = false -> In c s -> In c (trimStart s).
Proof.
  induction s as [| d s IH]; intros Hc Hin; [exact Hin |].
  simpl. destruct (isSpace d) eqn:Hd.
  - destruct Hin as [-> | Hin]; [congruence | auto].
  - exact Hin.
Qed.

Lemma trim_keeps (c : N) (s : jsstring) :
  isSpace c = false -> In c s -> In c (trim s).
Proof.
  intros Hc Hin. unfold trim.
  apply in_rev. rewrite rev_involutive.
  apply trimStart_keeps; [exact Hc |].
  apply -> in_rev. apply trimStart_keeps; assumption.
Qed.

Lemma dangerous_code_rejected (code : jsstring) (c : N) :
  isSpace c = false -> In c code ->
  existsb (fun pattern => test pattern code) dangerousPatterns = true ->
  validateWorkerCode code =
  {| isValid := false; error := Some "Code contains potentially dangerous patterns" |}.
Proof.
  intros Hc Hin Hbad. unfold validateWorkerCode.
  destruct (trim code) eqn:Ht.
  - pose proof (trim_keeps c code Hc Hin) as H. rewrite Ht in H. destruct H.
  - rewrite Hbad. reflexivity.
Qed.

End ValidatorFacts.

(** Symbolic execution of the monad: unfold its operations and the
    projections of the state, nothing else. *)
Ltac run :=
  cbv beta iota zeta delta
      [bind ret throw tryCatch asks fetch responseJson dateNow nowISO
       recordDb appendAudit logDeploymentOperation pretty];
  cbn [calls dbCalls audit ticks status parsed fst snd].

(** Case analysis on the next answer of the network. *)
Ltac on_answer :=
  match goal with
  | |- context [match respond ?w ?h ?r with _ => _ end] =>
      let e := fresh "e" in
      let s := fresh "s" in
      let b := fresh "b" in
      destruct (respond w h r) as [e | s [e | b]] eqn:?
  end.

Section ClientFacts.
Variable api : CloudflareAPI.t.

(** [makeRequest] sends its one request, whatever comes back. *)
Lemma makeRequest_sends (T : Type) (view : ResultData -> option T)
      (endpoint method : string) (body : option json) (w : World) (st : State) :
  let run := CloudflareAPI.makeRequest view api endpoint method body w st in
  calls (snd run) =
    (calls st ++ [CloudflareAPI.requestInit (stringifyCompact w) api endpoint method body])%list
  /\ audit (snd run) = audit st /\ dbCalls (snd run) = dbCalls st
  /\ ticks (snd run) = ticks st.
Proof.
  unfold CloudflareAPI.makeRequest. run.
  on_answer; run; auto.
Qed.

(** What [makeRequest] returns is decided by the answer. *)
Lemma makeRequest_result (T : Type) (view : ResultData -> option T)
      (endpoint method : string) (body : option json) (w : World) (st : State) :
  fst (CloudflareAPI.makeRequest view api endpoint method body w st) =
  match respond w (calls st)
          (CloudflareAPI.requestInit (stringifyCompact w) api endpoint method body) with
  | NetworkFailure e => Throw e
  | Responds _ (inl e) => Throw e
  | Responds _ (inr b) => Return (castBody view b)
  end.
Proof.
  unfold CloudflareAPI.makeRequest. run.
  on_answer; reflexivity.
Qed.

Lemma deployWorker_sends (name : string) (script : jsstring)
      (bindings : option (list json)) (w : World) (st : State) :
  let run := CloudflareAPI.deployWorker api name script bindings w st in
  calls (snd run) =
    (calls st ++ [CloudflareAPI.deployRequest api name script
                    (stringifyCompact w (CloudflareAPI.metadataJson bindings))])%list
  /\ audit (snd run) = audit st /\ dbCalls (snd run) = dbCalls st
  /\ ticks (snd run) = ticks st.
Proof.
  unfold CloudflareAPI.deployWorker. run.
  on_answer; run; auto.
Qed.

Lemma deployWorker_result (name : string) (script : jsstring)
      (bindings : option (list json)) (w : World) (st : State) :
  fst (CloudflareAPI.deployWorker api name script bindings w st) =
  match respond w (calls st)
          (CloudflareAPI.deployRequest api name script
             (stringifyCompact w (CloudflareAPI.metadataJson bindings))) with
  | NetworkFailure e => Throw e
  | Responds _ (inl e) => Throw e
  | Responds _ (inr b) => Return (castBody asWorker b)
  end.
Proof.
  unfold CloudflareAPI.deployWorker. run.
  on_answer; reflexivity.
Qed.

Lemma createKVNamespace_sends (title : string) (w : World) (st : State) :
  let run := CloudflareAPI.createKVNamespace api title w st in
  calls (snd run) =
    (calls st ++ [CloudflareAPI.namespaceRequest (stringifyCompact w) api title])%list
  /\ audit (snd run) = audit st /\ dbCalls (snd run) = dbCalls st
  /\ ticks (snd run) = ticks st.
Proof.
  unfold CloudflareAPI.createKVNamespace. run.
  on_answer; run; auto.
Qed.

Lemma createKVNamespace_result (title : string) (w : World) (st : State) :
  fst (CloudflareAPI.createKVNamespace api title w st) =
  match respond w (calls st)
          (CloudflareAPI.namespaceRequest (stringifyCompact w) api title) with
  | NetworkFailure e => Throw e
  | Responds _ (inl e) => Throw e
  | Responds _ (inr b) => Return (castBody asAny b)
  end.
Proof.
  unfold CloudflareAPI.createKVNamespace. run.
  on_answer; reflexivity.
Qed.


(** On a 404 from the settings endpoint, or when the first request
    fails in transit, the lookup still answers [success: true] with a
    worker named after the request. *)
Lemma getWorker_synthesizes (name : string) (w : World) (st : State) :
  (exists p, answer w st (CloudflareAPI.settingsRequest api name) = Responds 404 p) \/
  (exists e, answer w st (CloudflareAPI.settingsRequest api name) = NetworkFailure e) ->
  exists r worker st',
    CloudflareAPI.getWorker api name w st = (Return r, st') /\
    success r = true /\
    result r = Some worker /\
    worker_id worker = Some name /\ worker_name worker = Some name /\
    environment worker = Some "production" /\
    audit st' = audit st /\ dbCalls st' = dbCalls st /\
    exists lookups,
      calls st' = (calls st ++ CloudflareAPI.settingsRequest api name :: lookups)%list /\
      ((exists p, answer w st (CloudflareAPI.settingsRequest api name) = Responds 404 p) ->
       lookups = [CloudflareAPI.domainsRequest api]).
Proof.
  unfold answer.
  intros [[p Hp] | [e He]]; unfold CloudflareAPI.getWorker; run.
  - rewrite Hp. run. change (Nat.eqb 404 404) with true. run.
    on_answer; run;
      (do 3 eexists; repeat (split; [reflexivity |]);
       exists [CloudflareAPI.domainsRequest api];
       split; [rewrite <- app_assoc; reflexivity | intros _; reflexivity]).
  - rewrite He. run.
    do 3 eexists; repeat (split; [reflexivity |]).
    exists []. split; [reflexivity |].
    intros [p Hp]. congruence.
Qed.

End ClientFacts.

(* ================================================================== *)
(** ** The client: one request per method, two for a missing worker *)
(* ================================================================== *)

(** C7. When the settings endpoint answers 404, [getWorker] asks the
    domains endpoint next and does not fail: it returns a
    [success: true] envelope without errors that describes the worker
    by the name it was asked for, stamped with the time of the call,
    as production; the usage model is [bundled] when the domains
    endpoint answered with a body that could be parsed and left out
    when that second request failed.  Every other method of the client
    sends exactly one request per invocation, which is written out. *)
Theorem C7_getWorker_falls_back_on_404 :
  forall (api : CloudflareAPI.t) (name : string) (w : World) (st : State)
         (p : JsError + ApiBody),
    let settings :=
      apiRequest api "GET" ("/workers/scripts/" ++ name ++ "/settings") NoBody in
    let domains := apiRequest api "GET" "/workers/domains" NoBody in
    let parsed := match respond w (calls st ++ [settings])%list domains with
                  | Responds _ (inr _) => true
                  | _ => false
                  end in
    answer w st settings = Responds 404 p ->
    (exists r st',
        CloudflareAPI.getWorker api name w st = (Return r, st') /\
        calls st' = (calls st ++ [settings; domains])%list /\
        success r = true /\
        errors r = [] /\
        messages r = (if parsed then []
                      else ["Worker status retrieved with limited information"]) /\
        result r =
          Some {| worker_id := Some name;
                  worker_name := Some name;
                  created_on := Some (toISOString w (clock w (ticks st)));
                  modified_on := Some (toISOString w (clock w (S (ticks st))));
                  compatibility_date := None;
                  usage_model := (if parsed then Some "bundled" else None);
                  environment := Some "production" |}) /\
    sends (CloudflareAPI.listWorkers api)
          (fun _ => apiRequest api "GET" "/workers/scripts" NoBody) /\
    (forall n script bindings,
        sends (CloudflareAPI.deployWorker api n script bindings)
              (fun w' => uploadRequest w' api n script
                           match bindings with
                           | Some (b :: bs) => [("bindings", JArr (b :: bs))]
                           | _ => []
                           end)) /\
    (forall n,
        sends (CloudflareAPI.deleteWorker api n)
              (fun _ => apiRequest api "DELETE" ("/workers/scripts/" ++ n) NoBody)) /\
    (forall n,
        sends (CloudflareAPI.getWorkerLogs api n)
              (fun _ => apiRequest api "GET" ("/workers/scripts/" ++ n) NoBody)) /\
    (forall n k v,
        sends (CloudflareAPI.setWorkerSecret api n k v)
              (fun w' => apiRequest api "PUT" ("/workers/scripts/" ++ n ++ "/secrets")
                           (TextBody (stringifyCompact w'
                              (JObj [ ("name", JStr k); ("text", JStr v);
                                      ("type", JStr "secret_text") ]))))) /\
    (forall title,
        sends (CloudflareAPI.createKVNamespace api title)
              (fun w' => apiRequest api "POST" "/storage/kv/namespaces"
                           (TextBody (stringifyCompact w'
                              (JObj [("title", JStr title)]))))).
Proof.
  intros api name w st p settings domains parsed Hp. split.
  - unfold answer in Hp. unfold parsed.
    unfold CloudflareAPI.getWorker. run.
    change (CloudflareAPI.settingsRequest api name) with settings.
    change (CloudflareAPI.domainsRequest api) with domains.
    rewrite Hp. run. change (Nat.eqb 404 404) with true. run.
    destruct (respond w (calls st ++ [settings])%list domains) as [e | s [e | b]]; run;
      do 2 eexists; (split; [reflexivity |]); cbn [calls];
      (split; [rewrite <- app_assoc; reflexivity |]);
      repeat split; reflexivity.
  - split; [intros w' st'; exact (proj1 (makeRequest_sends api _ asWorkers "" "GET" None w' st')) |].
    split.
    { intros n script bindings w' st'.
      exact (proj1 (deployWorker_sends api n script bindings w' st')). }
    split.
    { intros n w' st'.
      exact (proj1 (makeRequest_sends api _ (fun _ => @None unit) ("/" ++ n) "DELETE" None
                      w' st')). }
    split.
    { intros n w' st'.
      exact (proj1 (makeRequest_sends api _ asAny ("/" ++ n) "GET" None w' st')). }
    split.
    { intros n k v w' st'.
      exact (proj1 (makeRequest_sends api _ asAny ("/" ++ n ++ "/secrets") "PUT"
                      (Some (CloudflareAPI.secretData k v)) w' st')). }
    intros title w' st'.
    exact (proj1 (createKVNamespace_sends api title w' st')).
Qed.

(** The witness: a worker that the settings endpoint does not know,
    with an account whose domains endpoint answers. *)
Lemma C7_witness :
  exists r st',
    CloudflareAPI.getWorker (client ("acct", "token")) "ghost" settingsMissing initial
      = (Return r, st') /\
    calls st' =
      [ apiRequest (client ("acct", "token")) "GET"
          "/workers/scripts/ghost/settings" NoBody;
        apiRequest (client ("acct", "token")) "GET" "/workers/domains" NoBody ] /\
    success r = true /\
    result r =
      Some {| worker_id := Some "ghost"; worker_name := Some "ghost";
              created_on := Some "T1750000000000";
              modified_on := Some "T1750000000001";
              compatibility_date := None;
              usage_model := Some "bundled";
              environment := Some "production" |}.
Proof.
  destruct (C7_getWorker_falls_back_on_404 (client ("acct", "token")) "ghost"
              settingsMissing initial
              (inr (failedBody 10007 "workers.api.error.script_not_found")))
    as [(r & st' & Hrun & Hcalls & Hs & _ & _ & Hr) _].
  - reflexivity.
  - exists r, st'. split; [exact Hrun |]. split; [exact Hcalls |].
    split; [exact Hs | exact Hr].
Defined.

(* ================================================================== *)
(** ** deployWorker and the validator *)
(* ================================================================== *)

(** What deployWorker answers to code the validator refuses. *)
Lemma deployWorker_refuses (env : Env) (props : Props) (name : string)
      (code : jsstring) (description : option string) (w : World) (st : State) :
  isValid (validateWorkerCode code) = false ->
  exists st',
    deployWorker env props name code description w st =
      (Return (textResponse ("**Error**" ++ NL2 ++ "Code validation failed: " ++
                             showOpt (error (validateWorkerCode code)))), st') /\
    calls st' = calls st /\
    exists e, audit st' = (audit st ++ [e])%list /\ audit_success e = false.
Proof.
  intros Hbad. unfold deployWorker. rewrite Hbad. run.
  eexists. split; [reflexivity |]. split; [reflexivity |].
  eexists. split; reflexivity.
Qed.

(** C10. Code that contains a template-literal interpolation, that is
    [${], any characters other than line terminators, and [}], is
    rejected by the validator with the error "Code contains potentially
    dangerous patterns"; deployWorker then answers with the validation
    error and sends nothing. *)
Theorem C10_template_literal_rejected :
  forall (pre mid post : jsstring),
    forallb isDot mid = true ->
    let code := (pre ++ js "${" ++ mid ++ js "}" ++ post)%list in
    validateWorkerCode code =
      {| isValid := false;
         error := Some "Code contains potentially dangerous patterns" |} /\
    forall env props name description w st,
    exists st',
      deployWorker env props name code description w st =
        (Return (textResponse
           ("**Error**" ++ NL2 ++
            "Code validation failed: Code contains potentially dangerous patterns")),
         st') /\
      calls st' = calls st.
Proof.
  intros pre mid post Hmid code.
  assert (Hv : validateWorkerCode code =
               {| isValid := false;
                  error := Some "Code contains potentially dangerous patterns" |}).
  { apply (dangerous_code_rejected code 36%N).
    - reflexivity.
    - unfold code. apply in_or_app. right. left. reflexivity.
    - apply existsb_exists. exists templatePattern. split.
      + apply template_in_patterns.
      + unfold test, code. apply search_skips.
        intros before. apply template_matches_here. exact Hmid. }
  split; [exact Hv |].
  intros env props name description w st.
  destruct (deployWorker_refuses env props name code description w st)
    as (st' & Hrun & Hcalls & _).
  { rewrite Hv. reflexivity. }
  exists st'. rewrite Hv in Hrun. split; [exact Hrun | exact Hcalls].
Qed.

(** The witness: [const s = `a${b}c`;] *)
Lemma C10_witness :
  forallb isDot (js "b") = true /\
  validateWorkerCode (js "const s = `a" ++ js "${" ++ js "b" ++ js "}" ++ js "c`;")%list =
    {| isValid := false;
       error := Some "Code contains potentially dangerous patterns" |}.
Proof.
  split; [reflexivity |].
  apply (C10_template_literal_rejected (js "const s = `a") (js "b") (js "c`;")).
  reflexivity.
Defined.

(* ================================================================== *)
(** ** Missing credentials *)
(* ================================================================== *)




(* ================================================================== *)
(** ** deleteWorker *)
(* ================================================================== *)

Ltac differs :=
  let H := fresh in
  intro H; cbv in H; discriminate H.

(** C9. When the settings lookup answers 404 or fails in transit, the
    client's [getWorker] still reports [success: true], so a confirmed
    deleteWorker never takes its "worker not found" branch: it goes on
    to send the DELETE request for a worker whose existence it could
    not confirm. *)
Theorem C9_deleteWorker_skips_not_found :
  forall (env : Env) (props : Props) (name : string) (w : World) (st : State)
         (c : string * string),
    credentials env = Some c ->
    (exists p, answer w st (CloudflareAPI.settingsRequest (client c) name) = Responds 404 p) \/
    (exists e, answer w st (CloudflareAPI.settingsRequest (client c) name) = NetworkFailure e) ->
    (exists r st1,
        CloudflareAPI.getWorker (client c) name w st = (Return r, st1) /\
        success r = true) /\
    exists resp st' lookups,
      deleteWorker env props name true w st = (Return resp, st') /\
      calls st' = (calls st ++ lookups ++ [deleteRequest w c name])%list /\
      responseText resp <> workerNotFound name.
Proof.
  intros env props name w st c Hcred Hlookup.
  destruct (getWorker_synthesizes (client c) name w st Hlookup)
    as (r & worker & st1 & Hrun & Hs & Hr & _ & _ & _ & _ & _ & lookups & Hcalls & _).
  split; [eauto |].
  unfold deleteWorker. cbn [negb]. rewrite Hcred. run.
  rewrite Hrun, Hs, Hr. cbn [negb].
  unfold CloudflareAPI.deleteWorker, CloudflareAPI.makeRequest. run.
  change (CloudflareAPI.requestInit _ _ _ _ _) with (deleteRequest w c name).
  assert (Hsent : (calls st1 ++ [deleteRequest w c name])%list =
                  (calls st ++ (CloudflareAPI.settingsRequest (client c) name :: lookups)
                            ++ [deleteRequest w c name])%list).
  { rewrite Hcalls, <- app_assoc. reflexivity. }
  on_answer; run.
  - do 3 eexists. split; [reflexivity |]. split; [exact Hsent | differs].
  - do 3 eexists. split; [reflexivity |]. split; [exact Hsent | differs].
  - unfold castBody; cbn [success errors]. destruct (body_success b); cbn [negb]; run.
    + do 3 eexists. split; [reflexivity |]. split; [exact Hsent | differs].
    + do 3 eexists. split; [reflexivity |]. split; [exact Hsent | differs].
Qed.

(** The witness: deleting a worker the settings endpoint does not know. *)
Lemma C9_witness :
  credentials configured = Some ("acct", "token") /\
  exists resp st',
    deleteWorker configured admin "ghost" true settingsMissing initial = (Return resp, st') /\
    In (deleteRequest settingsMissing ("acct", "token") "ghost") (calls st').
Proof.
  split; [reflexivity |].
  destruct (C9_deleteWorker_skips_not_found configured admin "ghost" settingsMissing initial
              ("acct", "token") eq_refl)
    as (_ & resp & st' & lookups & Hrun & Hcalls & _).
  - left. eexists. reflexivity.
  - exists resp, st'. split; [exact Hrun |].
    rewrite Hcalls. apply in_or_app. right. apply in_or_app. right. left. reflexivity.
Defined.

(* ================================================================== *)
(** ** setWorkerSecrets *)
(* ================================================================== *)

Section SecretBatch.
Local Open Scope list_scope.

Lemma orElse_self (n : string) : orElse (Some n) n = n.
Proof. unfold orElse. destruct (String.eqb n ""); reflexivity. Qed.

Lemma nameAt_middle (pre rest : list Secret) (s : Secret) :
  nameAt (pre ++ s :: rest) (length pre) = secret_name s.
Proof.
  unfold nameAt. rewrite nth_error_app2 by lia.
  rewrite Nat.sub_diag. reflexivity.
Qed.

(** The pending entries go to [pending], name by name. *)
Lemma collect_pending :
  forall (rest pre : list Secret) (acc : Collected),
    fold_left (collectOne (pre ++ rest))
              (indexedFrom (length pre) (pendingResults rest)) acc =
    {| successfulSecrets := successfulSecrets acc;
       failedSecrets := failedSecrets acc;
       pendingSecrets := pendingSecrets acc ++ map secret_name rest |}.
Proof.
  induction rest as [| s rest IH]; intros pre acc.
  - cbn. rewrite app_nil_r. destruct acc; reflexivity.
  - cbn [pendingResults map indexedFrom fold_left].
    unfold collectOne at 2. cbn [fst snd].
    rewrite nameAt_middle, orElse_self.
    replace (pre ++ s :: rest) with ((pre ++ [s]) ++ rest)
      by (rewrite <- app_assoc; reflexivity).
    replace (S (length pre)) with (length (pre ++ [s]))
      by (rewrite length_app; cbn; lia).
    rewrite (IH (pre ++ [s])). cbn [successfulSecrets failedSecrets pendingSecrets].
    rewrite <- app_assoc. reflexivity.
Qed.

Lemma collect_first (first : Secret) (rest : list Secret) (r : SettledResult) :
  collect (first :: rest) (r :: pendingResults rest) =
  let c0 := collectOne (first :: rest)
              {| successfulSecrets := []; failedSecrets := []; pendingSecrets := [] |}
              (0, r) in
  {| successfulSecrets := successfulSecrets c0;
     failedSecrets := failedSecrets c0;
     pendingSecrets := pendingSecrets c0 ++ map secret_name rest |}.
Proof.
  unfold collect. cbn [indexedFrom fold_left].
  exact (collect_pending rest [first] _).
Qed.

(** The one call of the batch, and what becomes of its answer. *)
Lemma setFirstSecret_run (c : string * string) (workerName : string) (first : Secret)
      (w : World) (st : State) :
  exists r st',
    setFirstSecret (client c) workerName first w st = (Return r, st') /\
    calls st' = calls st ++ [secretRequest w c workerName first] /\
    audit st' = audit st /\ dbCalls st' = dbCalls st /\ ticks st' = ticks st /\
    (if accepted (answer w st (secretRequest w c workerName first))
     then r = Fulfilled (secret_name first)
     else exists e, r = Rejected e (secret_name first)).
Proof.
  unfold setFirstSecret, CloudflareAPI.setWorkerSecret, CloudflareAPI.makeRequest,
    answer, accepted.
  run.
  change (CloudflareAPI.requestInit _ _ _ _ _) with (secretRequest w c workerName first).
  on_answer; run.
  - do 2 eexists. repeat (split; [reflexivity |]). eauto.
  - do 2 eexists. repeat (split; [reflexivity |]). eauto.
  - unfold castBody; cbn [success errors]. destruct (body_success b); cbn [negb]; run.
    + do 2 eexists. repeat (split; [reflexivity |]). reflexivity.
    + do 2 eexists. repeat (split; [reflexivity |]). eauto.
Qed.

Lemma text_assoc (a b c : string) : (a ++ (b ++ c) = (a ++ b) ++ c)%string.
Proof. induction a as [| x a IH]; cbn; [reflexivity | rewrite IH; reflexivity]. Qed.

(** One invocation, with everything the claims about the batch need:
    the single request, the audit entry, and the result object the
    response carries. *)
Lemma setWorkerSecrets_run (env : Env) (props : Props) (workerName : string)
      (first : Secret) (rest : list Secret) (environment : option Environment)
      (w : World) (st : State) (c : string * string) :
  credentials env = Some c ->
  let ok := accepted (answer w st (secretRequest w c workerName first)) in
  exists resp st' collected headline,
    setWorkerSecrets env props workerName (first :: rest) environment w st
      = (Return resp, st') /\
    calls st' = calls st ++ [secretRequest w c workerName first] /\
    (exists e, audit st' = audit st ++ [e] /\ audit_success e = ok) /\
    responseText resp =
      (headline ++
       fenced "json" (stringifyPretty w (batchResultJson
         (batchResult workerName environment (first :: rest) collected))))%string /\
    pendingSecrets collected = map secret_name rest /\
    (if ok then failedSecrets collected = []
     else successfulSecrets collected = [] /\ failedSecrets collected <> []) /\
    isError resp = negb ok /\
    resp = textResponse (responseText resp).
Proof.
  intros Hcred ok.
  destruct (setFirstSecret_run c workerName first w st)
    as (r & st1 & Hrun & Hcalls & Haud & Hdb & Hticks & Hr).
  unfold setWorkerSecrets. rewrite Hcred. run. rewrite Hrun.
  rewrite !collect_first.
  fold ok in Hr. destruct ok.
  - subst r. cbn [collectOne fst snd].
    destruct (String.eqb (secret_name first) "");
      cbn [successfulSecrets failedSecrets pendingSecrets overallStatus app];
      unfold batchResponse; run;
      (do 4 eexists; split; [reflexivity |]; cbn [calls audit];
       split; [exact Hcalls |];
       split; [eexists; split; [rewrite Haud; reflexivity | reflexivity] |];
       split; [cbn [responseText textResponse content text];
               rewrite !text_assoc; reflexivity |];
       split; [reflexivity |]; split; [reflexivity |]; split; reflexivity).
  - destruct Hr as [e ->]. cbn [collectOne fst snd].
    cbn [successfulSecrets failedSecrets pendingSecrets overallStatus app].
    unfold batchResponse; run.
    do 4 eexists; split; [reflexivity |]; cbn [calls audit].
    split; [exact Hcalls |].
    split; [eexists; split; [rewrite Haud; reflexivity | reflexivity] |].
    split; [cbn [responseText textResponse content text];
            rewrite !text_assoc; reflexivity |].
    split; [reflexivity |]. split; [split; [reflexivity | discriminate] |].
    split; reflexivity.
Qed.

End SecretBatch.

(** C3, as the code has it.  The tool looks at the credentials first.
    With both in place, one invocation on a non-empty list of N
    secrets sends exactly one request, the secret-set call for the
    first secret of the list.  The response is the "Success" response
    when that call was accepted and the error response "Failed to set
    secrets" when it was not; in both, the result object counts all N
    secrets and lists the names of the other N-1, in order, under
    [pendingSecrets] (a field that is left out when there are none),
    and when there are any its status is PARTIAL and its instructions
    tell the caller to call setWorkerSecrets again for the remaining
    N-1.  Without the credentials no request is sent at all and the
    response is the configuration error. *)
Theorem C3_one_secret_per_invocation :
  forall (env : Env) (props : Props) (workerName : string)
         (first : Secret) (rest : list Secret) (environment : option Environment)
         (w : World) (st : State),
    let total := S (length rest) in
    match credentials env with
    | Some c =>
        let request := secretRequest w c workerName first in
        let ok := accepted (answer w st request) in
        let note :=
          match rest with
          | _ :: _ =>
              "Processed 1 of " ++ showNat total ++
              " secrets. Call setWorkerSecrets again for remaining " ++
              showNat (length rest) ++ " secrets."
          | [] =>
              if ok
              then "All " ++ showNat total ++ " secrets successfully configured for '" ++
                   workerName ++ "'"
              else "Failed to set secrets for '" ++ workerName ++ "'"
          end in
        exists resp st' result,
          setWorkerSecrets env props workerName (first :: rest) environment w st
            = (Return resp, st') /\
          calls st' = (calls st ++ [request])%list /\
          resp = textResponse
            (if ok
             then "**Success**" ++ NL2 ++ note ++ NL2 ++
                  "**Result:**" ++ NL ++ fenced "json" (stringifyPretty w result)
             else "**Error**" ++ NL2 ++ "Failed to set secrets for '" ++ workerName ++ "'" ++
                  NL2 ++ "**Details:**" ++ NL ++ fenced "json" (stringifyPretty w result)) /\
          path ["totalSecrets"] result = Some (JNum (Z.of_nat total)) /\
          path ["pendingSecrets"] result =
            match rest with
            | _ :: _ => Some (JArr (map (fun s => JStr (secret_name s)) rest))
            | [] => None
            end /\
          path ["instructions"] result = Some (JStr note) /\
          path ["status"] result =
            Some (JStr match rest with
                       | _ :: _ => "PARTIAL"
                       | [] => if ok then "SUCCESS" else "FAILURE"
                       end)
    | None =>
        exists resp st',
          setWorkerSecrets env props workerName (first :: rest) environment w st
            = (Return resp, st') /\
          calls st' = calls st /\
          resp = textResponse
            ("**Error**" ++ NL2 ++ "Cloudflare credentials not configured" ++ NL2 ++
             "**Details:**" ++ NL ++
             fenced "json" (stringifyPretty w
               (JObj [("missing",
                       JStr "CLOUDFLARE_ACCOUNT_ID and CLOUDFLARE_API_TOKEN environment variables")])))
    end.
Proof.
  intros env props workerName first rest environment w st total.
  destruct (credentials env) as [c |] eqn:Hcred.
  - intros request ok note.
    destruct (setFirstSecret_run c workerName first w st)
      as (r & st1 & Hrun & Hcalls & _ & _ & _ & Hr).
    fold request ok in Hr, Hcalls.
    unfold setWorkerSecrets. rewrite Hcred. run. rewrite Hrun.
    rewrite !collect_first. unfold batchResponse, batchResult, batchResultJson.
    cbn [br_workerName br_environment totalSecrets br_successfulSecrets br_failedSecrets
         br_pendingSecrets br_status wranglerEquivalent instructions].
    subst note total. destruct ok.
    + subst r. cbn [collectOne fst snd].
      destruct (String.eqb (secret_name first) "");
        cbn [successfulSecrets failedSecrets pendingSecrets overallStatus app nonEmpty];
        destruct rest as [| second rest];
        cbn [map nonEmpty option_map field app length]; rewrite ?length_map;
        unfold stringsJson; cbn [map]; rewrite ?map_map; run;
        do 3 eexists; (split; [reflexivity |]); cbn [calls];
        (split; [exact Hcalls |]); (split; [reflexivity |]);
        repeat split; reflexivity.
    + destruct Hr as [e ->]. cbn [collectOne fst snd].
      cbn [successfulSecrets failedSecrets pendingSecrets overallStatus app nonEmpty].
      destruct rest as [| second rest];
        cbn [map nonEmpty option_map field app length]; rewrite ?length_map;
        unfold stringsJson; cbn [map]; rewrite ?map_map; run;
        do 3 eexists; (split; [reflexivity |]); cbn [calls];
        (split; [exact Hcalls |]); (split; [reflexivity |]);
        repeat split; reflexivity.
  - unfold setWorkerSecrets, credentialsNotConfiguredDetails. rewrite Hcred. run.
    do 2 eexists. repeat split; reflexivity.
Qed.

(** The witness: two secrets, the first is set and the second pends. *)
Lemma C3_witness :
  exists resp st' result,
    setWorkerSecrets configured admin "w" [secretA; secretB] None healthy initial
      = (Return resp, st') /\
    calls st' = [secretRequest healthy ("acct", "token") "w" secretA] /\
    responseText resp =
      "**Success**" ++ NL2 ++
      "Processed 1 of 2 secrets. Call setWorkerSecrets again for remaining 1 secrets." ++
      NL2 ++ "**Result:**" ++ NL ++ fenced "json" (render result) /\
    path ["pendingSecrets"] result = Some (JArr [JStr "BETA"]) /\
    path ["status"] result = Some (JStr "PARTIAL").
Proof.
  destruct (C3_one_secret_per_invocation configured admin "w" secretA [secretB] None
              healthy initial)
    as (resp & st' & result & Hrun & Hcalls & Hresp & _ & Hpending & _ & Hstatus).
  exists resp, st', result.
  split; [exact Hrun |]. split; [exact Hcalls |].
  split; [rewrite Hresp; reflexivity |].
  split; [exact Hpending | exact Hstatus].
Defined.

(** C3 as it is stated fails: in an environment without the
    credentials an invocation on the list ALPHA, BETA sends no request
    at all, and its response is the configuration error, which says
    nothing of pending secrets. *)
Lemma C3_counterexample :
  credentials unconfigured = None /\
  exists resp st',
    setWorkerSecrets unconfigured admin "w" [secretA; secretB] None healthy initial
      = (Return resp, st') /\
    calls st' = [] /\
    length (calls st') <> 1 /\
    isError resp = true /\
    includes "Cloudflare credentials not configured" (responseText resp) = true /\
    includes "pending" (responseText resp) = false /\
    includes "BETA" (responseText resp) = false.
Proof.
  split; [reflexivity |].
  do 2 eexists. split; [vm_compute; reflexivity |].
  split; [reflexivity |].
  split; [cbn; discriminate |].
  repeat split; vm_compute; reflexivity.
Qed.




(** C5, as the code has it. The status in the result object is PARTIAL
    whenever other secrets remain, whether the processed one succeeded
    or failed; with no other secret left it is SUCCESS if the processed
    secret succeeded and FAILURE if it failed. *)
Theorem C5_batch_status :
  forall (env : Env) (props : Props) (workerName : string)
         (first : Secret) (rest : list Secret) (environment : option Environment)
         (w : World) (st : State) (c : string * string),
    credentials env = Some c ->
    exists resp st' r headline,
      setWorkerSecrets env props workerName (first :: rest) environment w st
        = (Return resp, st') /\
      responseText resp =
        headline ++ fenced "json" (stringifyPretty w (batchResultJson r)) /\
      br_status r =
        match rest with
        | _ :: _ => PARTIAL
        | [] => if accepted (answer w st (secretRequest w c workerName first))
                then SUCCESS else FAILURE
        end.
Proof.
  intros env props workerName first rest environment w st c Hcred.
  destruct (setWorkerSecrets_run env props workerName first rest environment w st c Hcred)
    as (resp & st' & collected & headline & Hrun & _ & _ & Htext & Hpending & Hok & _).
  exists resp, st', (batchResult workerName environment (first :: rest) collected), headline.
  split; [exact Hrun |]. split; [exact Htext |].
  unfold batchResult. cbn [br_status]. rewrite Hpending.
  destruct rest as [| second rest]; [| reflexivity].
  cbn [map]. unfold overallStatus.
  destruct (accepted _).
  - rewrite Hok. reflexivity.
  - destruct Hok as [Hnone Hfailed]. rewrite Hnone.
    destruct (failedSecrets collected); [congruence | reflexivity].
Qed.

(** The witness: a single secret that is accepted gives SUCCESS. *)
Lemma C5_witness :
  credentials configured = Some ("acct", "token") /\
  exists resp st' r headline,
    setWorkerSecrets configured admin "w" [secretA] None healthy initial
      = (Return resp, st') /\
    responseText resp = headline ++ fenced "json" (render (batchResultJson r)) /\
    br_status r = SUCCESS.
Proof.
  split; [reflexivity |].
  exact (C5_batch_status configured admin "w" secretA [] None healthy initial
           ("acct", "token") eq_refl).
Defined.

(** C5 as it is stated fails: when the first of two secrets is refused,
    the handler answers with an error response whose result object has
    the status PARTIAL, not FAILURE. *)
Lemma C5_counterexample :
  accepted (answer secretsRefused initial
              (secretRequest secretsRefused ("acct", "token") "w" secretA)) = false /\
  exists resp st',
    setWorkerSecrets configured admin "w" [secretA; secretB] None secretsRefused initial
      = (Return resp, st') /\
    responseText resp =
      "**Error**" ++ NL2 ++ "Failed to set secrets for 'w'" ++ NL2 ++
      "**Details:**" ++ NL ++ fenced "json" (render (batchResultJson refusedBatch)) /\
    br_status refusedBatch = PARTIAL /\
    br_status refusedBatch <> FAILURE.
Proof.
  split; [vm_compute; reflexivity |].
  do 2 eexists. split; [vm_compute; reflexivity |].
  split; [vm_compute; reflexivity |].
  split; [reflexivity | discriminate].
Qed.

(* ================================================================== *)
(** ** deployMCPServer *)
(* ================================================================== *)

Section Orchestrator.
Local Open Scope list_scope.

Variable c : string * string.
Variable name : string.

(** Step 1 sends the namespace request and never throws. *)
Lemma createNamespaceStep_run (w : World) (st : State) :
  exists st',
    createNamespaceStep (client c) name w st =
      (Return (namespaceStepAfter (answer w st (oauthNamespaceRequest w c name))), st') /\
    calls st' = calls st ++ [oauthNamespaceRequest w c name] /\
    audit st' = audit st /\ dbCalls st' = dbCalls st /\ ticks st' = ticks st.
Proof.
  unfold createNamespaceStep, CloudflareAPI.createKVNamespace, answer,
    namespaceStepAfter, namespaceStored, namespaceResult.
  run.
  change (CloudflareAPI.namespaceRequest _ _ _) with (oauthNamespaceRequest w c name).
  on_answer; run.
  - eexists. repeat split; reflexivity.
  - eexists. repeat split; reflexivity.
  - unfold castBody, anyResult, asAny; cbn [success errors result raw].
    destruct (body_success b); cbn [negb andb]; run.
    + destruct (body_result b) as [d |]; cbn [option_map readProp]; run.
      * destruct (resultJson d); run; eexists; repeat split; reflexivity.
      * eexists. repeat split; reflexivity.
    + eexists. repeat split; reflexivity.
Qed.

(** Step 2 sends the deployment request and hands its failure over
    as a value. *)
Lemma deployStep_run (code : jsstring) (w : World) (st : State) :
  let o := answer w st (codeDeployRequest w c name code) in
  exists st',
    deployStep (client c) name code w st =
      (Return match refusal o "Worker deployment failed" with
              | Some deployError => inl deployError
              | None => inr (resultOf o)
              end, st') /\
    calls st' = calls st ++ [codeDeployRequest w c name code] /\
    audit st' = audit st /\ dbCalls st' = dbCalls st /\ ticks st' = ticks st.
Proof.
  unfold deployStep, CloudflareAPI.deployWorker, answer, refusal, resultOf.
  run.
  change (CloudflareAPI.deployRequest _ _ _ _) with (codeDeployRequest w c name code).
  on_answer; run.
  - eexists. repeat split; reflexivity.
  - eexists. repeat split; reflexivity.
  - unfold castBody, anyResult; cbn [success errors result raw].
    destruct (body_success b); cbn [negb]; run; eexists; repeat split; reflexivity.
Qed.

Lemma setOneSecret_run (secret : Secret) (w : World) (st : State) :
  exists r st',
    setOneSecret (client c) name secret w st = (Return r, st') /\
    calls st' = calls st ++ [secretRequest w c name secret] /\
    audit st' = audit st /\ dbCalls st' = dbCalls st /\ ticks st' = ticks st /\
    sr_name r = secret_name secret /\
    sr_success r = accepted (answer w st (secretRequest w c name secret)).
Proof.
  unfold setOneSecret, CloudflareAPI.setWorkerSecret, CloudflareAPI.makeRequest,
    answer, accepted.
  run.
  change (CloudflareAPI.requestInit _ _ _ _ _) with (secretRequest w c name secret).
  on_answer; run.
  - do 2 eexists. repeat split; reflexivity.
  - do 2 eexists. repeat split; reflexivity.
  - unfold castBody; cbn [success errors result].
    destruct (body_success b); run; do 2 eexists; repeat split; reflexivity.
Qed.

(** Step 4 sends one request per secret, in order, and never throws. *)
Lemma setSecrets_run :
  forall (todo : list Secret) (w : World) (st : State),
  exists rs st',
    setSecrets (client c) name todo w st = (Return rs, st') /\
    calls st' = calls st ++ map (secretRequest w c name) todo /\
    audit st' = audit st /\ dbCalls st' = dbCalls st /\ ticks st' = ticks st /\
    map sr_name rs = map secret_name todo /\
    map sr_success rs = verdicts w (calls st) (map (secretRequest w c name) todo).
Proof.
  induction todo as [| secret todo IH]; intros w st.
  - cbn. run. do 2 eexists. rewrite app_nil_r. repeat split; reflexivity.
  - cbn [setSecrets]. run.
    destruct (setOneSecret_run secret w st)
      as (r & st1 & Hrun & Hcalls & Haud & Hdb & Hticks & Hname & Hok).
    rewrite Hrun.
    destruct (IH w st1)
      as (rs & st2 & Hrun2 & Hcalls2 & Haud2 & Hdb2 & Hticks2 & Hnames & Hoks).
    rewrite Hrun2.
    do 2 eexists. split; [reflexivity |].
    rewrite Hcalls2, Hcalls, Haud2, Haud, Hdb2, Hdb, Hticks2, Hticks.
    cbn [map verdicts]. rewrite Hname, Hnames, Hok, Hoks, Hcalls, <- app_assoc.
    repeat split; reflexivity.
Qed.

End Orchestrator.

(** A call is accepted exactly when no error reaches the [catch]
    clause around it. *)
Lemma refusal_accepted (o : FetchOutcome) (fallback : string) :
  if accepted o then refusal o fallback = None
  else exists e, refusal o fallback = Some e.
Proof.
  destruct o as [e | s [e | b]]; cbn; eauto.
  destruct (body_success b); eauto.
Qed.

Lemma secretsStatus_shown (rs : list SecretResult) :
  showStepStatus (secretsStatus rs) = secretsShown (map sr_success rs).
Proof.
  unfold secretsStatus, secretsShown.
  assert (Hall : forall l, forallb (fun v : bool => v) (map sr_success l)
                           = forallb sr_success l).
  { induction l as [| r l IH]; [reflexivity |]. cbn. rewrite IH. reflexivity. }
  assert (Hsome : forall l, existsb (fun v : bool => v) (map sr_success l)
                            = existsb sr_success l).
  { induction l as [| r l IH]; [reflexivity |]. cbn. rewrite IH. reflexivity. }
  rewrite Hall, Hsome.
  destruct (forallb sr_success rs); [reflexivity |].
  destruct (existsb sr_success rs); reflexivity.
Qed.

Lemma stepJson_namespace (o : FetchOutcome) :
  stepJson (namespaceStepAfter o) = namespaceShown o.
Proof.
  unfold stepJson, namespaceStepAfter, namespaceShown, shownStep.
  cbn [step_status step_result].
  destruct (namespaceStored o), (namespaceResult o); reflexivity.
Qed.


(** One run of the orchestrator with the credentials in place: what is
    sent, what is recorded and which response is built, by the fate of
    the code deployment. *)
Lemma deployMCPServer_run (env : Env) (props : Props) (args : DeployMCPServerArgs)
      (w : World) (st : State) (c : string * string) :
  credentials env = Some c ->
  let name := arg_name args in
  let kvReq := oauthNamespaceRequest w c name in
  let depReq := codeDeployRequest w c name (arg_code args) in
  let depAnswer := respond w (calls st ++ [kvReq])%list depReq in
  let kv := namespaceStepAfter (answer w st kvReq) in
  exists resp st',
    deployMCPServer env props args w st = (Return resp, st') /\
    dbCalls st' = dbCalls st /\
    if accepted depAnswer then
      exists secretResults,
        let secretReqs := map (secretRequest w c name) (secretsToSet args) in
        let steps := {| kvNamespace := kv;
                        durableObjects := durableObjectsStep;
                        workerDeployment := workerStep (resultOf depAnswer);
                        secrets := secretsStep secretResults |} in
        let wranglerConfig := wranglerConfigJson name (fst c) (step_result kv) in
        let deploymentResult :=
          deploymentResultJson name props steps secretResults wranglerConfig
            (toISOString w (clock w (S (ticks st)))) in
        deploymentSucceeded name props deploymentResult wranglerConfig w st'
          = (Return resp, st') /\
        calls st' = (calls st ++ [kvReq; depReq] ++ secretReqs)%list /\
        map sr_name secretResults = map secret_name (secretsToSet args) /\
        map sr_success secretResults =
          verdicts w (calls st ++ [kvReq; depReq])%list secretReqs /\
        audit st' =
          (audit st ++
           [ {| timestamp := toISOString w (clock w (S (S (ticks st))));
                operation := "deploy_mcp_server";
                workerName := name;
                userName := login props;
                audit_success := true;
                details := deploymentResult |} ])%list
    else
      exists deployError,
        refusal depAnswer "Worker deployment failed" = Some deployError /\
        deploymentFailed deployError (stepsAtFailure kv) w st' = (Return resp, st') /\
        calls st' = (calls st ++ [kvReq; depReq])%list /\
        audit st' =
          (audit st ++
           [ {| timestamp := toISOString w (clock w (S (ticks st)));
                operation := "deploy_mcp_server";
                workerName := name;
                userName := login props;
                audit_success := false;
                details :=
                  JObj [("error", JStr (messageOr deployError "Worker deployment failed"));
                        ("steps", stepsJson (stepsAtFailure kv))] |} ])%list.
Proof.
  intros Hcred name kvReq depReq depAnswer kv.
  pose (st0 := {| calls := calls st; dbCalls := dbCalls st; audit := audit st;
                  ticks := S (ticks st) |}).
  destruct (createNamespaceStep_run c name w st0)
    as (st1 & Hrun1 & Hcalls1 & Haud1 & Hdb1 & Hticks1).
  destruct (deployStep_run c name (arg_code args) w st1)
    as (st2 & Hrun2 & Hcalls2 & Haud2 & Hdb2 & Hticks2).
  unfold answer in Hrun1, Hrun2. rewrite Hcalls1 in Hrun2.
  subst st0. cbn [calls dbCalls audit ticks] in *.
  fold kvReq in Hrun1, Hrun2, Hcalls1. fold depReq depAnswer in Hrun2.
  pose proof (refusal_accepted depAnswer "Worker deployment failed") as Hd.
  unfold deployMCPServer. rewrite Hcred. run.
  fold name. rewrite Hrun1. unfold kv, answer. rewrite Hrun2.
  destruct (accepted depAnswer).
  - rewrite Hd.
    destruct (setSecrets_run c name (secretsToSet args) w st2)
      as (rs & st3 & Hrun3 & Hcalls3 & Haud3 & Hdb3 & Hticks3 & Hnames & Hoks).
    rewrite Hrun3. unfold deploymentSucceeded. run.
    do 2 eexists. split; [reflexivity |]. cbn [dbCalls].
    split; [rewrite Hdb3, Hdb2, Hdb1; reflexivity |].
    exists rs. cbn [calls audit].
    rewrite Hticks3, Hticks2, Hticks1.
    split; [reflexivity |].
    split; [rewrite Hcalls3, Hcalls2, Hcalls1, <- !app_assoc; reflexivity |].
    split; [exact Hnames |].
    split; [rewrite Hoks, Hcalls2, Hcalls1, <- !app_assoc; reflexivity |].
    rewrite Haud3, Haud2, Haud1. reflexivity.
  - destruct Hd as [e He]. rewrite He. unfold deploymentFailed. run.
    do 2 eexists. split; [reflexivity |]. cbn [dbCalls].
    split; [rewrite Hdb2, Hdb1; reflexivity |].
    exists e. cbn [calls audit]. rewrite Hticks2, Hticks1.
    split; [reflexivity |].
    split; [reflexivity |].
    split; [rewrite Hcalls2, Hcalls1, <- !app_assoc; reflexivity |].
    rewrite Haud2, Haud1. reflexivity.
Qed.

(** C2. When the code deployment fails, by a thrown error, an
    unparsable body or [success: false], the orchestrator stops there.
    It has sent the namespace request and the deployment request and
    nothing else, so no secret-set request.  It answers with the error
    response "Worker deployment failed", whose [completedSteps] shows
    the namespace step as step 1 left it and the three other steps as
    pending with a null result, and it records the failure, with the
    same steps, in the audit trail, stamped with the second reading of
    the clock (the first is that of the opening log line). *)
Theorem C2_failed_code_deploy_aborts :
  forall (env : Env) (props : Props) (args : DeployMCPServerArgs)
         (w : World) (st : State) (c : string * string),
    credentials env = Some c ->
    let name := arg_name args in
    let kvReq := oauthNamespaceRequest w c name in
    let depReq := codeDeployRequest w c name (arg_code args) in
    let depAnswer := respond w (calls st ++ [kvReq])%list depReq in
    let completedSteps :=
      JObj [ ("kvNamespace", namespaceShown (answer w st kvReq));
             ("durableObjects", pendingShown);
             ("workerDeployment", pendingShown);
             ("secrets", pendingShown) ] in
    accepted depAnswer = false ->
    exists resp st' deployError,
      deployMCPServer env props args w st = (Return resp, st') /\
      refusal depAnswer "Worker deployment failed" = Some deployError /\
      calls st' = (calls st ++ [kvReq; depReq])%list /\
      (forall workerName secret,
          ~ In (secretRequest w c workerName secret) [kvReq; depReq]) /\
      resp = textResponse
        ("**Error**" ++ NL2 ++ "Worker deployment failed" ++ NL2 ++
         "**Details:**" ++ NL ++
         fenced "json" (stringifyPretty w
           (JObj [ ("error", JStr (messageOr deployError "Unknown error"));
                   ("completedSteps", completedSteps) ]))) /\
      audit st' =
        (audit st ++
         [ {| timestamp := toISOString w (clock w (S (ticks st)));
              operation := "deploy_mcp_server";
              workerName := name;
              userName := login props;
              audit_success := false;
              details :=
                JObj [ ("error", JStr (messageOr deployError "Worker deployment failed"));
                       ("steps", completedSteps) ] |} ])%list.
Proof.
  intros env props args w st c Hcred name kvReq depReq depAnswer completedSteps Hfail.
  destruct (deployMCPServer_run env props args w st c Hcred)
    as (resp & st' & Hrun & _ & Hcase).
  fold name kvReq depReq depAnswer in Hcase. rewrite Hfail in Hcase.
  destruct Hcase as (deployError & Hrefusal & Hresp & Hcalls & Haudit).
  unfold deploymentFailed in Hresp.
  cbv beta iota zeta delta [bind ret asks pretty] in Hresp.
  injection Hresp as Hresp.
  assert (Hsteps : stepsJson (stepsAtFailure (namespaceStepAfter (answer w st kvReq)))
                   = completedSteps).
  { unfold stepsJson, stepsAtFailure, completedSteps.
    cbn [kvNamespace durableObjects workerDeployment secrets].
    rewrite stepJson_namespace. reflexivity. }
  rewrite Hsteps in Hresp, Haudit.
  exists resp, st', deployError.
  split; [exact Hrun |]. split; [exact Hrefusal |]. split; [exact Hcalls |].
  split.
  { intros workerName secret [H | [H | []]]; cbv in H; discriminate H. }
  split; [symmetry; exact Hresp | exact Haudit].
Qed.

(** The witness: the network is down, so the deployment throws. *)
Lemma C2_witness :
  credentials configured = Some ("acct", "token") /\
  exists resp st',
    deployMCPServer configured admin demoArgs offline initial = (Return resp, st') /\
    calls st' = [ oauthNamespaceRequest offline ("acct", "token") "demo";
                  codeDeployRequest offline ("acct", "token") "demo" (js "export default {}") ] /\
    responseText resp =
      "**Error**" ++ NL2 ++ "Worker deployment failed" ++ NL2 ++
      "**Details:**" ++ NL ++
      fenced "json"
        (render (JObj [ ("error", JStr "fetch failed");
                        ("completedSteps",
                         JObj [ ("kvNamespace",
                                 JObj [("status", JStr "failed"); ("result", JNull)]);
                                ("durableObjects",
                                 JObj [("status", JStr "pending"); ("result", JNull)]);
                                ("workerDeployment",
                                 JObj [("status", JStr "pending"); ("result", JNull)]);
                                ("secrets",
                                 JObj [("status", JStr "pending"); ("result", JNull)]) ]) ])).
Proof.
  split; [reflexivity |].
  destruct (C2_failed_code_deploy_aborts configured admin demoArgs offline initial
              ("acct", "token") eq_refl eq_refl)
    as (resp & st' & deployError & Hrun & Hrefusal & Hcalls & _ & Htext & _).
  exists resp, st'. split; [exact Hrun |]. split; [exact Hcalls |].
  injection Hrefusal as <-. rewrite Htext. reflexivity.
Defined.

(** C1, as the code has it. With the credentials in place the response
    is the error response exactly when the code deployment failed.
    Otherwise it is the "Success" response, whose result object, the
    one recorded in the audit trail as a success, has the status
    "deployed" whatever became of the namespace and of the secrets.
    Their outcomes are itemised under [deploymentSteps]: the namespace
    step as step 1 left it (failed when the request failed or brought
    no result), the Durable Objects and the worker deployment as
    successes, and the secrets as "success", "partial" or "failed" by
    the verdicts on the single secret requests.  No response carries a
    PARTIAL headline. *)
Theorem C1_status_follows_code_deploy :
  forall (env : Env) (props : Props) (args : DeployMCPServerArgs)
         (w : World) (st : State) (c : string * string),
    credentials env = Some c ->
    let name := arg_name args in
    let kvReq := oauthNamespaceRequest w c name in
    let depReq := codeDeployRequest w c name (arg_code args) in
    let secretReqs := map (secretRequest w c name) (secretsToSet args) in
    let kvAnswer := answer w st kvReq in
    let depAnswer := respond w (calls st ++ [kvReq])%list depReq in
    let deployed := accepted depAnswer in
    let url := "https://" ++ name ++ "." ++ login props ++ ".workers.dev" in
    exists resp st',
      deployMCPServer env props args w st = (Return resp, st') /\
      reportedStatus resp = Some (if deployed then SUCCESS else FAILURE) /\
      (deployed = true ->
       exists deploymentResult wranglerConfig e,
         resp = textResponse
           ("**Success**" ++ NL2 ++
            "MCP Server '" ++ name ++ "' deployed successfully!" ++ NL2 ++
            "**Endpoints:**" ++ NL ++
            "- Worker: " ++ url ++ NL ++
            "- OAuth: " ++ url ++ "/oauth/authorize" ++ NL ++
            "- MCP: " ++ url ++ "/mcp" ++ NL2 ++
            "**Configuration:**" ++ NL ++
            fenced "json" (stringifyPretty w deploymentResult) ++ NL2 ++
            "**Wrangler Config:**" ++ NL ++
            fenced "jsonc" (stringifyPretty w wranglerConfig)) /\
         audit st' = (audit st ++ [e])%list /\
         audit_success e = true /\
         details e = deploymentResult /\
         path ["status"] deploymentResult = Some (JStr "deployed") /\
         path ["kvNamespace"] deploymentResult = namespaceResult kvAnswer /\
         path ["wranglerConfig"] deploymentResult = Some wranglerConfig /\
         path ["deploymentSteps"; "kvNamespace"] deploymentResult =
           Some (namespaceShown kvAnswer) /\
         path ["deploymentSteps"; "durableObjects"; "status"] deploymentResult =
           Some (JStr "success") /\
         path ["deploymentSteps"; "workerDeployment"] deploymentResult =
           Some (shownStep "success" (resultOf depAnswer)) /\
         path ["deploymentSteps"; "secrets"; "status"] deploymentResult =
           Some (JStr (secretsShown
                         (verdicts w (calls st ++ [kvReq; depReq])%list secretReqs)))).
Proof.
  intros env props args w st c Hcred name kvReq depReq secretReqs kvAnswer depAnswer
         deployed url.
  destruct (deployMCPServer_run env props args w st c Hcred)
    as (resp & st' & Hrun & _ & Hcase).
  fold name kvReq depReq depAnswer deployed kvAnswer in Hcase.
  exists resp, st'. split; [exact Hrun |].
  destruct deployed.
  - destruct Hcase as (rs & Hresp & _ & _ & Hoks & Haudit).
    fold secretReqs in Hoks.
    unfold deploymentSucceeded in Hresp.
    cbv beta iota zeta delta [bind ret asks pretty] in Hresp.
    injection Hresp as Hresp.
    split; [rewrite <- Hresp; reflexivity |].
    intros _. do 3 eexists.
    split; [symmetry; exact Hresp |].
    split; [exact Haudit |].
    split; [reflexivity |]. split; [reflexivity |].
    unfold deploymentResultJson, stepsJson.
    cbn [kvNamespace durableObjects workerDeployment secrets].
    rewrite stepJson_namespace.
    cbn [namespaceStepAfter step_result].
    rewrite <- Hoks, <- secretsStatus_shown.
    destruct (namespaceResult kvAnswer) as [stored |];
      repeat split; reflexivity.
  - destruct Hcase as (deployError & _ & Hresp & _).
    split; [| discriminate].
    unfold deploymentFailed in Hresp.
    cbv beta iota zeta delta [bind ret asks pretty] in Hresp.
    injection Hresp as Hresp. rewrite <- Hresp. reflexivity.
Qed.

(** The witness: a deployment in a world where every call succeeds. *)
Lemma C1_witness :
  credentials configured = Some ("acct", "token") /\
  exists resp st' deploymentResult,
    deployMCPServer configured admin demoArgs healthy initial = (Return resp, st') /\
    reportedStatus resp = Some SUCCESS /\
    lastVerdict (audit st') = Some true /\
    path ["status"] deploymentResult = Some (JStr "deployed") /\
    path ["deploymentSteps"; "kvNamespace"] deploymentResult =
      Some (JObj [ ("status", JStr "success");
                   ("result", JObj [ ("id", JStr "kv-123");
                                     ("title", JStr "demo-oauth-kv") ]) ]) /\
    path ["deploymentSteps"; "secrets"; "status"] deploymentResult =
      Some (JStr "success").
Proof.
  split; [reflexivity |].
  destruct (C1_status_follows_code_deploy configured admin demoArgs healthy initial
              ("acct", "token") eq_refl)
    as (resp & st' & Hrun & Hstatus & Hdeployed).
  destruct (Hdeployed eq_refl)
    as (deploymentResult & wranglerConfig & e & _ & Haudit & He & _ & Hdep & _ & _
        & Hkv & _ & _ & Hsecrets).
  exists resp, st', deploymentResult.
  split; [exact Hrun |]. split; [exact Hstatus |].
  split; [rewrite Haudit; unfold lastVerdict; rewrite rev_app_distr; cbn [rev app];
          rewrite He; reflexivity |].
  split; [exact Hdep |]. split; [exact Hkv | exact Hsecrets].
Defined.

(** C1 as it is stated fails: when the namespace request is refused
    and the code deployment goes through, the namespace step has
    failed and the specified status is PARTIAL, but the response is the
    "Success" response, recorded as a success, and PARTIAL is nowhere
    in it. *)
Lemma C1_counterexample :
  namespaceShown (answer namespaceRefused initial
                    (oauthNamespaceRequest namespaceRefused ("acct", "token") "demo")) =
    JObj [("status", JStr "failed"); ("result", JNull)] /\
  accepted (respond namespaceRefused
              [oauthNamespaceRequest namespaceRefused ("acct", "token") "demo"]
              (codeDeployRequest namespaceRefused ("acct", "token") "demo"
                 (js "export default {}"))) = true /\
  specifiedStatus false true true true = PARTIAL /\
  exists resp st',
    deployMCPServer configured admin demoArgs namespaceRefused initial = (Return resp, st') /\
    reportedStatus resp = Some SUCCESS /\
    reportedStatus resp <> Some PARTIAL /\
    includes "PARTIAL" (responseText resp) = false /\
    includes (DQ ++ "status" ++ DQ ++ ":" ++ DQ ++ "deployed" ++ DQ) (responseText resp)
      = true /\
    lastVerdict (audit st') = Some true.
Proof.
  split; [vm_compute; reflexivity |].
  split; [vm_compute; reflexivity |].
  split; [reflexivity |].
  do 2 eexists. split; [vm_compute; reflexivity |].
  split; [vm_compute; reflexivity |].
  split; [vm_compute; discriminate |].
  split; [vm_compute; reflexivity |].
  split; vm_compute; reflexivity.
Qed.


(* ================================================================== *)
(** ** No handler throws *)
(* ================================================================== *)

Section Reporting.
Local Open Scope list_scope.


Ltac frame_audit H :=
  repeat match goal with
         | |- context [audit ?s] => rewrite (H : audit s = _)
         end.

Variable env : Env.
Variable props : Props.















End Reporting.



Local Open Scope list_scope.
Local Open Scope string_scope.

(* ================================================================== *)
(** * Further properties of the code *)
(* ================================================================== *)

(* ================================================================== *)
(** ** The validator: blank code, forbidden words, forbidden calls *)
(* ================================================================== *)

Section ValidatorCoverage.
Local Open Scope list_scope.

Lemma trimStart_blank (s : jsstring) : forallb isSpace s = true -> trimStart s = [].
Proof.
  induction s as [| c s IH]; intros Hs; [reflexivity |].
  cbn in Hs. apply andb_true_iff in Hs as [Hc Hs].
  cbn. rewrite Hc. exact (IH Hs).
Qed.

(** X1. Code made of white space only (the empty code included) is
    refused as empty, and deployWorker answers with that validation
    error without sending anything. *)
Theorem X1_blank_code_is_empty :
  forall (code : jsstring),
    forallb isSpace code = true ->
    validateWorkerCode code =
      {| isValid := false; error := Some "Worker code cannot be empty" |} /\
    forall env props name description w st,
    exists st',
      deployWorker env props name code description w st =
        (Return (textResponse
           ("**Error**" ++ NL2 ++ "Code validation failed: Worker code cannot be empty")%string),
         st') /\
      calls st' = calls st.
Proof.
  intros code Hblank.
  assert (Hv : validateWorkerCode code =
               {| isValid := false; error := Some "Worker code cannot be empty" |}).
  { unfold validateWorkerCode, trim. rewrite (trimStart_blank code Hblank). reflexivity. }
  split; [exact Hv |].
  intros env props name description w st.
  destruct (deployWorker_refuses env props name code description w st)
    as (st' & Hrun & Hcalls & _).
  { rewrite Hv. reflexivity. }
  exists st'. rewrite Hv in Hrun. split; [exact Hrun | exact Hcalls].
Qed.

Lemma X1_witness :
  forallb isSpace (js "   ") = true /\
  validateWorkerCode (js "   ") =
    {| isValid := false; error := Some "Worker code cannot be empty" |}.
Proof.
  split; [reflexivity |].
  apply (X1_blank_code_is_empty (js "   ")). reflexivity.
Defined.

(** A word of the [i]-flagged patterns matches each of its spellings. *)
Lemma liti_matches (word : string) :
  forall (text rest : jsstring) (before : option N) (more : pattern),
    spelledAs word text ->
    (forall b, matchHere more b rest = true) ->
    matchHere (liti word ++ more) before (text ++ rest) = true.
Proof.
  unfold spelledAs, liti.
  induction (js word) as [| c cs IH]; intros text rest before more Hspell Hmore.
  - inversion Hspell; subst. cbn. apply Hmore.
  - inversion Hspell as [| c' x cs' xs Hx Hxs]; subst.
    cbn. rewrite Hx. cbn. apply IH; assumption.
Qed.

Lemma sameLetter_cases (c x : N) :
  sameLetter c x = true ->
  x = c \/ (isUpper c = true /\ x = (c + 32)%N) \/ (isLower c = true /\ x = (c - 32)%N).
Proof.
  unfold sameLetter. intros H.
  apply orb_true_iff in H as [H | H]; [apply orb_true_iff in H as [H | H] |].
  - left. apply N.eqb_eq. exact H.
  - apply andb_true_iff in H as [Hc H]. right. left. split; [exact Hc |].
    apply N.eqb_eq. exact H.
  - apply andb_true_iff in H as [Hc H]. right. right. split; [exact Hc |].
    apply N.eqb_eq. exact H.
Qed.

Lemma printable_not_space (x : N) : (33 <= x <= 159)%N -> isSpace x = false.
Proof.
  intros Hx. unfold isSpace, inRange.
  replace (x <=? 13)%N with false by (symmetry; apply N.leb_gt; lia).
  replace (x =? 32)%N with false by (symmetry; apply N.eqb_neq; lia).
  replace (x =? 160)%N with false by (symmetry; apply N.eqb_neq; lia).
  replace (x =? 5760)%N with false by (symmetry; apply N.eqb_neq; lia).
  replace (8192 <=? x)%N with false by (symmetry; apply N.leb_gt; lia).
  replace (x =? 8232)%N with false by (symmetry; apply N.eqb_neq; lia).
  replace (x =? 8233)%N with false by (symmetry; apply N.eqb_neq; lia).
  replace (x =? 8239)%N with false by (symmetry; apply N.eqb_neq; lia).
  replace (x =? 8287)%N with false by (symmetry; apply N.eqb_neq; lia).
  replace (x =? 12288)%N with false by (symmetry; apply N.eqb_neq; lia).
  replace (x =? 65279)%N with false by (symmetry; apply N.eqb_neq; lia).
  rewrite andb_false_r. reflexivity.
Qed.

Lemma letter_bounds (c : N) : (isUpper c || isLower c) = true -> (65 <= c <= 122)%N.
Proof.
  unfold isUpper, isLower, inRange. intros H.
  apply orb_true_iff in H as [H | H]; apply andb_true_iff in H as [Hlo Hhi];
    apply N.leb_le in Hlo, Hhi; lia.
Qed.

(** A spelling of a word that starts with a letter starts with a code
    unit that is not white space. *)
Lemma spelling_not_blank (word : string) (text : jsstring) (c : N) (cs : jsstring) :
  js word = c :: cs ->
  (isUpper c || isLower c) = true ->
  spelledAs word text ->
  exists x, In x text /\ isSpace x = false.
Proof.
  unfold spelledAs. intros Hw Hletter Hspell. rewrite Hw in Hspell.
  inversion Hspell as [| c' x cs' xs Hx Hxs]; subst.
  exists x. split; [left; reflexivity |].
  pose proof (letter_bounds c Hletter) as Hc.
  apply printable_not_space.
  destruct (sameLetter_cases c x Hx) as [-> | [[_ ->] | [_ ->]]]; lia.
Qed.

(** X2. A forbidden word (process.exit, process.kill, child_process,
    document.write, javascript:, vbscript:) makes the validator refuse
    the code wherever it stands and in whatever letter case it is
    written. *)
Theorem X2_forbidden_words_any_case :
  forall (word : string) (pre text post : jsstring),
    In word forbiddenWords ->
    spelledAs word text ->
    validateWorkerCode (pre ++ text ++ post) = refused.
Proof.
  intros word pre text post Hword Hspell.
  assert (Hpat : In (liti word) dangerousPatterns /\
                 exists c cs, js word = c :: cs /\ (isUpper c || isLower c) = true).
  { unfold forbiddenWords in Hword.
    destruct Hword as [<- | [<- | [<- | [<- | [<- | [<- | []]]]]]].
    - split; [do 2 right; left; reflexivity | do 2 eexists; split; reflexivity].
    - split; [do 3 right; left; reflexivity | do 2 eexists; split; reflexivity].
    - split; [do 4 right; left; reflexivity | do 2 eexists; split; reflexivity].
    - split; [do 15 right; left; reflexivity | do 2 eexists; split; reflexivity].
    - split; [do 20 right; left; reflexivity | do 2 eexists; split; reflexivity].
    - split; [do 21 right; left; reflexivity | do 2 eexists; split; reflexivity]. }
  destruct Hpat as (Hin & c & cs & Hw & Hletter).
  destruct (spelling_not_blank word text c cs Hw Hletter Hspell) as (x & Hx & Hspace).
  apply (dangerous_code_rejected _ x Hspace).
  - apply in_or_app. right. apply in_or_app. left. exact Hx.
  - apply existsb_exists. exists (liti word). split; [exact Hin |].
    unfold test. apply search_skips. intros before.
    rewrite <- (app_nil_r (liti word)).
    apply liti_matches; [exact Hspell | reflexivity].
Qed.

Lemma X2_witness :
  In "process.exit" forbiddenWords /\
  spelledAs "process.exit" (js "Process.EXIT") /\
  validateWorkerCode (js "x = 1; " ++ js "Process.EXIT" ++ js "(0)") = refused.
Proof.
  assert (Hword : In "process.exit" forbiddenWords) by (left; reflexivity).
  assert (Hspell : spelledAs "process.exit" (js "Process.EXIT"))
    by (repeat constructor).
  split; [exact Hword |]. split; [exact Hspell |].
  exact (X2_forbidden_words_any_case "process.exit" (js "x = 1; ") (js "Process.EXIT")
           (js "(0)") Hword Hspell).
Defined.

(** The search finds a match that starts right after [pre]. *)
Lemma search_after (pat : pattern) :
  forall (pre s : jsstring) (prev : option N),
    matchHere pat (fold_left (fun _ c => Some c) pre prev) s = true ->
    search pat prev (pre ++ s) = true.
Proof.
  induction pre as [| c pre IH]; intros s prev Hs.
  - cbn in *. destruct s; cbn; rewrite Hs; reflexivity.
  - cbn. rewrite (IH s (Some c) Hs). apply orb_true_r.
Qed.

Lemma lastUnit_fold (pre : jsstring) (prev : option N) :
  fold_left (fun _ c => Some c) pre prev =
  match lastUnit pre with Some c => Some c | None => prev end.
Proof.
  unfold lastUnit.
  induction pre as [| x pre IH] using rev_ind; [reflexivity |].
  rewrite fold_left_app, rev_app_distr. reflexivity.
Qed.

(** X3. A call of eval or of Function, in whatever letter case and
    with any white space before the parenthesis, makes the validator
    refuse the code, provided the word is not the tail of a longer
    identifier. *)
Theorem X3_forbidden_calls :
  forall (word : string) (pre text spaces post : jsstring),
    In word forbiddenCalls ->
    spelledAs word text ->
    forallb isSpace spaces = true ->
    wordBefore (lastUnit pre) = false ->
    validateWorkerCode (pre ++ text ++ spaces ++ js "(" ++ post) = refused.
Proof.
  intros word pre text spaces post Hword Hspell Hspaces Hbefore.
  assert (Hpat : In (Boundary :: liti word ++ spaces0 ++ liti "(") dangerousPatterns /\
                 exists c cs, js word = c :: cs /\ (isUpper c || isLower c) = true).
  { unfold forbiddenCalls in Hword. destruct Hword as [<- | [<- | []]].
    - split; [left; reflexivity | do 2 eexists; split; reflexivity].
    - split; [right; left; reflexivity | do 2 eexists; split; reflexivity]. }
  destruct Hpat as (Hin & c & cs & Hw & Hletter).
  destruct (spelling_not_blank word text c cs Hw Hletter Hspell) as (x & Hx & Hspace).
  apply (dangerous_code_rejected _ x Hspace).
  - apply in_or_app. right. apply in_or_app. left. exact Hx.
  - apply existsb_exists. eexists. split; [exact Hin |].
    unfold test. apply search_after. rewrite lastUnit_fold.
    assert (Hprev : wordBefore (match lastUnit pre with
                                | Some u => Some u | None => None end) = false).
    { destruct (lastUnit pre); exact Hbefore. }
    cbn [matchHere]. rewrite Hprev.
    assert (Hafter : wordAfter (text ++ spaces ++ js "(" ++ post) = true).
    { unfold spelledAs in Hspell. rewrite Hw in Hspell.
      inversion Hspell as [| c' y cs' ys Hy Hys]; subst. cbn.
      pose proof (letter_bounds c Hletter) as Hc.
      unfold isWord. 
      destruct (sameLetter_cases c y Hy) as [-> | [[Hup ->] | [Hlow ->]]].
      - rewrite Hletter. reflexivity.
      - replace (isLower (c + 32)) with true; [rewrite orb_true_r; reflexivity |].
        symmetry. unfold isUpper, isLower, inRange in *.
        apply andb_true_iff in Hup as [Hlo Hhi]. apply N.leb_le in Hlo, Hhi.
        apply andb_true_iff. split; apply N.leb_le; lia.
      - replace (isUpper (c - 32)) with true; [reflexivity |].
        symmetry. unfold isUpper, isLower, inRange in *.
        apply andb_true_iff in Hlow as [Hlo Hhi]. apply N.leb_le in Hlo, Hhi.
        apply andb_true_iff. split; apply N.leb_le; lia. }
    rewrite Hafter. cbn [xorb andb].
    apply liti_matches; [exact Hspell |].
    intros b. cbn -[many]. apply many_run; [exact Hspaces |].
    intros b'. reflexivity.
Qed.

Lemma X3_witness :
  In "eval" forbiddenCalls /\
  spelledAs "eval" (js "EVAL") /\
  forallb isSpace (js "  ") = true /\
  wordBefore (lastUnit (js "x = window.")) = false /\
  validateWorkerCode (js "x = window." ++ js "EVAL" ++ js "  " ++ js "(" ++ js "s)") = refused.
Proof.
  assert (Hword : In "eval" forbiddenCalls) by (left; reflexivity).
  assert (Hspell : spelledAs "eval" (js "EVAL")) by (repeat constructor).
  split; [exact Hword |]. split; [exact Hspell |].
  split; [reflexivity |]. split; [reflexivity |].
  exact (X3_forbidden_calls "eval" (js "x = window.") (js "EVAL") (js "  ") (js "s)")
           Hword Hspell eq_refl eq_refl).
Defined.

End ValidatorCoverage.

(* ================================================================== *)
(** ** What the handlers send *)
(* ================================================================== *)

Section Traces.
Local Open Scope list_scope.

Variable env : Env.
Variable props : Props.

(** [getWorker] sends the settings request and at most the domains
    request after it. *)
Lemma getWorker_trace (api : CloudflareAPI.t) (name : string) (w : World) (st : State) :
  exists r st' lookups,
    CloudflareAPI.getWorker api name w st = (Return r, st') /\
    calls st' = calls st ++ CloudflareAPI.settingsRequest api name :: lookups /\
    (lookups = [] \/ lookups = [CloudflareAPI.domainsRequest api]).
Proof.
  unfold CloudflareAPI.getWorker, CloudflareAPI.orNow. run.
  on_answer; run.
  - do 3 eexists. split; [reflexivity |]. split; [reflexivity | left; reflexivity].
  - destruct (Nat.eqb s 404); run.
    + on_answer; run; do 3 eexists; (split; [reflexivity |]);
        (split; [rewrite <- app_assoc; reflexivity | right; reflexivity]).
    + do 3 eexists. split; [reflexivity |]. split; [reflexivity | left; reflexivity].
  - destruct (Nat.eqb s 404); run.
    + on_answer; run; do 3 eexists; (split; [reflexivity |]);
        (split; [rewrite <- app_assoc; reflexivity | right; reflexivity]).
    + destruct (body_success b);
        [| run; do 3 eexists; split; [reflexivity |];
           split; [reflexivity | left; reflexivity]].
      destruct (body_result b) as [d |];
        [| run; do 3 eexists; split; [reflexivity |];
           split; [reflexivity | left; reflexivity]].
      destruct (truthyJson (resultJson d));
        [| run; do 3 eexists; split; [reflexivity |];
           split; [reflexivity | left; reflexivity]].
      destruct (truthy (created_on _)); run;
        destruct (truthy (modified_on _)); run;
        do 3 eexists; (split; [reflexivity |]);
        (split; [reflexivity | left; reflexivity]).
Qed.

(** Closing a leaf: the log of the final state is the old log followed
    by explicit requests, each of which is checked. *)
Ltac sent_ok Hcred :=
  cbn [snd calls];
  repeat match goal with
         | H : calls ?s = _ |- context [calls ?s] => rewrite H
         end;
  rewrite <- ?app_assoc; cbn [app];
  first [ eexists; split; [reflexivity |]
        | exists []; split; [symmetry; apply app_nil_r |] ];
  repeat constructor;
  try (do 2 eexists; split; [exact Hcred |]; split;
       [cbn; auto | reflexivity]);
  try (cbn; intros Hdelete; first [discriminate Hdelete | reflexivity]).

Lemma whoami_traced call : traced (permitted env call) (whoami env props).
Proof. intros w st. unfold whoami. run. exists []. split; [symmetry; apply app_nil_r | constructor]. Qed.

Lemma deployWorker_traced call name code description :
  traced (permitted env call) (deployWorker env props name code description).
Proof.
  intros w st. unfold deployWorker.
  destruct (isValid (validateWorkerCode code)); cbn [negb]; run; [| sent_ok I].
  destruct (credentials env) as [c |] eqn:Hcred; run; [| sent_ok I].
  destruct (CloudflareAPI.deployWorker (client c) name code None w st)
    as [[r | e] st1] eqn:Hrun;
    pose proof (deployWorker_sends (client c) name code None w st) as Hframe;
    cbv zeta in Hframe; rewrite Hrun in Hframe; cbn [snd] in Hframe;
    destruct Hframe as (Hcalls & _); run.
  - destruct (success r); cbn [negb]; run; sent_ok Hcred.
  - sent_ok Hcred.
Qed.

Lemma listWorkers_traced call : traced (permitted env call) (listWorkers env props).
Proof.
  intros w st. unfold listWorkers.
  destruct (credentials env) as [c |] eqn:Hcred; run; [| sent_ok I].
  destruct (CloudflareAPI.listWorkers (client c) w st) as [[r | e] st1] eqn:Hrun;
    pose proof (makeRequest_sends (client c) _ asWorkers "" "GET" None w st) as Hframe;
    cbv zeta in Hframe; unfold CloudflareAPI.listWorkers in Hrun;
    rewrite Hrun in Hframe; cbn [snd] in Hframe;
    destruct Hframe as (Hcalls & _); run.
  - destruct (success r); cbn [negb]; run; [| sent_ok Hcred].
    destruct (result r) as [[| worker workers] |]; run; sent_ok Hcred.
  - sent_ok Hcred.
Qed.

Lemma getWorkerStatus_traced call name :
  traced (permitted env call) (getWorkerStatus env props name).
Proof.
  intros w st. unfold getWorkerStatus.
  destruct (credentials env) as [c |] eqn:Hcred; run; [| sent_ok I].
  destruct (getWorker_trace (client c) name w st)
    as (r & st1 & lookups & Hrun & Hcalls & Hlookups).
  rewrite Hrun.
  destruct Hlookups as [-> | ->];
    (destruct (success r); cbn [negb]; run;
     [ destruct (result r) as [worker |]; run; sent_ok Hcred
     | repeat match goal with
              | |- context [match ?x with _ => _ end] =>
                  lazymatch x with
                  | firstCode _ => destruct x
                  | _ => is_var x; destruct x
                  end
              end; run; sent_ok Hcred ]).
Qed.

Lemma deleteWorker_traced name confirm :
  traced (permitted env (CallDeleteWorker name confirm))
         (deleteWorker env props name confirm).
Proof.
  intros w st. unfold deleteWorker.
  destruct confirm; cbn [negb]; run; [| sent_ok I].
  destruct (credentials env) as [c |] eqn:Hcred; run; [| sent_ok I].
  destruct (getWorker_trace (client c) name w st)
    as (r & st1 & lookups & Hrun & Hcalls & Hlookups).
  rewrite Hrun.
  destruct (success r); cbn [negb]; run;
    [| destruct Hlookups as [-> | ->]; sent_ok Hcred].
  destruct (CloudflareAPI.deleteWorker (client c) name w st1) as [[d | e] st2] eqn:Hdel;
    pose proof (makeRequest_sends (client c) _ (fun _ => @None unit) ("/" ++ name)%string
                  "DELETE" None w st1) as Hframe;
    cbv zeta in Hframe; unfold CloudflareAPI.deleteWorker in Hdel;
    rewrite Hdel in Hframe; cbn [snd] in Hframe;
    destruct Hframe as (Hcalls2 & _); run.
  - destruct (success d); cbn [negb]; run;
      [ destruct (result r) as [worker |]; run |];
      destruct Hlookups as [-> | ->]; sent_ok Hcred.
  - destruct Hlookups as [-> | ->]; sent_ok Hcred.
Qed.

Lemma auditToDatabase_calls (row : json) (w : World) (st : State) :
  calls (snd (auditToDatabase env row w st)) = calls st.
Proof.
  unfold auditToDatabase, supabaseInsert.
  destruct (truthy (SUPABASE_URL env) && truthy (SUPABASE_ANON_KEY env)); run;
    [destruct (auditInsert w _ _) |]; reflexivity.
Qed.

Lemma createKVNamespace_traced call name title workerName :
  traced (permitted env call) (createKVNamespace env props name title workerName).
Proof.
  intros w st. unfold createKVNamespace, credentialsNotConfiguredDetails, unexpected.
  destruct (credentials env) as [c |] eqn:Hcred; run; [| sent_ok I].
  on_answer; run; [sent_ok Hcred | sent_ok Hcred |].
  unfold castBody; cbn [success errors result].
  destruct (body_success b); cbn [negb]; run; [| sent_ok Hcred].
  destruct (match body_result b with Some d => asNamespace d | None => None end)
    as [created |]; run; [| sent_ok Hcred].
  match goal with
  | |- context [auditToDatabase env ?row w ?s] =>
      pose proof (auditToDatabase_calls row w s) as Hcalls;
      destruct (auditToDatabase env row w s) as [[[] | e] st2]
  end; cbn [snd calls] in Hcalls; run; sent_ok Hcred.
Qed.

Lemma manageDurableObjects_traced call workerName className scriptName environment
      migrations :
  traced (permitted env call)
         (manageDurableObjects env props workerName className scriptName environment
                               migrations).
Proof.
  intros w st. unfold manageDurableObjects, credentialsNotConfiguredDetails, unexpected.
  destruct (credentials env) as [c |] eqn:Hcred; run; [| sent_ok I].
  match goal with
  | |- context [auditToDatabase env ?row w ?s] =>
      pose proof (auditToDatabase_calls row w s) as Hcalls;
      destruct (auditToDatabase env row w s) as [[[] | e] st2]
  end; cbn [snd calls] in Hcalls; run; sent_ok Hcred.
Qed.

Lemma secretRequest_permitted call c workerName secret (w : World) :
  credentials env = Some c ->
  permitted env call (secretRequest w c workerName secret).
Proof.
  intros Hcred. split.
  - do 2 eexists. split; [exact Hcred |]. split; [cbn; auto | reflexivity].
  - cbn. intros Hdelete. discriminate Hdelete.
Qed.

Lemma setWorkerSecrets_traced call workerName batch environment :
  traced (permitted env call) (setWorkerSecrets env props workerName batch environment).
Proof.
  intros w st.
  destruct (credentials env) as [c |] eqn:Hcred.
  - destruct batch as [| first rest].
    + unfold setWorkerSecrets, unexpected. rewrite Hcred. run. sent_ok Hcred.
    + destruct (setWorkerSecrets_run env props workerName first rest environment w st c
                  Hcred)
        as (resp & st' & collected & headline & Hrun & Hcalls & _).
      rewrite Hrun. cbn [snd]. eexists. split; [exact Hcalls |].
      constructor; [| constructor].
      apply secretRequest_permitted. exact Hcred.
  - unfold setWorkerSecrets, credentialsNotConfiguredDetails. rewrite Hcred. run.
    sent_ok I.
Qed.

Lemma deployMCPServer_traced call args :
  traced (permitted env call) (deployMCPServer env props args).
Proof.
  intros w st.
  destruct (credentials env) as [c |] eqn:Hcred.
  - destruct (deployMCPServer_run env props args w st c Hcred)
      as (resp & st' & Hrun & _ & Hcase).
    rewrite Hrun. cbn [snd].
    assert (Hfirst : Forall (permitted env call)
                       [oauthNamespaceRequest w c (arg_name args);
                        codeDeployRequest w c (arg_name args) (arg_code args)]).
    { repeat constructor;
        try (do 2 eexists; split; [exact Hcred |]; split; [cbn; auto | reflexivity]);
        cbn; intros Hdelete; discriminate Hdelete. }
    destruct (accepted _).
    + destruct Hcase as (rs & _ & Hcalls & _).
      eexists. split; [exact Hcalls |].
      apply Forall_app. split; [exact Hfirst |].
      apply Forall_forall. intros r Hr. apply in_map_iff in Hr as (secret & <- & _).
      apply secretRequest_permitted. exact Hcred.
    + destruct Hcase as (deployError & _ & _ & Hcalls & _).
      eexists. split; [exact Hcalls | exact Hfirst].
  - unfold deployMCPServer, credentialsNotConfiguredDetails. rewrite Hcred. run.
    sent_ok I.
Qed.

Lemma runSql_calls url key sql (w : World) (st : State) :
  calls (snd (runSql url key sql w st)) = calls st.
Proof.
  unfold runSql. run.
  destruct (executeSql w _ _) as [e | results [e |]]; reflexivity.
Qed.

Lemma listTables_quiet (w : World) (st : State) :
  calls (snd (listTables env props w st)) = calls st.
Proof.
  unfold listTables, describeError.
  destruct (supabaseSettings env) as [[url key] |]; run; [| reflexivity].
  destruct (getTableColumns w _) as [e | [columns |] [e |]]; run;
    try destruct e; reflexivity.
Qed.

Lemma queryDatabase_quiet sql (w : World) (st : State) :
  calls (snd (queryDatabase env props sql w st)) = calls st.
Proof.
  unfold queryDatabase, describeError. run.
  destruct (sqlIsValid (validateSqlQuery w sql)); cbn [negb]; run; [| reflexivity].
  destruct (isWriteOperation w sql); run; [reflexivity |].
  destruct (supabaseSettings env) as [[url key] |]; run; [| reflexivity].
  pose proof (runSql_calls url key sql w st) as Hcalls.
  destruct (runSql url key sql w st) as [[results | e] st1]; cbn [snd] in Hcalls; run;
    try destruct e; exact Hcalls.
Qed.

Lemma executeDatabase_quiet sql (w : World) (st : State) :
  calls (snd (executeDatabase env props sql w st)) = calls st.
Proof.
  unfold executeDatabase, describeError. run.
  destruct (sqlIsValid (validateSqlQuery w sql)); cbn [negb]; run; [| reflexivity].
  destruct (supabaseSettings env) as [[url key] |]; run; [| reflexivity].
  pose proof (runSql_calls url key sql w st) as Hcalls.
  destruct (runSql url key sql w st) as [[results | e] st1]; cbn [snd] in Hcalls; run;
    try destruct e; exact Hcalls.
Qed.

Lemma quiet_traced (h : M ToolResponse) (P : HttpRequest -> Prop) :
  (forall w st, calls (snd (h w st)) = calls st) -> traced P h.
Proof.
  intros Hquiet w st. exists []. rewrite Hquiet, app_nil_r. split; [reflexivity | constructor].
Qed.

(** Every request a handler sends, on every path. *)
Lemma handler_traced (call : ToolCall) :
  traced (permitted env call) (handler env props call).
Proof.
  destruct call as [ | | sql | sql | wname code description | | wname | wname confirm
                   | kname title workerName
                   | workerName className scriptName environment migrations
                   | workerName batch environment | args ];
    cbn [handler].
  - apply whoami_traced.
  - apply quiet_traced, listTables_quiet.
  - apply quiet_traced, queryDatabase_quiet.
  - apply quiet_traced, executeDatabase_quiet.
  - apply deployWorker_traced.
  - apply listWorkers_traced.
  - apply getWorkerStatus_traced.
  - apply deleteWorker_traced.
  - apply createKVNamespace_traced.
  - apply manageDurableObjects_traced.
  - apply setWorkerSecrets_traced.
  - apply deployMCPServer_traced.
Qed.

End Traces.

Section SupabaseTraffic.
Local Open Scope list_scope.

Variable env : Env.
Variable props : Props.


















End SupabaseTraffic.



(** X5. A DELETE request is sent by no tool but deleteWorker, and by
    deleteWorker only when the call is confirmed. *)
Theorem X5_only_confirmed_deleteWorker_deletes :
  forall (env : Env) (props : Props) (call : ToolCall) (w : World) (st : State),
  exists sent,
    calls (snd (handler env props call w st)) = (calls st ++ sent)%list /\
    forall r, In r sent -> req_method r = "DELETE" ->
              exists name, call = CallDeleteWorker name true.
Proof.
  intros env props call w st.
  destruct (handler_traced env props call w st) as (sent & Hcalls & Hsent).
  exists sent. split; [exact Hcalls |].
  intros r Hr Hdelete.
  rewrite Forall_forall in Hsent. destruct (Hsent r Hr) as [_ Hmay].
  specialize (Hmay Hdelete).
  destruct call; try discriminate Hmay. cbn in Hmay. subst. eexists. reflexivity.
Qed.

Lemma X5_witness :
  exists sent,
    calls (snd (handler configured admin (CallDeleteWorker "ghost" false)
                  settingsMissing initial)) = sent /\
    forall r, In r sent -> req_method r <> "DELETE".
Proof.
  destruct (X5_only_confirmed_deleteWorker_deletes configured admin
              (CallDeleteWorker "ghost" false) settingsMissing initial)
    as (sent & Hcalls & Honly).
  exists sent. split; [exact Hcalls |].
  intros r Hr Hdelete. destruct (Honly r Hr Hdelete) as [name Hcall]. discriminate Hcall.
Defined.

Section LocalTools.
Local Open Scope list_scope.

Variable env : Env.
Variable props : Props.

Lemma manageDurableObjects_quiet workerName className scriptName environment migrations
      (w : World) (st : State) :
  calls (snd (manageDurableObjects env props workerName className scriptName environment
                                   migrations w st)) = calls st.
Proof.
  unfold manageDurableObjects, credentialsNotConfiguredDetails, unexpected.
  destruct (credentials env) as [c |]; run; [| reflexivity].
  match goal with
  | |- context [auditToDatabase env ?row w ?s] =>
      pose proof (auditToDatabase_calls env row w s) as Hcalls;
      destruct (auditToDatabase env row w s) as [[[] | e] st2]
  end; cbn [snd calls] in Hcalls; run; exact Hcalls.
Qed.

End LocalTools.

(** X6. whoami, the three database tools and manageDurableObjects
    never send a request to Cloudflare: the log of requests is the
    same after the call as before it. *)
Theorem X6_local_tools_send_nothing :
  forall (env : Env) (props : Props) (call : ToolCall) (w : World) (st : State),
    staysLocal (toolOf call) = true ->
    calls (snd (handler env props call w st)) = calls st.
Proof.
  intros env props call w st Hlocal.
  destruct call; try discriminate Hlocal; cbn [handler].
  - reflexivity.
  - apply listTables_quiet.
  - apply queryDatabase_quiet.
  - apply executeDatabase_quiet.
  - apply manageDurableObjects_quiet.
Qed.

Lemma X6_witness :
  staysLocal (toolOf (CallManageDurableObjects "w" "MyMCP" None None None)) = true /\
  calls (snd (handler configured admin
                (CallManageDurableObjects "w" "MyMCP" None None None) healthy initial)) = [].
Proof.
  split; [reflexivity |].
  apply (X6_local_tools_send_nothing configured admin
           (CallManageDurableObjects "w" "MyMCP" None None None) healthy initial).
  reflexivity.
Defined.

(* ================================================================== *)
(** ** The database audit is best effort *)
(* ================================================================== *)

Section BestEffortAudit.
Local Open Scope list_scope.

Variable env : Env.
Variable props : Props.

(** The audit block returns in every world, and its effect on the
    state does not depend on whether the insert went through. *)
Lemma auditToDatabase_explicit (row : json) (w : World) (st : State) :
  auditToDatabase env row w st =
  (Return tt,
   if truthy (SUPABASE_URL env) && truthy (SUPABASE_ANON_KEY env)
   then {| calls := calls st;
           dbCalls := dbCalls st ++
                      [Insert (orElse (SUPABASE_URL env) "") (orElse (SUPABASE_ANON_KEY env) "")
                              "infrastructure_audit" row];
           audit := audit st;
           ticks := ticks st |}
   else st).
Proof.
  unfold auditToDatabase, supabaseInsert.
  destruct (truthy (SUPABASE_URL env) && truthy (SUPABASE_ANON_KEY env)); run;
    [destruct (auditInsert w _ _) |]; reflexivity.
Qed.

Ltac same_world :=
  cbn [withAuditInsert respond clock toISOString parseDate stringifyPretty
       stringifyCompact getTableColumns executeSql validateSqlQuery
       isWriteOperation toUpperCase toLowerCase].

(** X7. A failure of the Supabase audit insert never shows: the
    response and the final state of createKVNamespace and of
    manageDurableObjects are the same whatever the insert does. *)
Theorem X7_audit_failure_is_invisible :
  forall (f : list DbCall -> json -> option JsError) (w : World) (st : State),
    (forall name title workerName,
        createKVNamespace env props name title workerName (withAuditInsert f w) st =
        createKVNamespace env props name title workerName w st) /\
    (forall workerName className scriptName environment migrations,
        manageDurableObjects env props workerName className scriptName environment
                             migrations (withAuditInsert f w) st =
        manageDurableObjects env props workerName className scriptName environment
                             migrations w st).
Proof.
  intros f w st. split.
  - intros name title workerName.
    unfold createKVNamespace, credentialsNotConfiguredDetails, unexpected.
    destruct (credentials env) as [c |]; run; same_world; [| reflexivity].
    on_answer; run; same_world; [reflexivity | reflexivity |].
    unfold castBody; cbn [success errors result].
    destruct (body_success b); cbn [negb]; run; same_world; [| reflexivity].
    destruct (match body_result b with Some d => asNamespace d | None => None end)
      as [created |]; run; same_world; [| reflexivity].
    rewrite !auditToDatabase_explicit. reflexivity.
  - intros workerName className scriptName environment migrations.
    unfold manageDurableObjects, credentialsNotConfiguredDetails, unexpected.
    destruct (credentials env) as [c |]; run; same_world; [| reflexivity].
    rewrite !auditToDatabase_explicit. reflexivity.
Qed.

End BestEffortAudit.

(* ================================================================== *)
(** ** The orchestrator when the code deployment goes through *)
(* ================================================================== *)

(** X8. When the code deployment is accepted, the orchestrator sends,
    in this order, the namespace request, the deployment request and
    one secret-set request for each secret to set: the two GitHub
    secrets first, then DATABASE_URL, SUPABASE_URL and
    SUPABASE_ANON_KEY for those that were supplied non-empty.  The
    requests are the same whether the single secrets are accepted or
    not: a refused secret does not stop the ones after it. *)
Theorem X8_secrets_are_sent_in_order :
  forall (env : Env) (props : Props) (args : DeployMCPServerArgs)
         (w : World) (st : State) (c : string * string),
    credentials env = Some c ->
    let name := arg_name args in
    let kvReq := oauthNamespaceRequest w c name in
    let depReq := codeDeployRequest w c name (arg_code args) in
    accepted (respond w (calls st ++ [kvReq])%list depReq) = true ->
    calls (snd (deployMCPServer env props args w st)) =
      (calls st ++ [kvReq; depReq] ++ map (secretRequest w c name) (secretsToSet args))%list /\
    map secret_name (secretsToSet args) =
      ("GITHUB_CLIENT_ID" :: "GITHUB_CLIENT_SECRET" ::
       (if truthy (databaseUrl args) then ["DATABASE_URL"] else []) ++
       (if truthy (supabaseUrl args) then ["SUPABASE_URL"] else []) ++
       (if truthy (supabaseAnonKey args) then ["SUPABASE_ANON_KEY"] else []))%list.
Proof.
  intros env props args w st c Hcred name kvReq depReq Hok.
  destruct (deployMCPServer_run env props args w st c Hcred)
    as (resp & st' & Hrun & _ & Hcase).
  fold name kvReq depReq in Hcase. rewrite Hok in Hcase.
  destruct Hcase as (rs & _ & Hcalls & _).
  rewrite Hrun. split; [exact Hcalls |].
  unfold secretsToSet.
  destruct (truthy (databaseUrl args));
    destruct (truthy (supabaseUrl args));
    destruct (truthy (supabaseAnonKey args)); reflexivity.
Qed.

(** The witness: the network refuses every secret, and both are sent. *)
Lemma X8_witness :
  credentials configured = Some ("acct", "token") /\
  calls (snd (deployMCPServer configured admin demoArgs secretsRefused initial)) =
    [ oauthNamespaceRequest secretsRefused ("acct", "token") "demo";
      codeDeployRequest secretsRefused ("acct", "token") "demo" (js "export default {}");
      secretRequest secretsRefused ("acct", "token") "demo"
        {| secret_name := "GITHUB_CLIENT_ID"; secret_value := "client-id" |};
      secretRequest secretsRefused ("acct", "token") "demo"
        {| secret_name := "GITHUB_CLIENT_SECRET"; secret_value := "client-secret" |} ].
Proof.
  split; [reflexivity |].
  apply (X8_secrets_are_sent_in_order configured admin demoArgs secretsRefused initial
           ("acct", "token") eq_refl eq_refl).
Defined.

(* ================================================================== *)
(** ** getWorker and getWorkerStatus *)
(* ================================================================== *)

(** X9. [getWorker] reports a failure in one case only: the settings
    endpoint answers with a status other than 404 and a body that says
    [success: false]; the envelope is then the body itself, errors
    included.  In every other case, a thrown error and an unparsable
    body among them, it reports [success: true]. *)
Theorem X9_getWorker_fails_only_on_a_refusal :
  forall (api : CloudflareAPI.t) (name : string) (w : World) (st : State),
  exists r st',
    CloudflareAPI.getWorker api name w st = (Return r, st') /\
    (success r = false <->
     exists s b,
       answer w st (CloudflareAPI.settingsRequest api name) = Responds s (inr b) /\
       s <> 404 /\ body_success b = false) /\
    (forall s b,
        answer w st (CloudflareAPI.settingsRequest api name) = Responds s (inr b) ->
        s <> 404 -> body_success b = false ->
        r = castBody asWorker b).
Proof.
  intros api name w st. unfold answer, CloudflareAPI.getWorker, CloudflareAPI.orNow. run.
  on_answer; run.
  - do 2 eexists. split; [reflexivity |]. split.
    + split; [discriminate | intros (s1 & b1 & H & _); discriminate H].
    + intros s1 b1 H. discriminate H.
  - destruct (Nat.eqb_spec s 404) as [-> | Hs]; run.
    + on_answer; run; do 2 eexists; (split; [reflexivity |]); split;
        try (split; [discriminate | intros (s1 & b1 & H & _); discriminate H]);
        intros s1 b1 H; discriminate H.
    + do 2 eexists. split; [reflexivity |]. split.
      * split; [discriminate | intros (s1 & b1 & H & _); discriminate H].
      * intros s1 b1 H. discriminate H.
  - destruct (Nat.eqb_spec s 404) as [-> | Hs]; run.
    + on_answer; run; do 2 eexists; (split; [reflexivity |]); split;
        try (split; [discriminate
                    | intros (s1 & b1 & H & Hs1 & _); injection H as <- _; congruence]);
        intros s1 b1 H Hs1; injection H as <- _; congruence.
    + destruct (body_success b) eqn:Hb.
      * destruct (body_result b) as [d |]; run.
        -- destruct (truthyJson (resultJson d)); run;
             [ destruct (truthy (created_on _)); run;
               destruct (truthy (modified_on _)); run |];
             do 2 eexists; (split; [reflexivity |]); cbn [castBody success]; split;
             try (split; [first [discriminate | congruence]
                         | intros (s1 & b1 & H & _ & Hb1); injection H as _ <-; congruence]);
             intros s1 b1 H _ Hb1; injection H as _ <-; congruence.
        -- do 2 eexists. split; [reflexivity |]. cbn [castBody success]. split.
           ++ split; [congruence
                     | intros (s1 & b1 & H & _ & Hb1); injection H as _ <-; congruence].
           ++ intros s1 b1 H _ Hb1. injection H as _ <-. congruence.
      * run. do 2 eexists. split; [reflexivity |]. cbn [castBody success]. split.
        -- split; [intros _; exists s, b; auto | intros _; exact Hb].
        -- intros s1 b1 H _ _. injection H as _ <-. reflexivity.
Qed.

Lemma X9_witness :
  exists r st',
    CloudflareAPI.getWorker (client ("acct", "token")) "ghost" settingsRefused initial
      = (Return r, st') /\
    success r = false /\
    firstCode (errors r) = Some 10007%Z.
Proof.
  destruct (X9_getWorker_fails_only_on_a_refusal (client ("acct", "token")) "ghost"
              settingsRefused initial)
    as (r & st' & Hrun & Hiff & Hbody).
  exists r, st'. split; [exact Hrun |].
  rewrite (Hbody 400 (failedBody 10007 "workers.api.error.script_not_found") eq_refl
                 ltac:(discriminate) eq_refl).
  split; reflexivity.
Defined.

(** X10. When the settings endpoint refuses the lookup (a status other
    than 404, [success: false]), getWorkerStatus sends that one request
    and answers with an error: the "not found" text if the first error
    has the code 10007, and otherwise "Failed to get worker status"
    with the first error message, or "Worker not found" if there is
    none. *)
Theorem X10_getWorkerStatus_reports_the_refusal :
  forall (env : Env) (props : Props) (name : string) (w : World) (st : State)
         (c : string * string) (s : nat) (b : ApiBody),
    credentials env = Some c ->
    answer w st (CloudflareAPI.settingsRequest (client c) name) = Responds s (inr b) ->
    s <> 404 ->
    body_success b = false ->
    exists resp st',
      getWorkerStatus env props name w st = (Return resp, st') /\
      calls st' = (calls st ++ [CloudflareAPI.settingsRequest (client c) name])%list /\
      lastVerdict (audit st') = Some false /\
      responseText resp =
        match firstCode (body_errors b) with
        | Some 10007%Z => workerNotFound name
        | _ => "**Error**" ++ NL2 ++ "Failed to get worker status: " ++
               firstMessage (body_errors b) "Worker not found"
        end.
Proof.
  intros env props name w st c s b Hcred Hanswer Hs Hb.
  unfold answer in Hanswer.
  unfold getWorkerStatus. rewrite Hcred. unfold CloudflareAPI.getWorker. run.
  rewrite Hanswer. run.
  destruct (Nat.eqb_spec s 404) as [-> | _]; [congruence |].
  run. rewrite Hb. run. cbn [castBody success errors negb]. rewrite Hb. run.
  cbn [castBody errors].
  assert (Hlast : forall l (e : AuditEntry), lastVerdict (l ++ [e]) = Some (audit_success e)).
  { intros l e. unfold lastVerdict. rewrite rev_app_distr. reflexivity. }
  destruct (firstCode (body_errors b)) as [z |];
    repeat match goal with
           | |- context [match ?x with _ => _ end] => is_var x; destruct x
           end;
    run; do 2 eexists; (split; [reflexivity |]); (split; [reflexivity |]);
    (split; [apply Hlast | reflexivity]).
Qed.

Lemma X10_witness :
  credentials configured = Some ("acct", "token") /\
  exists resp st',
    getWorkerStatus configured admin "ghost" settingsRefused initial = (Return resp, st') /\
    responseText resp = workerNotFound "ghost".
Proof.
  split; [reflexivity |].
  destruct (X10_getWorkerStatus_reports_the_refusal configured admin "ghost"
              settingsRefused initial ("acct", "token") 400
              (failedBody 10007 "workers.api.error.script_not_found")
              eq_refl eq_refl ltac:(discriminate) eq_refl)
    as (resp & st' & Hrun & _ & _ & Htext).
  exists resp, st'. split; [exact Hrun | exact Htext].
Defined.

(* ================================================================== *)
(** ** Registration *)
(* ================================================================== *)

(** X11. One login, aboundTechOlogy, is given all twelve tools; every
    other caller is given whoami, listTables and queryDatabase and
    nothing else, so none of the tools that write, deploy or delete. *)
Theorem X11_tools_by_login :
  forall (props : Props),
    registerAllTools props =
      if String.eqb (login props) "aboundTechOlogy"
      then allTools
      else [WhoamiTool; ListTablesTool; QueryDatabaseTool].
Proof.
  intros props.
  unfold registerAllTools, has, DATABASE_WRITE_USERS, DEPLOYMENT_USERS,
    INFRASTRUCTURE_ADMINS.
  cbn [existsb]. rewrite orb_false_r.
  destruct (String.eqb (login props) "aboundTechOlogy"); reflexivity.
Qed.

(* ================================================================== *)
(** ** The database tools *)
(* ================================================================== *)

Section DatabaseTools.
Local Open Scope list_scope.

Variable env : Env.
Variable props : Props.

Lemma runSql_dbCalls url key sql (w : World) (st : State) :
  dbCalls (snd (runSql url key sql w st)) =
  dbCalls st ++ [Rpc url key "execute_sql" (Some sql)].
Proof.
  unfold runSql. run.
  destruct (executeSql w _ _) as [e | results [e |]]; reflexivity.
Qed.

(** X12. queryDatabase reaches the database only with SQL that the
    checker finds valid and that is not a write operation, and
    executeDatabase only with SQL that the checker finds valid; each
    then makes one RPC, [execute_sql], that carries the SQL as it was
    given.  SQL that is turned away gets an error response. *)
Theorem X12_sql_is_checked_before_it_runs :
  forall (sql : string) (w : World) (st : State),
    let valid := sqlIsValid (validateSqlQuery w sql) in
    let write := isWriteOperation w sql in
    dbCalls (snd (queryDatabase env props sql w st)) =
      dbCalls st ++ (if valid && negb write then sqlCall env sql else []) /\
    dbCalls (snd (executeDatabase env props sql w st)) =
      dbCalls st ++ (if valid then sqlCall env sql else []) /\
    (valid && negb write = false ->
     exists resp, queryDatabase env props sql w st = (Return resp, st) /\
                  isError resp = true) /\
    (valid = false ->
     exists resp, executeDatabase env props sql w st = (Return resp, st) /\
                  isError resp = true).
Proof.
  intros sql w st valid write. unfold valid, write, sqlCall.
  repeat split.
  - unfold queryDatabase, describeError. run.
    destruct (sqlIsValid (validateSqlQuery w sql)); cbn [negb andb]; run;
      [| symmetry; apply app_nil_r].
    destruct (isWriteOperation w sql); cbn [negb]; run; [symmetry; apply app_nil_r |].
    destruct (supabaseSettings env) as [[url key] |]; run; [| symmetry; apply app_nil_r].
    pose proof (runSql_dbCalls url key sql w st) as Hdb.
    destruct (runSql url key sql w st) as [[results | e] st1]; cbn [snd] in Hdb; run;
      try destruct e; exact Hdb.
  - unfold executeDatabase, describeError. run.
    destruct (sqlIsValid (validateSqlQuery w sql)); cbn [negb]; run;
      [| symmetry; apply app_nil_r].
    destruct (supabaseSettings env) as [[url key] |]; run; [| symmetry; apply app_nil_r].
    pose proof (runSql_dbCalls url key sql w st) as Hdb.
    destruct (runSql url key sql w st) as [[results | e] st1]; cbn [snd] in Hdb; run;
      try destruct e; exact Hdb.
  - unfold queryDatabase. run.
    destruct (sqlIsValid (validateSqlQuery w sql)); cbn [negb andb]; run.
    + destruct (isWriteOperation w sql); cbn [negb]; run; [| discriminate].
      intros _. eexists. split; reflexivity.
    + intros _. eexists. split; reflexivity.
  - unfold executeDatabase. run. intros Hvalid. rewrite Hvalid. cbn [negb]. run.
    eexists. split; reflexivity.
Qed.

End DatabaseTools.

(** The witness: a world whose checker calls every statement a write. *)
Lemma X12_witness :
  exists resp,
    queryDatabase configured admin "DELETE FROM users"
      (withAuditInsert (fun _ _ => None)
         {| respond := respond healthy; clock := clock healthy;
            toISOString := toISOString healthy; parseDate := parseDate healthy;
            stringifyPretty := render; stringifyCompact := render;
            getTableColumns := getTableColumns healthy; executeSql := executeSql healthy;
            auditInsert := auditInsert healthy;
            validateSqlQuery := validateSqlQuery healthy;
            isWriteOperation := fun _ => true;
            toUpperCase := toUpperCase healthy; toLowerCase := toLowerCase healthy |})
      initial = (Return resp, initial) /\
    isError resp = true.
Proof.
  match goal with
  | |- exists resp, queryDatabase ?e ?p ?q ?w ?s = _ /\ _ =>
      destruct (X12_sql_is_checked_before_it_runs e p q w s) as (_ & _ & Hquery & _)
  end.
  apply Hquery. reflexivity.
Defined.

(* ================================================================== *)
(** ** listWorkers, deployWorker and createKVNamespace *)
(* ================================================================== *)

(** X13. An account without workers is not an error: when the list
    request is accepted and its result is empty or missing, listWorkers
    answers "No Workers Found" and records a successful operation. *)
Theorem X13_no_workers_is_not_an_error :
  forall (env : Env) (props : Props) (w : World) (st : State)
         (c : string * string) (s : nat) (b : ApiBody),
    credentials env = Some c ->
    answer w st (CloudflareAPI.requestInit (stringifyCompact w) (client c) "" "GET" None)
      = Responds s (inr b) ->
    body_success b = true ->
    body_result b = None \/ body_result b = Some (WorkerList []) ->
    exists resp st',
      listWorkers env props w st = (Return resp, st') /\
      String.prefix "**No Workers Found**" (responseText resp) = true /\
      isError resp = false /\
      lastVerdict (audit st') = Some true.
Proof.
  intros env props w st c s b Hcred Hanswer Hb Hempty.
  unfold answer in Hanswer.
  unfold listWorkers. rewrite Hcred.
  unfold CloudflareAPI.listWorkers, CloudflareAPI.makeRequest. run.
  rewrite Hanswer. run. cbn [castBody success errors result negb]. rewrite Hb. cbn [negb].
  assert (Hlast : forall l (e : AuditEntry), lastVerdict (l ++ [e])%list = Some (audit_success e)).
  { intros l e. unfold lastVerdict. rewrite rev_app_distr. reflexivity. }
  destruct Hempty as [Hnone | Hnil]; [rewrite Hnone | rewrite Hnil]; cbn [asWorkers]; run;
    do 2 eexists; (split; [reflexivity |]); (split; [reflexivity |]);
    (split; [reflexivity | apply Hlast]).
Qed.

Lemma X13_witness :
  credentials configured = Some ("acct", "token") /\
  exists resp st',
    listWorkers configured admin settingsMissing initial = (Return resp, st') /\
    isError resp = false.
Proof.
  split; [reflexivity |].
  destruct (X13_no_workers_is_not_an_error configured admin settingsMissing initial
              ("acct", "token") 200 (okBody None) eq_refl eq_refl eq_refl
              (or_introl eq_refl))
    as (resp & st' & Hrun & _ & Herr & _).
  exists resp, st'. split; [exact Hrun | exact Herr].
Defined.

(** X14. For code that passes validation and with the credentials in
    place, deployWorker sends exactly one request, the multipart upload
    whose script part is the code as it was given, and its response is
    an error response exactly when that request was not accepted; the
    audit entry says the same. *)
Theorem X14_deployWorker_uploads_the_code :
  forall (env : Env) (props : Props) (name : string) (code : jsstring)
         (description : option string) (w : World) (st : State) (c : string * string),
    isValid (validateWorkerCode code) = true ->
    credentials env = Some c ->
    let ok := accepted (answer w st (codeDeployRequest w c name code)) in
    exists resp st',
      deployWorker env props name code description w st = (Return resp, st') /\
      calls st' = (calls st ++ [codeDeployRequest w c name code])%list /\
      req_body (codeDeployRequest w c name code) =
        FormBody [ {| part_name := "worker.js";
                      part_type := "application/javascript+module";
                      part_content := ScriptPart code |};
                   {| part_name := "metadata";
                      part_type := "application/json";
                      part_content :=
                        TextPart (stringifyCompact w (CloudflareAPI.metadataJson None)) |} ] /\
      isError resp = negb ok /\
      lastVerdict (audit st') = Some ok.
Proof.
  intros env props name code description w st c Hvalid Hcred ok.
  unfold ok, answer, accepted.
  unfold deployWorker. rewrite Hvalid, Hcred. cbn [negb].
  unfold CloudflareAPI.deployWorker. run.
  change (CloudflareAPI.deployRequest _ _ _ _) with (codeDeployRequest w c name code).
  assert (Hlast : forall l (e : AuditEntry), lastVerdict (l ++ [e])%list = Some (audit_success e)).
  { intros l e. unfold lastVerdict. rewrite rev_app_distr. reflexivity. }
  on_answer; run.
  - do 2 eexists. repeat (split; [reflexivity |]). apply Hlast.
  - do 2 eexists. repeat (split; [reflexivity |]). apply Hlast.
  - cbn [castBody success errors result]. destruct (body_success b); cbn [negb]; run;
      do 2 eexists; repeat (split; [reflexivity |]); apply Hlast.
Qed.

Lemma X14_witness :
  isValid (validateWorkerCode (js "export default {}")) = true /\
  credentials configured = Some ("acct", "token") /\
  exists resp st',
    deployWorker configured admin "demo" (js "export default {}") None healthy initial
      = (Return resp, st') /\
    isError resp = false.
Proof.
  split; [reflexivity |]. split; [reflexivity |].
  destruct (X14_deployWorker_uploads_the_code configured admin "demo"
              (js "export default {}") None healthy initial ("acct", "token")
              eq_refl eq_refl)
    as (resp & st' & Hrun & _ & _ & Herr & _).
  exists resp, st'. split; [exact Hrun | exact Herr].
Defined.

(** X15. With the credentials in place createKVNamespace sends one
    POST that carries the title.  When the result of the answer, if
    there is one, is a namespace, the tool succeeds exactly when the
    answer is an accepted body with that namespace in it, and the row
    for the Supabase audit table is written only after the namespace
    was created, and only when Supabase is configured. *)
Theorem X15_createKVNamespace_outcome :
  forall (env : Env) (props : Props) (name title : string) (workerName : option string)
         (w : World) (st : State) (c : string * string),
    credentials env = Some c ->
    let req := CloudflareAPI.namespaceRequest (stringifyCompact w) (client c) title in
    let created := namespaceCreated (answer w st req) in
    match answer w st req with
    | Responds _ (inr b) =>
        match body_result b with
        | Some (NamespaceData _) | None => True
        | Some _ => False
        end
    | _ => True
    end ->
    exists resp st',
      createKVNamespace env props name title workerName w st = (Return resp, st') /\
      calls st' = (calls st ++ [req])%list /\
      isError resp = match created with Some _ => false | None => true end /\
      dbCalls st' =
        (dbCalls st ++ match created with
                       | Some ns => auditCall env (namespaceAuditRow props name workerName ns)
                       | None => []
                       end)%list.
Proof.
  intros env props name title workerName w st c Hcred req created Hshape.
  revert Hshape. unfold created, answer, namespaceCreated, req.
  unfold createKVNamespace, credentialsNotConfiguredDetails, unexpected. rewrite Hcred. run.
  unfold CloudflareAPI.namespaceRequest. cbn [CloudflareAPI.accountId client].
  change (CloudflareAPI.jsonHeaders (client c))
    with [("Authorization", "Bearer " ++ snd c); ("Content-Type", "application/json")].
  on_answer; run; intros Hshape.
  - do 2 eexists. repeat (split; [reflexivity |]). symmetry. apply app_nil_r.
  - do 2 eexists. repeat (split; [reflexivity |]). symmetry. apply app_nil_r.
  - cbn [castBody success errors result]. destruct (body_success b); cbn [negb]; run.
    + destruct (body_result b) as [[worker | workers | ns | j] |];
        try destruct Hshape; cbn [asNamespace]; run;
        try (do 2 eexists; repeat (split; [reflexivity |]); symmetry; apply app_nil_r).
      fold (namespaceAuditRow props name workerName ns).
      rewrite auditToDatabase_explicit. unfold auditCall.
      destruct (truthy (SUPABASE_URL env) && truthy (SUPABASE_ANON_KEY env));
        do 2 eexists; repeat (split; [reflexivity |]);
        first [reflexivity | symmetry; apply app_nil_r].
    + do 2 eexists. repeat (split; [reflexivity |]). symmetry. apply app_nil_r.
Qed.

Lemma X15_witness :
  credentials configured = Some ("acct", "token") /\
  exists resp st',
    createKVNamespace configured admin "OAUTH_KV" "demo-oauth-kv" None healthy initial
      = (Return resp, st') /\
    isError resp = false /\
    length (calls st') = 1.
Proof.
  split; [reflexivity |].
  destruct (X15_createKVNamespace_outcome configured admin "OAUTH_KV" "demo-oauth-kv" None
              healthy initial ("acct", "token") eq_refl I)
    as (resp & st' & Hrun & Hcalls & Herr & _).
  exists resp, st'. split; [exact Hrun |]. split; [exact Herr |].
  rewrite Hcalls. reflexivity.
Defined.

(* ================================================================== *)
(** ** The grouping of columns in listTables *)
(* ================================================================== *)

Section Grouping.
Local Open Scope list_scope.

Lemma addColumn_names (tableMap : list (string * list json)) (col : ColumnInfo) :
  map fst (addColumn tableMap col) =
  map fst tableMap ++
    (if existsb (String.eqb (table_name col)) (map fst tableMap)
     then [] else [table_name col]).
Proof.
  induction tableMap as [| [t cols] rest IH]; [reflexivity |].
  cbn [addColumn map fst existsb].
  rewrite (String.eqb_sym (table_name col) t).
  destruct (String.eqb t (table_name col)); cbn [orb map fst].
  - rewrite app_nil_r. reflexivity.
  - rewrite IH. reflexivity.
Qed.

Lemma existsb_name (t : string) (names : list string) :
  existsb (String.eqb t) names = true <-> In t names.
Proof.
  rewrite existsb_exists. split.
  - intros (x & Hx & Heq). apply String.eqb_eq in Heq. subst. exact Hx.
  - intros Hin. exists t. split; [exact Hin | apply String.eqb_refl].
Qed.

Lemma addColumn_entries (tableMap : list (string * list json)) (col : ColumnInfo) :
  NoDup (map fst tableMap) ->
  forall t cols,
    In (t, cols) (addColumn tableMap col) ->
    (t <> table_name col /\ In (t, cols) tableMap) \/
    (t = table_name col /\
     exists before, cols = before ++ [columnJson col] /\
       (In (t, before) tableMap \/ (before = [] /\ ~ In t (map fst tableMap)))).
Proof.
  induction tableMap as [| [t0 cols0] rest IH]; intros Hnodup t cols Hin.
  - cbn in Hin. destruct Hin as [Heq | []]. inversion Heq; subst.
    right. split; [reflexivity |]. exists []. split; [reflexivity |].
    right. split; [reflexivity | intros []].
  - cbn [map fst] in Hnodup. inversion Hnodup as [| x l Hfresh Hrest]; subst.
    cbn [addColumn] in Hin.
    destruct (String.eqb t0 (table_name col)) eqn:Hname.
    + apply String.eqb_eq in Hname. destruct Hin as [Heq | Hin].
      * inversion Heq; subst. right. split; [reflexivity |].
        exists cols0. split; [reflexivity |]. left. left. reflexivity.
      * left. split; [| right; exact Hin].
        intros Heq. apply Hfresh. rewrite Hname, <- Heq.
        change t with (fst (t, cols)). apply in_map. exact Hin.
    + apply String.eqb_neq in Hname. destruct Hin as [Heq | Hin].
      * inversion Heq; subst. left. split; [exact Hname | left; reflexivity].
      * destruct (IH Hrest t cols Hin) as [[Hne Hold] | (Heq & before & Hcols & Hwhere)].
        -- left. split; [exact Hne | right; exact Hold].
        -- right. split; [exact Heq |]. exists before. split; [exact Hcols |].
           destruct Hwhere as [Hold | [Hnil Hnew]].
           ++ left. right. exact Hold.
           ++ right. split; [exact Hnil |].
              cbn [map fst]. intros [Hhead | Htail]; [| exact (Hnew Htail)].
              apply Hname. rewrite Hhead. exact Heq.
Qed.

Lemma columnsOf_snoc (t : string) (columns : list ColumnInfo) (col : ColumnInfo) :
  columnsOf t (columns ++ [col]) =
  columnsOf t columns ++ (if String.eqb t (table_name col) then [columnJson col] else []).
Proof.
  unfold columnsOf. rewrite filter_app, map_app. cbn [filter].
  destruct (String.eqb t (table_name col)); reflexivity.
Qed.

Lemma columnsOf_absent (t : string) (columns : list ColumnInfo) :
  ~ In t (map table_name columns) -> columnsOf t columns = [].
Proof.
  unfold columnsOf. induction columns as [| col rest IH]; intros Habsent; [reflexivity |].
  cbn [filter]. destruct (String.eqb t (table_name col)) eqn:Hname.
  - apply String.eqb_eq in Hname. exfalso. apply Habsent. left. symmetry. exact Hname.
  - apply IH. intros Hin. apply Habsent. right. exact Hin.
Qed.

(** X16. The loop of listTables groups the columns by table: the
    tables it reports are exactly the table names that occur among the
    columns, each one once, and each table carries all of its columns
    and no others, in the order the columns came in. *)
Theorem X16_listTables_groups_by_table :
  forall (columns : list ColumnInfo),
    let tableMap := fold_left addColumn columns [] in
    NoDup (map fst tableMap) /\
    (forall t, In t (map fst tableMap) <-> In t (map table_name columns)) /\
    (forall t cols, In (t, cols) tableMap -> cols = columnsOf t columns).
Proof.
  intros columns. cbv zeta.
  induction columns as [| col columns IH] using rev_ind.
  - split; [constructor | split; [intros t; split; intros [] | intros t cols []]].
  - rewrite fold_left_app. cbn [fold_left].
    destruct IH as (Hnodup & Hnames & Hcols).
    set (tableMap := fold_left addColumn columns []) in *.
    assert (Hkeys : forall t, In t (map fst (addColumn tableMap col)) <->
                              In t (map table_name (columns ++ [col]))).
    { intros t. rewrite addColumn_names, map_app, !in_app_iff, Hnames.
      cbn [map]. destruct (existsb _ _) eqn:Hknown.
      - apply existsb_name in Hknown. apply Hnames in Hknown.
        split; [intros [H | []]; left; exact H |].
        intros [H | [H | []]]; left; [exact H | rewrite <- H; exact Hknown].
      - reflexivity. }
    split; [| split; [exact Hkeys |]].
    + rewrite addColumn_names. destruct (existsb _ _) eqn:Hknown.
      * rewrite app_nil_r. exact Hnodup.
      * apply NoDup_app; [exact Hnodup | repeat constructor; intros [] |].
        intros t Hin [Heq | []]. subst t.
        apply existsb_name in Hin. rewrite Hin in Hknown. discriminate.
    + intros t cols Hin. rewrite columnsOf_snoc.
      destruct (addColumn_entries tableMap col Hnodup t cols Hin)
        as [[Hne Hold] | (Heq & before & Hshape & Hwhere)].
      * apply String.eqb_neq in Hne. rewrite Hne, app_nil_r. apply Hcols. exact Hold.
      * subst t. rewrite String.eqb_refl, Hshape. f_equal.
        destruct Hwhere as [Hold | [Hnil Hnew]]; [apply Hcols; exact Hold |].
        rewrite Hnil. symmetry. apply columnsOf_absent.
        intros Hin'. apply Hnew. apply Hnames. exact Hin'.
Qed.

End Grouping.

(** The witness: two columns of [users] with one of [posts] between
    them. *)
Lemma X16_witness :
  columnsOf "users"
    [ {| table_name := "users"; column_name := "id"; data_type := "uuid";
         is_nullable := "NO"; column_default := None |};
      {| table_name := "posts"; column_name := "title"; data_type := "text";
         is_nullable := "YES"; column_default := None |};
      {| table_name := "users"; column_name := "joined"; data_type := "date";
         is_nullable := "YES"; column_default := Some "now()" |} ] =
  [ JObj [("name", JStr "id"); ("type", JStr "uuid");
          ("nullable", JBool false); ("default", JNull)];
    JObj [("name", JStr "joined"); ("type", JStr "date");
          ("nullable", JBool true); ("default", JStr "now()")] ].
Proof.
  symmetry.
  match goal with
  | |- _ = columnsOf _ ?columns =>
      apply (proj2 (proj2 (X16_listTables_groups_by_table columns)))
  end.
  simpl. left. reflexivity.
Defined.
